(** * An OCI registry handler (main.go): shallow embedding and properties

    The development follows the Go program: the [strings] helpers it calls,
    [parseName], the three grammars of [matches], the digest service, the
    file system calls of package [os] over a directory tree, the
    [http.ResponseWriter] discipline, and the chain of endpoint matchers of
    the handler registered at [/v2/]. *)

From Stdlib Require Import Bool Arith ZArith Lia List Ascii String DecimalString.
Import ListNotations.
Open Scope string_scope.
Open Scope list_scope.

Set Implicit Arguments.

(* ================================================================= *)
(** ** Package [strings] *)

Module strings.

(** [strings.HasPrefix(s, prefix)]. *)
Fixpoint HasPrefix (s prefix : string) {struct prefix} : bool :=
  match prefix with
  | EmptyString => true
  | String p prefix' =>
      match s with
      | EmptyString => false
      | String c s' => Ascii.eqb c p && HasPrefix s' prefix'
      end
  end.

Fixpoint drop (n : nat) (s : string) : string :=
  match n, s with
  | S n', String _ s' => drop n' s'
  | _, _ => s
  end.

Fixpoint take (n : nat) (s : string) : string :=
  match n, s with
  | S n', String c s' => String c (take n' s')
  | _, _ => EmptyString
  end.

(** [strings.TrimPrefix(s, prefix)]: [s[len(prefix):]] when [s] starts
    with [prefix], [s] otherwise. *)
Definition TrimPrefix (s prefix : string) : string :=
  if HasPrefix s prefix then drop (String.length prefix) s else s.

(** [strings.HasSuffix(s, suffix)]:
    [len(s) >= len(suffix) && s[len(s)-len(suffix):] == suffix]. *)
Definition HasSuffix (s suffix : string) : bool :=
  Nat.leb (String.length suffix) (String.length s)
  && String.eqb (drop (String.length s - String.length suffix) s) suffix.

(** [strings.Contains(s, substr)]: some suffix of [s] starts with
    [substr]. *)
Fixpoint Contains (s substr : string) : bool :=
  HasPrefix s substr
  || match s with
     | EmptyString => false
     | String _ s' => Contains s' substr
     end.

(** The scan shared by [Count] and [Split] for a non-empty separator:
    [skip] counts the bytes of a separator found at an earlier position
    that are still to be passed over. *)
Fixpoint count_from (sep : string) (skip : nat) (s : string) : nat :=
  match s with
  | EmptyString => 0
  | String _ s' =>
      match skip with
      | S k => count_from sep k s'
      | O => if HasPrefix s sep
             then S (count_from sep (String.length sep - 1) s')
             else count_from sep 0 s'
      end
  end.

(** [strings.Count(s, substr)], non-overlapping occurrences; every call
    of the program passes a non-empty literal. *)
Definition Count (s substr : string) : nat := count_from substr 0 s.

(** The pieces from the current position on; the head of the result is
    the piece that starts here. *)
Fixpoint split_from (sep : string) (skip : nat) (s : string) : list string :=
  match s with
  | EmptyString => [EmptyString]
  | String c s' =>
      match skip with
      | S k => split_from sep k s'
      | O => if HasPrefix s sep
             then EmptyString :: split_from sep (String.length sep - 1) s'
             else match split_from sep 0 s' with
                  | p :: ps => String c p :: ps
                  | [] => [String c EmptyString]
                  end
      end
  end.

(** [strings.Split(s, sep)] for a non-empty [sep]. *)
Definition Split (s sep : string) : list string := split_from sep 0 s.

(** [strings.Join(elems, sep)]. *)
Fixpoint Join (elems : list string) (sep : string) : string :=
  match elems with
  | [] => EmptyString
  | [a] => a
  | a :: rest => (a ++ sep ++ Join rest sep)%string
  end.

End strings.

(* ================================================================= *)
(** ** Go values shared by the program *)

(** An [error]: the program only renders it ([err.Error()]) and asks
    whether it is [os.ErrNotExist]. *)
Record error := mkError { is_not_exist : bool; Error : string }.

(** A [(T, error)] pair of results where exactly one side is meaningful. *)
Inductive result (A : Type) : Type :=
| Ok (a : A)
| Err (e : error).
Arguments Ok {A} a.
Arguments Err {A} e.

(** [errors.New(msg)]. *)
Definition errors_New (msg : string) : error := mkError false msg.

(* ================================================================= *)
(** ** [parseName] *)

(** The four components at which the loop of [parseName] breaks. *)
Definition is_endpoint_keyword (p : string) : bool :=
  String.eqb p "blobs" || String.eqb p "manifests"
  || String.eqb p "tags" || String.eqb p "referrers".

(** The [for ... range strings.Split(s, "/")] loop: components are appended
    until the first keyword. *)
Fixpoint name_parts (ps : list string) : list string :=
  match ps with
  | [] => []
  | p :: ps' => if is_endpoint_keyword p then [] else p :: name_parts ps'
  end.

Definition parseName (url : string) : result string :=
  let s := strings.TrimPrefix url "/v2/" in
  let paths := strings.Count s "/" in
  if Nat.leb paths 1 then
    Err (errors_New ("URL does not match any valid OCI endpoint: " ++ url))
  else if Nat.eqb paths 2 then
    Ok (nth 0 (strings.Split s "/") EmptyString)
  else
    Ok (strings.Join (name_parts (strings.Split s "/")) "/").

(* ================================================================= *)
(** ** Package [regexp]: the patterns of the program and [MatchString] *)

Module regexp.

(** The syntax the three patterns need.  Both anchors [^] and [$] are
    part of every pattern, so matching is acceptance of the whole text. *)
Inductive regex : Type :=
| Void
| Eps
| Class (P : ascii -> bool)
| Seq (a b : regex)
| Alt (a b : regex)
| Star (a : regex).

Fixpoint nullable (r : regex) : bool :=
  match r with
  | Void => false
  | Eps => true
  | Class _ => false
  | Seq a b => nullable a && nullable b
  | Alt a b => nullable a || nullable b
  | Star _ => true
  end.

Definition seq (a b : regex) : regex :=
  match a with
  | Void => Void
  | Eps => b
  | _ => Seq a b
  end.

Definition alt (a b : regex) : regex :=
  match a, b with
  | Void, _ => b
  | _, Void => a
  | _, _ => Alt a b
  end.

(** Brzozowski derivative. *)
Fixpoint deriv (c : ascii) (r : regex) : regex :=
  match r with
  | Void => Void
  | Eps => Void
  | Class P => if P c then Eps else Void
  | Seq a b => alt (seq (deriv c a) b) (if nullable a then deriv c b else Void)
  | Alt a b => alt (deriv c a) (deriv c b)
  | Star a => seq (deriv c a) (Star a)
  end.

Fixpoint accepts (r : regex) (s : string) : bool :=
  match s with
  | EmptyString => nullable r
  | String c s' => accepts (deriv c r) s'
  end.

(** [x+], [x{n}], [x{0,n}], [x{lo,hi}] and literal text. *)
Definition Plus (a : regex) : regex := Seq a (Star a).

Fixpoint Times (n : nat) (a : regex) : regex :=
  match n with
  | O => Eps
  | S n' => Seq a (Times n' a)
  end.

Fixpoint UpTo (n : nat) (a : regex) : regex :=
  match n with
  | O => Eps
  | S n' => Alt Eps (Seq a (UpTo n' a))
  end.

Definition Range (lo hi : nat) (a : regex) : regex :=
  Seq (Times lo a) (UpTo (hi - lo) a).

Fixpoint Lit (s : string) : regex :=
  match s with
  | EmptyString => Eps
  | String c s' => Seq (Class (Ascii.eqb c)) (Lit s')
  end.

(** Character classes. *)
Definition between (lo hi c : ascii) : bool :=
  (nat_of_ascii lo <=? nat_of_ascii c)%nat && (nat_of_ascii c <=? nat_of_ascii hi)%nat.

Fixpoint one_of (set : string) (c : ascii) : bool :=
  match set with
  | EmptyString => false
  | String x set' => Ascii.eqb c x || one_of set' c
  end.

End regexp.

Import regexp.

(** [[a-z0-9]] *)
Definition lower_alnum (c : ascii) : bool := between "a" "z" c || between "0" "9" c.
(** [[._-]] *)
Definition name_sep (c : ascii) : bool := one_of "._-" c.
(** [[a-zA-Z0-9_]] *)
Definition ref_head (c : ascii) : bool :=
  between "a" "z" c || between "A" "Z" c || between "0" "9" c || one_of "_" c.
(** [[a-zA-Z0-9._-]] *)
Definition ref_tail (c : ascii) : bool :=
  between "a" "z" c || between "A" "Z" c || between "0" "9" c || one_of "._-" c.
(** [[a-f0-9]] *)
Definition lower_hex (c : ascii) : bool := between "a" "f" c || between "0" "9" c.

(** One path component of a name, "[a-z0-9]+([._-][a-z0-9]+)*". *)
Definition name_component : regex :=
  Seq (Plus (Class lower_alnum))
      (Star (Seq (Class name_sep) (Plus (Class lower_alnum)))).

(** The constant [nameRegex]: between the anchors, one component and then
    any number of groups made of a slash and a component. *)
Definition nameRegex : regex :=
  Seq name_component (Star (Seq (Lit "/") name_component)).

(** The constant [refRegex], "^[a-zA-Z0-9_][a-zA-Z0-9._-]{1,127}$". *)
Definition refRegex : regex :=
  Seq (Class ref_head) (Range 1 127 (Class ref_tail)).

(** The constant [digestRegex], "^sha256:([a-f0-9]{64})$". *)
Definition digestRegex : regex :=
  Seq (Lit "sha256:") (Times 64 (Class lower_hex)).

(** [matches(pattern, name)]: the three patterns compile, so the error
    branch of [regexp.MatchString] only logs and is never taken. *)
Definition matches (pattern : regex) (name : string) : bool :=
  accepts pattern name.

(* ================================================================= *)
(** ** Package [crypto/sha256] and [getDigest] *)

Module sha256.
Local Open Scope N_scope.

Definition w32 (x : N) : N := x mod 4294967296.
Definition add32 (x y : N) : N := w32 (x + y).
Definition rotr (n x : N) : N :=
  N.lor (N.shiftr x n) (w32 (N.shiftl x (32 - n))).
Definition not32 (x : N) : N := 4294967295 - x.

Definition Ch (x y z : N) : N := N.lxor (N.land x y) (N.land (not32 x) z).
Definition Maj (x y z : N) : N :=
  N.lxor (N.lxor (N.land x y) (N.land x z)) (N.land y z).
Definition Sigma0 (x : N) : N := N.lxor (N.lxor (rotr 2 x) (rotr 13 x)) (rotr 22 x).
Definition Sigma1 (x : N) : N := N.lxor (N.lxor (rotr 6 x) (rotr 11 x)) (rotr 25 x).
Definition sigma0 (x : N) : N := N.lxor (N.lxor (rotr 7 x) (rotr 18 x)) (N.shiftr x 3).
Definition sigma1 (x : N) : N := N.lxor (N.lxor (rotr 17 x) (rotr 19 x)) (N.shiftr x 10).

(** The first sixty-four primes. *)
Definition primes : list N :=
  [2; 3; 5; 7; 11; 13; 17; 19; 23; 29; 31; 37; 41; 43; 47; 53;
   59; 61; 67; 71; 73; 79; 83; 89; 97; 101; 103; 107; 109; 113; 127; 131;
   137; 139; 149; 151; 157; 163; 167; 173; 179; 181; 191; 193; 197; 199; 211; 223;
   227; 229; 233; 239; 241; 251; 257; 263; 269; 271; 277; 281; 283; 293; 307; 311].

(** The integer cube root of [x] below [2 ^ bits], one bit at a time. *)
Fixpoint cube_root (bits : nat) (x r : N) : N :=
  match bits with
  | O => r
  | S b =>
      let c := r + 2 ^ N.of_nat b in
      if c * c * c <=? x then cube_root b x c else cube_root b x r
  end.

(** The round constants: the first 32 bits of the fractional part of the
    cube root of each prime. *)
Definition K : list N :=
  map (fun p => w32 (cube_root 40 (p * 2 ^ 96) 0)) primes.

(** The first 32 bits of the fractional part of the square root. *)
Definition frac_sqrt (p : N) : N := w32 (N.sqrt (p * 2 ^ 64)).

(** The chaining value [a..h]. *)
Record state := mkState { sa : N; sb : N; sc : N; sd : N; se : N; sf : N; sg : N; sh : N }.

(** The initial chaining value, from the first eight primes. *)
Definition init : state :=
  mkState (frac_sqrt 2) (frac_sqrt 3) (frac_sqrt 5) (frac_sqrt 7)
          (frac_sqrt 11) (frac_sqrt 13) (frac_sqrt 17) (frac_sqrt 19).

(** The message schedule, newest word first: [n] more words are derived
    from the sixteen before them. *)
Fixpoint schedule (n : nat) (w : list N) : list N :=
  match n with
  | O => w
  | S n' =>
      let x := add32 (add32 (sigma1 (nth 1 w 0)) (nth 6 w 0))
                     (add32 (sigma0 (nth 14 w 0)) (nth 15 w 0)) in
      schedule n' (x :: w)
  end.

Definition round (s : state) (kw : N * N) : state :=
  let t1 := add32 (add32 (add32 (sh s) (Sigma1 (se s))) (Ch (se s) (sf s) (sg s)))
                  (add32 (fst kw) (snd kw)) in
  let t2 := add32 (Sigma0 (sa s)) (Maj (sa s) (sb s) (sc s)) in
  mkState (add32 t1 t2) (sa s) (sb s) (sc s) (add32 (sd s) t1) (se s) (sf s) (sg s).

(** One 512-bit block, given as its sixteen big-endian words. *)
Definition block (s : state) (words : list N) : state :=
  let w := rev (schedule 48 (rev words)) in
  let r := fold_left round (combine K w) s in
  mkState (add32 (sa s) (sa r)) (add32 (sb s) (sb r)) (add32 (sc s) (sc r))
          (add32 (sd s) (sd r)) (add32 (se s) (se r)) (add32 (sf s) (sf r))
          (add32 (sg s) (sg r)) (add32 (sh s) (sh r)).

(** Big-endian bytes of a value on [n] bytes. *)
Fixpoint be_bytes (n : nat) (x : N) : list N :=
  match n with
  | O => []
  | S n' => (N.shiftr x (8 * N.of_nat n')) mod 256 :: be_bytes n' x
  end.

(** Padding: the byte [0x80], zeros up to 56 modulo 64, and the bit
    length on eight bytes. *)
Definition pad (msg : list N) : list N :=
  let l := List.length msg in
  let zeros := ((64 - ((l + 9) mod 64)) mod 64)%nat in
  msg ++ [128] ++ repeat 0 zeros ++ be_bytes 8 (8 * N.of_nat l).

(** Bytes are grouped into words and words into blocks as they arrive:
    [cur] is the word being assembled from [k] bytes, [ws] the words of
    the block so far (newest first). *)
Fixpoint absorb (bytes : list N) (k : nat) (cur : N) (ws : list N) (s : state) : state :=
  match bytes with
  | [] => s
  | b :: rest =>
      let cur' := cur * 256 + b in
      match k with
      | 3%nat =>
          if (List.length ws =? 15)%nat
          then absorb rest 0 0 [] (block s (rev (cur' :: ws)))
          else absorb rest 0 0 (cur' :: ws) s
      | _ => absorb rest (S k) cur' ws s
      end
  end.

Definition bytes_of_string (s : string) : list N :=
  map N_of_ascii (list_ascii_of_string s).

(** [sha256.Sum256(b)]: the 32 bytes of the checksum. *)
Definition Sum256 (b : string) : list N :=
  let s := absorb (pad (bytes_of_string b)) 0 0 [] init in
  flat_map (be_bytes 4) [sa s; sb s; sc s; sd s; se s; sf s; sg s; sh s].

End sha256.

(** Lower-case hexadecimal, as [fmt]'s verb [%x] prints a byte array: two
    digits per byte, no separator. *)
Definition hex_digit (n : N) : ascii :=
  nth (N.to_nat n) (list_ascii_of_string "0123456789abcdef") "0"%char.

Fixpoint fmt_x (bytes : list N) : string :=
  match bytes with
  | [] => EmptyString
  | b :: rest =>
      String (hex_digit (N.shiftr b 4)) (String (hex_digit (N.land b 15)) (fmt_x rest))
  end.

Definition getDigest (b : string) : string :=
  "sha256:" ++ fmt_x (sha256.Sum256 b).

(* ================================================================= *)
(** ** Package [path] *)

Module path.

(** One element of the path being cleaned against the elements kept so
    far (newest first): empty and [.] elements are dropped, [..] removes
    the element before it, or stays when there is none to remove and the
    path is not rooted. *)
Definition step (rooted : bool) (kept : list string) (c : string) : list string :=
  if (c =? "") || (c =? ".") then kept
  else if c =? ".." then
    match kept with
    | [] => if rooted then [] else [c]
    | top :: below => if top =? ".." then c :: kept else below
    end
  else c :: kept.

Definition clean_elems (rooted : bool) (cs : list string) : list string :=
  rev (fold_left (step rooted) cs []).

(** [path.Clean]. *)
Definition Clean (p : string) : string :=
  if p =? "" then "."
  else
    let rooted := strings.HasPrefix p "/" in
    let out := ((if rooted then "/" else "")
                ++ strings.Join (clean_elems rooted (strings.Split p "/")) "/")%string in
    if out =? "" then "." else out.

(** [path.Join]: empty elements are ignored and the result is cleaned;
    with nothing to join the result is empty. *)
Definition Join (elem : list string) : string :=
  match filter (fun e => negb (e =? "")) elem with
  | [] => ""
  | ne => Clean (strings.Join ne "/")
  end.

End path.

(* ================================================================= *)
(** ** Package [os]: the storage tree *)

Module os.

(** A file holds its bytes, a directory its entries.  Permissions are
    not modelled: the process owns the whole storage tree. *)
#[local] Unset Elimination Schemes.
Inductive node : Type :=
| File (data : string)
| Dir (entries : list (string * node)).
#[local] Set Elimination Schemes.

Inductive errno : Type :=
| ENOENT | ENOTDIR | EISDIR | EEXIST | EINVAL | ENOTEMPTY | EPERM.

Definition errno_text (e : errno) : string :=
  match e with
  | ENOENT => "no such file or directory"
  | ENOTDIR => "not a directory"
  | EISDIR => "is a directory"
  | EEXIST => "file exists"
  | EINVAL => "invalid argument"
  | ENOTEMPTY => "directory not empty"
  | EPERM => "operation not permitted"
  end.

Definition is_ENOENT (e : errno) : bool :=
  match e with ENOENT => true | _ => false end.

(** [*fs.PathError] and [*os.LinkError]. *)
Definition PathError (op p : string) (e : errno) : error :=
  mkError (is_ENOENT e) (op ++ " " ++ p ++ ": " ++ errno_text e).
Definition LinkError (op old new : string) (e : errno) : error :=
  mkError (is_ENOENT e) (op ++ " " ++ old ++ " " ++ new ++ ": " ++ errno_text e).

(** Outcome of a system call on the tree. *)
Inductive sys (A : Type) : Type :=
| Done (a : A)
| Fail (e : errno).
Arguments Done {A} a.
Arguments Fail {A} e.

Fixpoint find_entry (name : string) (ents : list (string * node)) : option node :=
  match ents with
  | [] => None
  | (k, v) :: rest => if k =? name then Some v else find_entry name rest
  end.

Fixpoint del_entry (name : string) (ents : list (string * node)) : list (string * node) :=
  match ents with
  | [] => []
  | (k, v) :: rest => if k =? name then del_entry name rest else (k, v) :: del_entry name rest
  end.

Fixpoint set_entry (name : string) (n : node) (ents : list (string * node))
  : list (string * node) :=
  match ents with
  | [] => [(name, n)]
  | (k, v) :: rest => if k =? name then (k, n) :: rest else (k, v) :: set_entry name n rest
  end.

(** The elements the kernel walks.  Every path the program hands to the
    file system is a [path.Join] result, in which [.] can only be the
    whole path and [..] can only lead; both then denote the directory the
    walk starts from, the root of the modelled tree. *)
Definition resolve (p : string) : list string :=
  filter (fun e => negb ((e =? "") || (e =? ".") || (e =? "..")))
         (strings.Split p "/").

Fixpoint walk (es : list string) (n : node) : sys node :=
  match es with
  | [] => Done n
  | e :: es' =>
      match n with
      | File _ => Fail ENOTDIR
      | Dir ents =>
          match find_entry e ents with
          | None => Fail ENOENT
          | Some c => walk es' c
          end
      end
  end.

(** Change of the last element of a path whose parents exist: [f] sees
    the node there, if any, and says what replaces it ([None] removes
    it). *)
Fixpoint alter (es : list string) (f : option node -> sys (option node)) (n : node)
  : sys node :=
  match es with
  | [] =>
      match f (Some n) with
      | Done (Some n') => Done n'
      | Done None => Fail EINVAL
      | Fail e => Fail e
      end
  | e :: es' =>
      match n with
      | File _ => Fail ENOTDIR
      | Dir ents =>
          match es' with
          | [] =>
              match f (find_entry e ents) with
              | Done (Some c') => Done (Dir (set_entry e c' ents))
              | Done None => Done (Dir (del_entry e ents))
              | Fail err => Fail err
              end
          | _ =>
              match find_entry e ents with
              | None => Fail ENOENT
              | Some c =>
                  match alter es' f c with
                  | Done c' => Done (Dir (set_entry e c' ents))
                  | Fail err => Fail err
                  end
              end
          end
      end
  end.

Fixpoint mkdir_all (es : list string) (n : node) : sys node :=
  match n with
  | File _ => Fail ENOTDIR
  | Dir ents =>
      match es with
      | [] => Done n
      | e :: es' =>
          match mkdir_all es' (match find_entry e ents with
                               | Some c => c
                               | None => Dir []
                               end) with
          | Done c' => Done (Dir (set_entry e c' ents))
          | Fail err => Fail err
          end
      end
  end.

(** Bytes [off, off + len buf) of a file replaced by [buf]; a write past
    the end leaves a run of zero bytes before it. *)
Fixpoint zeros (n : nat) : string :=
  match n with
  | O => EmptyString
  | S n' => String Ascii.zero (zeros n')
  end.

Definition pwrite (data : string) (off : nat) (buf : string) : string :=
  (strings.take off data ++ zeros (off - String.length data)
   ++ buf ++ strings.drop (off + String.length buf) data)%string.

(** *** The calls of the program *)

(** With an empty name every call fails with [ENOENT]. *)
Definition at_path {A : Type} (p : string) (k : list string -> sys A) : sys A :=
  if p =? "" then Fail ENOENT else k (resolve p).

Definition lift {A : Type} (op p : string) (r : sys A) : result A :=
  match r with
  | Done a => Ok a
  | Fail e => Err (PathError op p e)
  end.

(** [os.Open(name)]: the node read through the descriptor. *)
Definition Open (fs : node) (p : string) : result node :=
  lift "open" p (at_path p (fun es => walk es fs)).

(** [os.Stat(name)]. *)
Definition Stat (fs : node) (p : string) : result node :=
  lift "stat" p (at_path p (fun es => walk es fs)).

(** [os.OpenFile(name, os.O_RDWR|os.O_CREATE, 0644)]: the tree afterwards,
    with an empty file created when there was none. *)
Definition OpenFile_create (fs : node) (p : string) : result node :=
  lift "open" p
    (at_path p (fun es =>
       alter es (fun o => match o with
                          | None => Done (Some (File ""))
                          | Some (File d) => Done (Some (File d))
                          | Some (Dir _) => Fail EISDIR
                          end) fs)).

(** [os.Truncate(name, 0)]. *)
Definition Truncate0 (fs : node) (p : string) : result node :=
  lift "truncate" p
    (at_path p (fun es =>
       alter es (fun o => match o with
                          | None => Fail ENOENT
                          | Some (File _) => Done (Some (File ""))
                          | Some (Dir _) => Fail EISDIR
                          end) fs)).

(** [f.WriteAt(b, off)] on the file opened at [p]; [f.Write(b)] is the
    same call at the current offset. *)
Definition WriteAt (fs : node) (p : string) (buf : string) (off : nat) : result node :=
  lift "write" p
    (at_path p (fun es =>
       alter es (fun o => match o with
                          | None => Fail ENOENT
                          | Some (File d) => Done (Some (File (pwrite d off buf)))
                          | Some (Dir _) => Fail EISDIR
                          end) fs)).

(** [os.MkdirAll(path, perm)]. *)
Definition MkdirAll (fs : node) (p : string) : result node :=
  lift "mkdir" p (at_path p (fun es => mkdir_all es fs)).

(** [os.RemoveAll(path)]: nothing to do, and no error, when the path does
    not exist. *)
Definition RemoveAll (fs : node) (p : string) : result node :=
  if p =? "" then Ok fs
  else
    match alter (resolve p) (fun _ => Done None) fs with
    | Done fs' => Ok fs'
    | Fail ENOENT => Ok fs
    | Fail e => Err (PathError "unlinkat" p e)
    end.

Fixpoint is_prefix_of (a b : list string) : bool :=
  match a, b with
  | [], _ => true
  | x :: a', y :: b' => (x =? y) && is_prefix_of a' b'
  | _ :: _, [] => false
  end.

Definition list_eqb (a b : list string) : bool :=
  is_prefix_of a b && is_prefix_of b a.

(** [os.Rename(oldpath, newpath)]. *)
Definition rename (old new : list string) (fs : node) : sys node :=
  match walk old fs with
  | Fail e => Fail e
  | Done src =>
      if list_eqb old new then Done fs
      else if is_prefix_of old new then Fail EINVAL
      else
        match
          match walk new fs, src with
          | Done (File _), File _ => Done tt
          | Done (Dir _), File _ => Fail EISDIR
          | Done (File _), Dir _ => Fail ENOTDIR
          | Done (Dir []), Dir _ => Done tt
          | Done (Dir (_ :: _)), Dir _ => Fail ENOTEMPTY
          | Fail ENOENT, _ => Done tt
          | Fail e, _ => Fail e
          end
        with
        | Fail e => Fail e
        | Done _ =>
            match alter old (fun _ => Done None) fs with
            | Fail e => Fail e
            | Done fs1 => alter new (fun _ => Done (Some src)) fs1
            end
        end
  end.

Definition Rename (fs : node) (old new : string) : result node :=
  match (if (old =? "") || (new =? "") then Fail ENOENT
         else rename (resolve old) (resolve new) fs) with
  | Done fs' => Ok fs'
  | Fail e => Err (LinkError "rename" old new e)
  end.

(** [os.Link(oldname, newname)].  The new entry receives the bytes of the
    old one; the two entries do not share later writes, on which no
    statement of this development depends. *)
Definition Link (fs : node) (old new : string) : result node :=
  match (if (old =? "") || (new =? "") then Fail ENOENT
         else
           match walk (resolve old) fs with
           | Fail e => Fail e
           | Done (Dir _) => Fail EPERM
           | Done (File d) =>
               alter (resolve new)
                     (fun o => match o with
                               | None => Done (Some (File d))
                               | Some _ => Fail EEXIST
                               end) fs
           end) with
  | Done fs' => Ok fs'
  | Fail e => Err (LinkError "link" old new e)
  end.

(** Insertion sort on byte-wise order, the order of [os.ReadDir] and of
    [slices.Sort] on strings. *)
Fixpoint insert_sorted {A : Type} (key : A -> string) (x : A) (l : list A) : list A :=
  match l with
  | [] => [x]
  | y :: l' => if String.leb (key x) (key y) then x :: l else y :: insert_sorted key x l'
  end.

Definition sort_by {A : Type} (key : A -> string) (l : list A) : list A :=
  fold_right (insert_sorted key) [] l.

(** A [fs.DirEntry]: [Name()] and [IsDir()]. *)
Record DirEntry := mkDirEntry { Name : string; IsDir : bool }.

Definition entry_of (kv : string * node) : DirEntry :=
  mkDirEntry (fst kv) (match snd kv with Dir _ => true | File _ => false end).

(** [os.ReadDir(name)]: the entries sorted by filename. *)
Definition ReadDir (fs : node) (p : string) : result (list DirEntry) :=
  match at_path p (fun es => walk es fs) with
  | Fail e => Err (PathError "open" p e)
  | Done (File _) => Err (PathError "readdirent" p ENOTDIR)
  | Done (Dir ents) => Ok (sort_by Name (map entry_of ents))
  end.

(** [f.Read(b)] with [len(b) = n] on a file just opened: at most [n]
    bytes from the start, [io.EOF] when bytes are asked for and none is
    left. *)
Definition Read (data : string) (n : nat) : result nat :=
  match n with
  | O => Ok 0
  | _ => if data =? "" then Err (mkError false "EOF")
         else Ok (Nat.min n (String.length data))
  end.

(** [f.ReadAt(b, off)] with [len(b) = n]: the count, and whether the call
    reports an error (any read shorter than [n] does). *)
Definition ReadAt (data : string) (n off : nat) : nat * bool :=
  let got := Nat.min n (String.length data - off) in
  (got, negb (got =? n)%nat).

End os.

(* ================================================================= *)
(** ** What the process gets from its libraries and its start-up *)

(** The values the handler takes from outside its own code. *)
Record environ := mkEnviron {
  (** the directory returned by [setupStorage()] *)
  rootDir : string;
  (** [uuid.Generate().String()], by the number of identifiers handed out
      before *)
  uuid_Generate : nat -> string;
  (** the capacity [append] gives a full slice of strings of the given
      capacity *)
  growslice : nat -> nat;
  (** [encoding/json] on a string value *)
  json_string : string -> string;
  (** [strconv.Quote] *)
  strconv_Quote : string -> string;
  (** the size [Stat] reports for a directory *)
  dir_size : Z;
  (** the longest byte slice [make] returns: for a longer one the run
      time panics (above its constant [maxAlloc], which is 2^48 on 64-bit
      Linux) or gives up for lack of memory *)
  max_alloc : Z
}.

Definition nl : string := String (ascii_of_nat 10) EmptyString.
Definition dq : string := String (ascii_of_nat 34) EmptyString.

(* ================================================================= *)
(** ** Packages [strconv] and [fmt] *)

Module strconv.

Definition is_digit (c : ascii) : bool := between "0" "9" c.

Fixpoint digits (s : string) (acc : Z) : option Z :=
  match s with
  | EmptyString => Some acc
  | String c s' =>
      if is_digit c
      then digits s' (acc * 10 + (Z.of_nat (nat_of_ascii c) - 48))%Z
      else None
  end.

Definition NumError (env : environ) (fn num msg : string) : error :=
  mkError false ("strconv." ++ fn ++ ": parsing " ++ strconv_Quote env num ++ ": " ++ msg).

(** Base 10 on 64 bits: an optional sign, then digits only. *)
Definition parse64 (env : environ) (fn s : string) : result Z :=
  let '(neg, mag) :=
    match s with
    | String "+" t => (false, t)
    | String "-" t => (true, t)
    | _ => (false, s)
    end in
  match mag with
  | EmptyString => Err (NumError env fn s "invalid syntax")
  | _ =>
      match digits mag 0 with
      | None => Err (NumError env fn s "invalid syntax")
      | Some v =>
          let v' := if neg then (- v)%Z else v in
          if ((- 2 ^ 63 <=? v') && (v' <? 2 ^ 63))%Z then Ok v'
          else Err (NumError env fn s "value out of range")
      end
  end.

(** [strconv.Atoi(s)] where [int] has 64 bits. *)
Definition Atoi (env : environ) (s : string) : result Z := parse64 env "Atoi" s.

(** [strconv.ParseInt(s, 10, 64)]. *)
Definition ParseInt (env : environ) (s : string) : result Z := parse64 env "ParseInt" s.

End strconv.

(** The verb [%d]. *)
Definition fmt_d (z : Z) : string := DecimalString.NilZero.string_of_int (Z.to_int z).

(* ================================================================= *)
(** ** Slices of strings *)

Module slices.

(** A slice: the backing array from the first element of the slice to
    its capacity, and the length. *)
Record slice := mkSlice { arr : list string; len : nat }.

Definition cap (s : slice) : nat := List.length (arr s).
Definition elems (s : slice) : list string := firstn (len s) (arr s).

(** [make([]string, 0)]. *)
Definition make0 : slice := mkSlice [] 0.

(** [append(s, x)]: in place when there is room, else into a new array
    whose capacity the runtime chooses (at least the new length). *)
Definition append (env : environ) (s : slice) (x : string) : slice :=
  if (len s <? cap s)%nat
  then mkSlice (elems s ++ x :: skipn (S (len s)) (arr s)) (S (len s))
  else
    let newcap := Nat.max (S (len s)) (growslice env (cap s)) in
    mkSlice (elems s ++ x :: repeat EmptyString (newcap - S (len s))) (S (len s)).

(** [slices.Sort(s)]: the elements of the slice are ordered in place. *)
Definition Sort (s : slice) : slice :=
  mkSlice (os.sort_by (fun x => x) (elems s) ++ skipn (len s) (arr s)) (len s).

Fixpoint index_from (l : list string) (v : string) (i : Z) : Z :=
  match l with
  | [] => (-1)%Z
  | x :: l' => if x =? v then i else index_from l' v (i + 1)%Z
  end.

(** [slices.Index(s, v)]: the first index of [v], or -1. *)
Definition Index (s : slice) (v : string) : Z := index_from (elems s) v 0%Z.

(** [s[i:]]; the run time panics unless [0 <= i <= len(s)]. *)
Definition from (s : slice) (i : Z) : option slice :=
  if ((0 <=? i) && (i <=? Z.of_nat (len s)))%Z
  then Some (mkSlice (skipn (Z.to_nat i) (arr s)) (len s - Z.to_nat i))
  else None.

(** [s[:i]]; the run time panics unless [0 <= i <= cap(s)]. *)
Definition upto (s : slice) (i : Z) : option slice :=
  if ((0 <=? i) && (i <=? Z.of_nat (cap s)))%Z
  then Some (mkSlice (arr s) (Z.to_nat i))
  else None.

End slices.

(* ================================================================= *)
(** ** The JSON documents of the program *)

Record TagList := mkTagList { tl_Name : string; tl_TagList : slices.slice }.

Definition json_key (k : string) : string := (dq ++ k ++ dq ++ ":")%string.

(** [json.Marshal(TagList{...})]; the slice is never nil. *)
Definition json_Marshal_TagList (env : environ) (tl : TagList) : string :=
  ("{" ++ json_key "name" ++ json_string env (tl_Name tl) ++ ","
   ++ json_key "tags" ++ "["
   ++ strings.Join (map (json_string env) (slices.elems (tl_TagList tl))) ","
   ++ "]}")%string.

(** [json.Marshal(ErrorResponse{Errors: []ErrorDetail{{code, message, "{}"}}})]. *)
Definition json_Marshal_ErrorResponse (env : environ) (code message : string) : string :=
  ("{" ++ json_key "errors" ++ "[{"
   ++ json_key "code" ++ json_string env code ++ ","
   ++ json_key "message" ++ json_string env message ++ ","
   ++ json_key "detail" ++ json_string env "{}"
   ++ "}]}")%string.

(* ================================================================= *)
(** ** Package [net/http]: request and response writer *)

Module http.

(** The request as the handler reads it.  [Form] holds the values
    [r.FormValue] finds (the query of the URL, and the fields of a form
    body, which is then no longer part of [Body]); [Body] holds the
    bytes of the body in the pieces that successive calls of
    [r.Body.Read] meet. *)
Record Request := mkRequest {
  Method : string;
  RequestURI : string;
  Header : list (string * string);
  Form : list (string * string);
  ContentLength : Z;
  Body : list string
}.

Fixpoint lookup (k : string) (kv : list (string * string)) : string :=
  match kv with
  | [] => EmptyString
  | (k', v) :: rest => if k' =? k then v else lookup k rest
  end.

Definition Header_Get (r : Request) (k : string) : string := lookup k (Header r).
Definition FormValue (r : Request) (k : string) : string := lookup k (Form r).

(** [r.Body.Read(buf)] with [len(buf) = n]: the bytes read, whether the
    call reports [io.EOF], and what is left of the body. *)
Definition Body_Read (n : nat) (body : list string) : string * bool * list string :=
  match body with
  | [] => (EmptyString, true, [])
  | seg :: rest =>
      (strings.take n seg, false,
       if (String.length seg <=? n)%nat then rest else strings.drop n seg :: rest)
  end.

(** The response: the header map the handler edits, and what has gone
    out: whether the status line was written, the status and headers it
    carried, and the body. *)
Record ResponseWriter := mkResponseWriter {
  header : list (string * string);
  wroteHeader : bool;
  status : Z;
  sent_header : list (string * string);
  written : string;
  head_request : bool
}.

Definition new_ResponseWriter (r : Request) : ResponseWriter :=
  mkResponseWriter [] false 0 [] EmptyString (Method r =? "HEAD").

Fixpoint set (k v : string) (kv : list (string * string)) : list (string * string) :=
  match kv with
  | [] => [(k, v)]
  | (k', v') :: rest => if k' =? k then (k, v) :: rest else (k', v') :: set k v rest
  end.

(** [w.Header().Set(k, v)]. *)
Definition Header_Set (k v : string) (w : ResponseWriter) : ResponseWriter :=
  mkResponseWriter (set k v (header w)) (wroteHeader w) (status w)
                   (sent_header w) (written w) (head_request w).

(** [w.WriteHeader(code)]: only the first call counts. *)
Definition WriteHeader (code : Z) (w : ResponseWriter) : ResponseWriter :=
  if wroteHeader w then w
  else mkResponseWriter (header w) true code (header w) (written w) (head_request w).

Definition bodyAllowedForStatus (code : Z) : bool :=
  negb (((100 <=? code) && (code <=? 199)) || (code =? 204) || (code =? 304))%Z.

Definition ErrBodyNotAllowed : error :=
  mkError false "http: request method or response status code does not allow body".

(** [w.Write(data)]: writes the status line with 200 when none was
    written, then the bytes, unless the status forbids a body or the
    request is a HEAD. *)
Definition Write (data : string) (w : ResponseWriter) : ResponseWriter * option error :=
  let w1 := WriteHeader 200 w in
  if data =? "" then (w1, None)
  else if negb (bodyAllowedForStatus (status w1)) then (w1, Some ErrBodyNotAllowed)
  else if head_request w1 then (w1, None)
  else (mkResponseWriter (header w1) true (status w1) (sent_header w1)
                         (written w1 ++ data) false, None).

(** What the server sends when the handler returns without a status. *)
Definition finish (w : ResponseWriter) : ResponseWriter := WriteHeader 200 w.

End http.

(* ================================================================= *)
(** ** The handler of [main] *)

Import http.

(** What one run of the handler acts on: the storage tree, the response
    writer, the unread part of the request body and the number of
    identifiers generated so far. *)
Record state := mkSt {
  st_fs : os.node;
  st_w : ResponseWriter;
  st_body : list string;
  st_ids : nat
}.

(** A statement either goes on to the next one, returns from the handler,
    or panics. *)
Inductive flow (A : Type) : Type :=
| Next (a : A)
| Returned
| Panicked (v : string).
Arguments Next {A} a.
Arguments Returned {A}.
Arguments Panicked {A} v.

Definition M (A : Type) : Type := state -> flow A * state.

Definition ret {A : Type} (a : A) : M A := fun s => (Next a, s).

Definition bind {A B : Type} (m : M A) (k : A -> M B) : M B :=
  fun s =>
    match m s with
    | (Next a, s') => k a s'
    | (Returned, s') => (Returned, s')
    | (Panicked v, s') => (Panicked v, s')
    end.

Notation "x <- m ;; k" := (bind m (fun x => k))
  (at level 61, m at next level, right associativity).
Notation "m ;; k" := (bind m (fun _ => k))
  (at level 61, right associativity).

Definition return_ {A : Type} : M A := fun s => (Returned, s).
Definition panic {A : Type} (v : string) : M A := fun s => (Panicked v, s).

Definition get_fs : M os.node := fun s => (Next (st_fs s), s).
Definition put_fs (fs : os.node) : M unit :=
  fun s => (Next tt, mkSt fs (st_w s) (st_body s) (st_ids s)).
Definition on_w (f : ResponseWriter -> ResponseWriter) : M unit :=
  fun s => (Next tt, mkSt (st_fs s) (f (st_w s)) (st_body s) (st_ids s)).

Definition w_Header_Set (k v : string) : M unit := on_w (Header_Set k v).
Definition w_WriteHeader (code : Z) : M unit := on_w (WriteHeader code).
Definition w_Write (data : string) : M (option error) :=
  fun s =>
    let '(w', e) := Write data (st_w s) in
    (Next e, mkSt (st_fs s) w' (st_body s) (st_ids s)).

(** [r.Body.Read(buf)] with [len(buf) = n]. *)
Definition body_Read (n : nat) : M (string * bool) :=
  fun s =>
    let '(chunk, eof, rest) := Body_Read n (st_body s) in
    (Next (chunk, eof), mkSt (st_fs s) (st_w s) rest (st_ids s)).

(** When [cond] holds the block runs, else control passes on. *)
Definition when (cond : bool) (block : M unit) : M unit :=
  if cond then block else ret tt.

Section Handler.

Variable env : environ.

(** [uuid.Generate().String()]. *)
Definition new_uuid : M string :=
  fun s => (Next (uuid_Generate env (st_ids s)),
            mkSt (st_fs s) (st_w s) (st_body s) (S (st_ids s))).

(** Whether [make([]byte, n)] returns a slice: the run time panics on a
    negative length and on one beyond what it can allocate. *)
Definition can_make (n : Z) : bool := ((0 <=? n) && (n <=? max_alloc env))%Z.

(** [http.Error(w, error, code)]. *)
Definition http_Error (msg : string) (code : Z) : M unit :=
  w_Header_Set "Content-Type" "text/plain; charset=utf-8" ;;
  w_Header_Set "X-Content-Type-Options" "nosniff" ;;
  w_WriteHeader code ;;
  w_Write (msg ++ nl) ;;
  ret tt.

Definition writeServerError (err : error) : M unit :=
  http_Error ("Unexpected error encountered: " ++ Error err) 500.

Definition writeOCIError (code message : string) (statusCode : Z) : M unit :=
  http_Error (json_Marshal_ErrorResponse env code message) statusCode.

(** [buf.ReadFrom(f)] on the node opened at [p]. *)
Definition read_node (p : string) (f : os.node) : result string :=
  match f with
  | os.File d => Ok d
  | os.Dir _ => Err (os.PathError "read" p os.EISDIR)
  end.

Definition readFile (fs : os.node) (p : string) : result string :=
  match os.Open fs p with
  | Err err => Err err
  | Ok f => read_node p f
  end.

Definition fileExists (fs : os.node) (p : string) : result bool :=
  match os.Open fs p with
  | Err err =>
      if is_not_exist err then Ok false
      else Err (errors_New ("Unexpected error while checking existence of "
                            ++ p ++ ": " ++ Error err))
  | Ok _ => Ok true
  end.

(** [content.WriteTo(w)]: a buffer with no bytes writes nothing. *)
Definition Buffer_WriteTo (content : string) : M (option error) :=
  if content =? "" then ret None else w_Write content.

Definition validateBlob (fs : os.node) (filePath : string) (fileLen : Z) (digest : string)
  : bool :=
  match readFile fs filePath with
  | Err _ => false
  | Ok b => getDigest b =? digest
  end.

(** The loop of [writeBodyToFile]: reads of at most 1024 bytes until
    [io.EOF]; [out] is what has been handed to [f.Write] so far. *)
Fixpoint copy_body (fuel : nat) (body : list string) (out : string)
  : string * list string :=
  match fuel with
  | O => (out, body)
  | S fuel' =>
      let '(chunk, eof, body') := Body_Read 1024 body in
      if eof then ((out ++ chunk)%string, body')
      else copy_body fuel' body' (out ++ chunk)
  end.

(** A bound on the number of reads a body takes. *)
Fixpoint body_fuel (body : list string) : nat :=
  match body with
  | [] => 1
  | seg :: rest => S (String.length seg) + body_fuel rest
  end.

(** [f.Write] appends at the offset of [f], which starts at 0 in a file
    with no bytes: the file receives the chunks in order.  A failed
    write is only logged. *)
Definition copy_to_file (destFile : string) : M unit :=
  fun s =>
    let '(out, rest) := copy_body (body_fuel (st_body s)) (st_body s) EmptyString in
    let fs' := match os.WriteAt (st_fs s) destFile out 0 with
               | Ok fs' => fs'
               | Err _ => st_fs s
               end in
    (Next tt, mkSt fs' (st_w s) rest (st_ids s)).

Definition writeBodyToFile (destFile : string) : M unit :=
  fs <- get_fs ;;
  if match os.Stat fs destFile with
     | Err statE => is_not_exist statE
     | Ok _ => false
     end
  then
    match os.OpenFile_create fs destFile with
    | Err err => writeServerError err
    | Ok fs1 => put_fs fs1 ;; copy_to_file destFile
    end
  else
    match os.OpenFile_create fs destFile with
    | Err err => writeServerError err
    | Ok fs1 =>
        put_fs fs1 ;;
        match os.Truncate0 fs1 destFile with
        | Err err => writeServerError err
        | Ok fs2 => put_fs fs2 ;; copy_to_file destFile
        end
    end.

Definition writeBodyToFileWithLocation (r : Request) (destFile name digest : string)
  : M unit :=
  writeBodyToFile destFile ;;
  fs <- get_fs ;;
  when (negb (validateBlob fs destFile (ContentLength r) digest))
       (http_Error "blob did not match length or digest" 400) ;;
  w_Header_Set "Location" ("/v2/" ++ name ++ "/blobs/" ++ digest) ;;
  w_WriteHeader 201.

Definition createFile (destFile : string) (contentLength : Z) : M unit :=
  fs <- get_fs ;;
  match os.OpenFile_create fs destFile with
  | Err err => writeServerError err
  | Ok fs1 =>
      put_fs fs1 ;;
      match os.Truncate0 fs1 destFile with
      | Err err => writeServerError err
      | Ok fs2 => put_fs fs2
      end
  end.

(** The loop of [getTags]. *)
Fixpoint getTags_loop (files : list os.DirEntry) (tags : slices.slice) : slices.slice :=
  match files with
  | [] => tags
  | de :: rest =>
      if os.Name de =? "_blobs" then getTags_loop rest tags
      else getTags_loop rest (slices.append env tags (os.Name de))
  end.

Definition getTags (fs : os.node) (p : string) : slices.slice * option error :=
  let tags := slices.make0 in
  match os.ReadDir fs p with
  | Err err => (tags, Some err)
  | Ok files => (getTags_loop files tags, None)
  end.

(** The loop of [findManifest]. *)
Fixpoint findManifest_loop (fs : os.node) (name digest : string)
         (files : list os.DirEntry) : result string :=
  match files with
  | [] => Ok EmptyString
  | de :: rest =>
      if os.Name de =? "_blobs" then findManifest_loop fs name digest rest
      else if os.IsDir de then
        let manifestPath := path.Join [rootDir env; name; os.Name de; "manifest.json"] in
        match os.Open fs manifestPath with
        | Err fE => Err fE
        | Ok f =>
            match read_node manifestPath f with
            | Err err => Err err
            | Ok buf =>
                let thisDigest := getDigest buf in
                if thisDigest =? digest then Ok manifestPath
                else findManifest_loop fs name digest rest
            end
        end
      else findManifest_loop fs name digest rest
  end.

Definition findManifest (fs : os.node) (name digest : string) : result string :=
  match os.ReadDir fs (path.Join [rootDir env; name]) with
  | Err err => Err err
  | Ok files => findManifest_loop fs name digest files
  end.

(** The bytes of the file behind a descriptor opened at [p]. *)
Definition file_data (fs : os.node) (p : string) : string :=
  match os.Open fs p with
  | Ok (os.File d) => d
  | _ => EmptyString
  end.

Definition is_GET_or_HEAD (r : Request) : bool :=
  (Method r =? "HEAD") || (Method r =? "GET").

(** The last element of a slice of strings that is never empty. *)
Definition last_part (parts : list string) : string := last parts EmptyString.

(** end-2: GET and HEAD of a blob. *)
Definition end_2 (r : Request) (name endpoint : string) : M unit :=
  when (is_GET_or_HEAD r && strings.Contains endpoint "/blobs/sha256:") (
    let parts := strings.Split endpoint "/" in
    let requestDigest := last_part parts in
    if negb (matches digestRegex requestDigest) then
      writeOCIError "BLOB_UNKNOWN" "blob unknown to registry" 404 ;; return_
    else
      let blobPath := path.Join [rootDir env; name; "_blobs"; requestDigest] in
      fs <- get_fs ;;
      match fileExists fs blobPath with
      | Err err => writeServerError err ;; return_
      | Ok b =>
          status <- (if b then
                       w_Header_Set "Docker-Content-Digest" requestDigest ;;
                       when (Method r =? "GET") (
                         match readFile fs blobPath with
                         | Err e => writeServerError e ;; return_
                         | Ok content =>
                             werr <- Buffer_WriteTo content ;;
                             match werr with
                             | Some err => writeServerError err ;; return_
                             | None => ret tt
                             end
                         end) ;;
                       ret 200%Z
                     else ret 404%Z) ;;
          w_WriteHeader status
      end).

(** end-3: GET and HEAD of a manifest. *)
Definition end_3 (r : Request) (name endpoint : string) : M unit :=
  when (is_GET_or_HEAD r && strings.Contains endpoint "/manifests/") (
    let parts := strings.Split endpoint "/" in
    let lastPart := last_part parts in
    let isRef := matches refRegex lastPart in
    let isDigest := matches digestRegex lastPart in
    if negb (isRef || isDigest) then
      writeOCIError "MANIFEST_INVALID" "manifest invalid" 404 ;; return_
    else
      fs <- get_fs ;;
      manifestPath <-
        (if isRef then
           ret (path.Join [path.Join [rootDir env; name]; lastPart; "manifest.json"])
         else
           match findManifest fs name lastPart with
           | Err err => w_WriteHeader 404 ;; return_
           | Ok foundPath =>
               if foundPath =? "" then
                 writeOCIError "MANIFEST_UNKNOWN" "manifest unknown to registry" 404 ;;
                 return_
               else ret foundPath
           end) ;;
      match fileExists fs manifestPath with
      | Err err => writeServerError err ;; return_
      | Ok b =>
          if b then
            when (Method r =? "GET") (
              match readFile fs manifestPath with
              | Err e => writeServerError e ;; return_
              | Ok content =>
                  werr <- Buffer_WriteTo content ;;
                  match werr with
                  | Some err => writeServerError err ;; return_
                  | None => ret tt
                  end
              end) ;;
            w_WriteHeader 200
          else w_WriteHeader 404
      end).

(** end-4a: POST that opens an upload session. *)
Definition end_4a (r : Request) (name endpoint : string) : M unit :=
  when ((Method r =? "POST") && strings.HasSuffix endpoint "/blobs/uploads/") (
    id <- new_uuid ;;
    w_Header_Set "Location" (RequestURI r ++ id) ;;
    w_WriteHeader 202).

(** end-4b: POST that uploads a blob in one request. *)
Definition end_4b (r : Request) (name endpoint : string) : M unit :=
  when ((Method r =? "POST") && strings.Contains endpoint "/blobs/uploads/"
        && (FormValue r "mount" =? "")) (
    let digest := FormValue r "digest" in
    if digest =? "" then
      http_Error "Digest missing" 400 ;; return_
    else
      let destFile := path.Join [rootDir env; name; "_blobs"; digest] in
      writeBodyToFileWithLocation r destFile name digest ;;
      return_).

(** end-5: PATCH of an upload session. *)
Definition end_5 (r : Request) (name endpoint : string) : M unit :=
  when ((Method r =? "PATCH") && strings.Contains endpoint "/blobs/uploads/") (
    let parts := strings.Split endpoint "/" in
    let location := last_part parts in
    w_Header_Set "Location" (RequestURI r) ;;
    let l := Header_Get r "Content-Length" in
    match strconv.Atoi env l with
    | Err err => writeServerError err ;; return_
    | Ok i =>
        let cr := Header_Get r "Content-Range" in
        let destFile := path.Join [rootDir env; name; "_blobs"; location] in
        (if cr =? "" then
           (* first chunk *)
           createFile destFile i
         else
           (* subsequent chunks *)
           match strings.Split cr "-" with
           | start :: _ :: _ =>
               match strconv.ParseInt env start with
               | Err err => writeServerError err ;; return_
               | Ok start64 =>
                   match strconv.Atoi env start with
                   | Err err => writeServerError err ;; return_
                   | Ok s =>
                       fs <- get_fs ;;
                       match os.OpenFile_create fs destFile with
                       | Err err => writeServerError err ;; return_
                       | Ok fs1 =>
                           put_fs fs1 ;;
                           let f := file_data fs1 destFile in
                           if negb (can_make s)
                           then panic "runtime error: makeslice: len out of range"
                           else
                             match os.Read f (Z.to_nat s) with
                             | Err _ => w_WriteHeader 416 ;; return_
                             | Ok n =>
                                 if negb (Z.of_nat n =? s)%Z then w_WriteHeader 416 ;; return_
                                 else if negb (can_make i)
                                 then panic "runtime error: makeslice: len out of range"
                                 else
                                   (* chunk already in registry? *)
                                   let '(n', failed) :=
                                     os.ReadAt f (Z.to_nat i) (Z.to_nat start64) in
                                   if negb failed && (Z.of_nat n' =? i)%Z then
                                     w_WriteHeader 416 ;; return_
                                   else
                                     got <- body_Read (Z.to_nat i) ;;
                                     let buf := (fst got
                                                 ++ os.zeros (Z.to_nat i - String.length (fst got)))%string in
                                     match os.WriteAt fs1 destFile buf (Z.to_nat start64) with
                                     | Err err => writeServerError err ;; return_
                                     | Ok fs2 =>
                                         put_fs fs2 ;;
                                         w_Header_Set "Range" ("0-" ++ fmt_d (i - 1))
                                     end
                             end
                       end
                   end
               end
           | _ => panic "runtime error: index out of range [1] with length 1"
           end) ;;
        w_WriteHeader 202
    end).

(** end-6: PUT that closes an upload. *)
Definition end_6 (r : Request) (name endpoint : string) : M unit :=
  when ((Method r =? "PUT") && strings.Contains endpoint "/blobs/uploads/") (
    let parts := strings.Split endpoint "/" in
    let parts2 := strings.Split (last_part parts) "?" in
    let location := nth 0 parts2 EmptyString in
    fs <- get_fs ;;
    (* chunked upload or not *)
    let b := match fileExists fs (path.Join [rootDir env; name; "_blobs"; location]) with
             | Ok b => b
             | Err _ => false
             end in
    if b then
      body_Read 1 ;;
      let digest := FormValue r "digest" in
      (match os.Rename fs (path.Join [rootDir env; name; "_blobs"; location])
                          (path.Join [rootDir env; name; "_blobs"; digest]) with
       | Ok fs' => put_fs fs'
       | Err _ => ret tt
       end) ;;
      w_Header_Set "Location" ("/v2/" ++ name ++ "/blobs/" ++ digest) ;;
      w_WriteHeader 201 ;;
      return_
    else
      match os.MkdirAll fs (path.Join [rootDir env; name; "_blobs"]) with
      | Err err => writeServerError err ;; return_
      | Ok fs1 =>
          put_fs fs1 ;;
          let digest := FormValue r "digest" in
          let destFile := path.Join [rootDir env; name; "_blobs"; digest] in
          writeBodyToFileWithLocation r destFile name digest
      end).

(** end-7: PUT of a manifest. *)
Definition end_7 (r : Request) (name endpoint : string) : M unit :=
  when ((Method r =? "PUT") && strings.Contains endpoint "/manifests/") (
    let parts := strings.Split endpoint "/manifests/" in
    let requestRef := last_part parts in
    fs <- get_fs ;;
    match os.MkdirAll fs (path.Join [rootDir env; name; requestRef]) with
    | Err err => writeServerError err ;; return_
    | Ok fs1 =>
        put_fs fs1 ;;
        let destFile := path.Join [rootDir env; name; requestRef; "manifest.json"] in
        writeBodyToFile destFile ;;
        fs2 <- get_fs ;;
        match os.Open fs2 destFile with
        | Err err => writeServerError err ;; return_
        | Ok f =>
            match read_node destFile f with
            | Err err => writeServerError err ;; return_
            | Ok buf =>
                let digest := getDigest buf in
                w_Header_Set "Location" ("/v2/" ++ name ++ "/manifests/" ++ digest) ;;
                w_WriteHeader 201
            end
        end
    end).

(** The tail shared by the two tag listings. *)
Definition write_TagList (name : string) (tags : slices.slice) : M unit :=
  let tl := mkTagList name tags in
  let jb := json_Marshal_TagList env tl in
  wE <- w_Write jb ;;
  match wE with
  | Some err => writeServerError err ;; return_
  | None => return_
  end.

(** end-8a: the tags of a repository. *)
Definition end_8a (r : Request) (name endpoint : string) : M unit :=
  when ((Method r =? "GET") && strings.HasSuffix endpoint "/tags/list"
        && (FormValue r "last" =? "")) (
    fs <- get_fs ;;
    match os.ReadDir fs (path.Join [rootDir env; name]) with
    | Err _ =>
        writeOCIError "NAME_UNKNOWN" "repository name not known to registry" 404 ;;
        return_
    | Ok _ =>
        match getTags fs (path.Join [rootDir env; name]) with
        | (_, Some err) => writeServerError err ;; return_
        | (tags, None) => write_TagList name tags
        end
    end).

(** end-8b: the tags of a repository from [last] on, cut at [n]. *)
Definition end_8b (r : Request) (name endpoint : string) : M unit :=
  when ((Method r =? "GET") && strings.HasSuffix endpoint "/tags/list") (
    let n := FormValue r "n" in
    let last := FormValue r "last" in
    fs <- get_fs ;;
    match os.ReadDir fs (path.Join [rootDir env; name]) with
    | Err _ =>
        writeOCIError "NAME_UNKNOWN" "repository name not known to registry" 404 ;;
        return_
    | Ok _ =>
        match getTags fs (path.Join [rootDir env; name]) with
        | (_, Some err) => writeServerError err ;; return_
        | (tags, None) =>
            let tags := slices.Sort tags in
            tags <- (if negb (last =? "") then
                       let i := slices.Index tags last in
                       match slices.from tags i with
                       | Some t => ret t
                       | None => panic "runtime error: slice bounds out of range"
                       end
                     else ret tags) ;;
            tags <- (if negb (n =? "") then
                       (* string to int *)
                       match strconv.Atoi env n with
                       | Err err => panic (Error err)
                       | Ok i =>
                           match slices.upto tags i with
                           | Some t => ret t
                           | None => panic "runtime error: slice bounds out of range"
                           end
                       end
                     else ret tags) ;;
            write_TagList name tags
        end
    end).

(** end-9: DELETE of a manifest. *)
Definition end_9 (r : Request) (name endpoint : string) : M unit :=
  when ((Method r =? "DELETE") && strings.Contains endpoint "/manifests/") (
    let parts := strings.Split endpoint "/" in
    let lastPart := last_part parts in
    let isRef := matches refRegex lastPart in
    let isDigest := matches digestRegex lastPart in
    if negb (isRef || isDigest) then
      writeOCIError "MANIFEST_INVALID" "manifest invalid" 404 ;; return_
    else
      let manifestPath := path.Join [rootDir env; name; lastPart] in
      fs <- get_fs ;;
      match os.RemoveAll fs manifestPath with
      | Err _ => w_WriteHeader 400 ;; return_
      | Ok fs' => put_fs fs' ;; w_WriteHeader 202 ;; return_
      end).

(** end-10: DELETE of a blob. *)
Definition end_10 (r : Request) (name endpoint : string) : M unit :=
  when ((Method r =? "DELETE") && strings.Contains endpoint "/blobs/") (
    let parts := strings.Split endpoint "/" in
    let requestDigest := last_part parts in
    if negb (matches digestRegex requestDigest) then
      writeOCIError "BLOB_UNKNOWN" "blob unknown to registry" 404 ;; return_
    else
      let blobPath := path.Join [rootDir env; name; "_blobs"; requestDigest] in
      fs <- get_fs ;;
      match fileExists fs blobPath with
      | Err err => writeServerError err ;; return_
      | Ok b =>
          if b then
            match os.RemoveAll fs blobPath with
            | Err _ => w_WriteHeader 400 ;; return_
            | Ok fs' => put_fs fs' ;; w_WriteHeader 202 ;; return_
            end
          else w_WriteHeader 404 ;; return_
      end).

(** end-11: POST that mounts a blob of another repository. *)
Definition end_11 (r : Request) (name endpoint : string) : M unit :=
  when ((Method r =? "POST") && strings.Contains endpoint "/blobs/uploads/") (
    let m := FormValue r "mount" in
    let f := FormValue r "from" in
    let old := path.Join [rootDir env; f; "_blobs"; m] in
    fs <- get_fs ;;
    match fileExists fs old with
    | Err err => writeServerError err ;; return_
    | Ok b =>
        if negb b || (f =? "") then
          (* unable to mount *)
          id <- new_uuid ;;
          let p := ("/v2/" ++ name ++ "/blobs/uploads/" ++ id)%string in
          w_Header_Set "Location" p ;;
          w_WriteHeader 202 ;;
          return_
        else
          let new := path.Join [rootDir env; name; "_blobs"; m] in
          (match os.MkdirAll fs (path.Join [rootDir env; name; "_blobs"]) with
           | Ok fs1 => put_fs fs1
           | Err _ => ret tt
           end) ;;
          fs1 <- get_fs ;;
          match os.Link fs1 old new with
          | Err err => writeServerError err ;; return_
          | Ok fs2 =>
              put_fs fs2 ;;
              w_Header_Set "Location" ("/v2/" ++ name ++ "/blobs/" ++ m) ;;
              w_WriteHeader 201 ;;
              return_
          end
    end).

(** end-12a and end-12b: referrers; the two conditions are the same. *)
Definition end_12a (r : Request) (name endpoint : string) : M unit :=
  when ((Method r =? "GET") && strings.Contains endpoint "/referrers/"
        && (FormValue r "artifactType" =? "")) (
    w_WriteHeader 404 ;; return_).

Definition end_12b (r : Request) (name endpoint : string) : M unit :=
  when ((Method r =? "GET") && strings.Contains endpoint "/referrers/"
        && (FormValue r "artifactType" =? "")) (
    w_WriteHeader 404 ;; return_).

(** [fileInfo.Size()]. *)
Definition Size (f : os.node) : Z :=
  match f with
  | os.File d => Z.of_nat (String.length d)
  | os.Dir _ => dir_size env
  end.

(** end-13: GET of the state of an upload session. *)
Definition end_13 (r : Request) (name endpoint : string) : M unit :=
  when ((Method r =? "GET") && strings.Contains endpoint "/blobs/uploads/") (
    let parts := strings.Split endpoint "/" in
    let location := last_part parts in
    (* determine length of current file *)
    let destFile := path.Join [rootDir env; name; "_blobs"; location] in
    fs <- get_fs ;;
    match os.Stat fs destFile with
    | Err err => writeServerError err ;; return_
    | Ok fileInfo =>
        let l := (Size fileInfo - 1)%Z in
        w_Header_Set "Location" (RequestURI r) ;;
        w_Header_Set "Range" ("0-" ++ fmt_d l) ;;
        w_WriteHeader 204 ;;
        return_
    end).

(** The chain of matchers, in the order of the source. *)
Definition endpoints (r : Request) (name endpoint : string) : M unit :=
  end_2 r name endpoint ;;
  end_3 r name endpoint ;;
  end_4a r name endpoint ;;
  end_4b r name endpoint ;;
  end_5 r name endpoint ;;
  end_6 r name endpoint ;;
  end_7 r name endpoint ;;
  end_8a r name endpoint ;;
  end_8b r name endpoint ;;
  end_9 r name endpoint ;;
  end_10 r name endpoint ;;
  end_11 r name endpoint ;;
  end_12a r name endpoint ;;
  end_12b r name endpoint ;;
  end_13 r name endpoint.

(** The function registered with [http.HandleFunc("/v2/", ...)]. *)
Definition handler (r : Request) : M unit :=
  (* end-1 *)
  if (Method r =? "GET") && (RequestURI r =? "/v2/") then
    w_WriteHeader 200 ;; return_
  else
    match parseName (RequestURI r) with
    | Err err => writeServerError err ;; return_
    | Ok name =>
        if negb (matches nameRegex name) then
          writeOCIError "NAME_INVALID" "invalid repository name" 400 ;; return_
        else
          let endpoint :=
            strings.TrimPrefix (RequestURI r) (strings.Join ["/v2/"; name] "") in
          endpoints r name endpoint
    end.

(** What the client gets: the response once the handler has returned, or
    a connection the server drops after a panic. *)
Inductive reply : Type :=
| Response (code : Z) (headers : list (string * string)) (body : string)
| Aborted (v : string).

(** One request against the storage tree [fs], [ids] identifiers having
    been generated before. *)
Definition serve (fs : os.node) (ids : nat) (r : Request) : reply * os.node * nat :=
  let '(fl, s) := handler r (mkSt fs (new_ResponseWriter r) (Body r) ids) in
  let w := finish (st_w s) in
  (match fl with
   | Panicked v => Aborted v
   | _ => Response (status w) (sent_header w) (written w)
   end, st_fs s, st_ids s).

(** A sequence of requests, each on the tree the one before left. *)
Fixpoint serve_all (fs : os.node) (ids : nat) (rs : list Request) : list reply * os.node :=
  match rs with
  | [] => ([], fs)
  | r :: rs' =>
      let '(rep, fs1, ids1) := serve fs ids r in
      let '(reps, fs2) := serve_all fs1 ids1 rs' in
      (rep :: reps, fs2)
  end.

End Handler.

(* ================================================================= *)
(** ** A concrete environment *)

(** Storage under [/data], session identifiers [session-0], [session-1],
    ..., capacities doubling from 1 as the Go run time does for short
    slices of strings, and encoders that put a string between double
    quotes, which is what [encoding/json] and [strconv.Quote] do with the
    letters, digits and punctuation of the requests used below; byte
    slices of up to 2^48 bytes, the bound of the run time on 64-bit
    Linux. *)
Definition sample_env : environ :=
  mkEnviron "/data"
            (fun n => ("session-" ++ fmt_d (Z.of_nat n))%string)
            (fun c => match c with O => 1 | _ => 2 * c end)
            (fun s => (dq ++ s ++ dq)%string)
            (fun s => (dq ++ s ++ dq)%string)
            4096
            (2 ^ 48).

(** The storage root, empty. *)
Definition empty_storage : os.node := os.Dir [("data", os.Dir [])].

(** The bytes of a body. *)
Fixpoint body_bytes (body : list string) : string :=
  match body with
  | [] => EmptyString
  | seg :: rest => (seg ++ body_bytes rest)%string
  end.

(** A request without headers. *)
Definition request (method uri : string) (form : list (string * string))
           (body : list string) : Request :=
  mkRequest method uri [] form (Z.of_nat (String.length (body_bytes body))) body.

(** The entries of the directory at [p], none when there is no such
    directory. *)
Definition dir_entries (p : list string) (n : os.node) : list (string * os.node) :=
  match os.walk p n with
  | os.Done (os.Dir ents) => ents
  | _ => []
  end.

(** Two listings of a directory that differ at most below the entry [ref],
    a directory in both. *)
Definition same_listing (ref : string) (ents ents' : list (string * os.node)) : Prop :=
  map os.entry_of ents' = map os.entry_of ents
  /\ forall t, t <> ref -> os.find_entry t ents' = os.find_entry t ents.

(** The directory at [p] has the entries [ents], and its entry [ref] is a
    directory where [m] is a file with the bytes [d]. *)
Definition holds_file (p : list string) (ref m : string) (n : os.node)
           (ents : list (string * os.node)) (d : string) : Prop :=
  os.walk p n = os.Done (os.Dir ents)
  /\ exists er, os.find_entry ref ents = Some (os.Dir er)
                /\ os.find_entry m er = Some (os.File d).

(** A repository [lib/app] under the root, with the given entries. *)
Definition repository (entries : list (string * os.node)) : os.node :=
  os.Dir [("data", os.Dir [("lib", os.Dir [("app", os.Dir entries)])])].

(** A tag directory with its manifest. *)
Definition tag (ref manifest : string) : string * os.node :=
  (ref, os.Dir [("manifest.json", os.File manifest)]).

(** The blob directory with the given files. *)
Definition blobs (files : list (string * string)) : string * os.node :=
  ("_blobs", os.Dir (map (fun kv => (fst kv, os.File (snd kv))) files)).

(** The digests of the bodies [hello], [abcdef] and [{}]. *)
Definition digest_hello : string :=
  "sha256:2cf24dba5fb0a30e26e83b2ac5b9e29e1b161e5c1fa7425e73043362938b9824".
Definition digest_abcdef : string :=
  "sha256:bef57ec7f53a6d40beb640a780a639c83bc29ac8a9816f1fc6c5c6dcd93c4721".
Definition digest_braces : string :=
  "sha256:44136fa355b3678a1146ad16f7e8649e94fb4fc21fe77e8310c060f61caaff8a".

(** A string between double quotes. *)
Definition quoted (s : string) : string := (dq ++ s ++ dq)%string.

(* ================================================================= *)
(** ** Predicates of the statements *)

(** The byte [c] occurs in [s]. *)
Fixpoint has_char (c : ascii) (s : string) : bool :=
  match s with
  | EmptyString => false
  | String x s' => Ascii.eqb x c || has_char c s'
  end.

(** The text after the prefix of a digest. *)
Definition digest_hex (b : string) : string := fmt_x (sha256.Sum256 b).

(** Every byte of [s] is in the class [P]. *)
Fixpoint all_chars (P : ascii -> bool) (s : string) : bool :=
  match s with
  | EmptyString => true
  | String c s' => P c && all_chars P s'
  end.

(** The words of a pattern. *)
Inductive lang : regex -> string -> Prop :=
| lang_Eps : lang Eps EmptyString
| lang_Class (P : ascii -> bool) (c : ascii) :
    P c = true -> lang (Class P) (String c EmptyString)
| lang_Seq (a b : regex) (s t : string) :
    lang a s -> lang b t -> lang (Seq a b) (s ++ t)
| lang_Alt_l (a b : regex) (s : string) : lang a s -> lang (Alt a b) s
| lang_Alt_r (a b : regex) (s : string) : lang b s -> lang (Alt a b) s
| lang_Star_nil (a : regex) : lang (Star a) EmptyString
| lang_Star_cons (a : regex) (s t : string) :
    lang a s -> lang (Star a) t -> lang (Star a) (s ++ t).

(** A name that a directory entry can have. *)
Definition file_name (e : string) : Prop :=
  e <> EmptyString /\ e <> "." /\ e <> ".." /\ has_char "/" e = false.

(** The tag directories of [name] other than [ref] hold a manifest that
    can be read, and none of these has the digest of [M] without being
    [M]. *)
Definition other_tags_readable (env : environ) (fs : os.node) (name ref M : string) : Prop :=
  forall (files : list os.DirEntry) (de : os.DirEntry),
    os.ReadDir fs (path.Join [rootDir env; name]) = Ok files ->
    In de files ->
    os.Name de <> "_blobs" -> os.Name de <> ref -> os.IsDir de = true ->
    file_name (os.Name de)
    /\ exists M',
        readFile fs (path.Join [rootDir env; name; os.Name de; "manifest.json"]) = Ok M'
        /\ (getDigest M' = getDigest M -> M' = M).

(** No element of the list is one of the four keywords of [parseName]. *)
Definition keyword_free (ps : list string) : Prop :=
  Forall (fun p => is_endpoint_keyword p = false) ps.

(** The status a reply carries, if the connection was not dropped. *)
Definition reply_code (rp : reply) : option Z :=
  match rp with
  | Response code _ _ => Some code
  | Aborted _ => None
  end.

(** The reply to a request, without the storage it leaves. *)
Definition reply_to (env : environ) (fs : os.node) (ids : nat) (r : Request) : reply :=
  fst (fst (serve env fs ids r)).

(** The storage a request leaves. *)
Definition storage_after (env : environ) (fs : os.node) (ids : nat) (r : Request) : os.node :=
  snd (fst (serve env fs ids r)).

(** The elements kept while a path is cleaned, newest first: file names
    above a run of [..], which is empty in a rooted path. *)
Definition kept_shape (rooted : bool) (kept : list string) : Prop :=
  exists (names : list string) (k : nat),
    kept = (names ++ repeat ".." k)%list
    /\ Forall file_name names
    /\ (rooted = true -> k = 0).

(** The headers [http.Error] sends. *)
Definition error_headers : list (string * string) :=
  [("Content-Type", "text/plain; charset=utf-8"); ("X-Content-Type-Options", "nosniff")].

(* ################################################################# *)
(** * Properties *)

Unset Implicit Arguments.
Local Open Scope string_scope.

(* ================================================================= *)
(** ** The cases of main_test.go, and digests known from elsewhere *)

Example TestParseNameBlobsUploads :
  parseName "/v2/some/long/chained/repo/name/blobs/uploads"
  = Ok "some/long/chained/repo/name".
Proof. reflexivity. Qed.

Example TestParseNameBlobsDigest :
  parseName ("/v2/some/long/chained/repo/name/blobs/"
             ++ "sha256:9f86d081884c7d659a2feaa0c55ad015a3bf4f1b2b0b822cd15d6c15b0f00a08")
  = Ok "some/long/chained/repo/name".
Proof. reflexivity. Qed.

Example TestParseNameManifests :
  parseName "/v2/test/image/manifests/tagtest0" = Ok "test/image".
Proof. reflexivity. Qed.

Example TestMatchInvalidRef : matches refRegex "sha256:totallywrong" = false.
Proof. vm_compute. reflexivity. Qed.

Example digest_of_test :
  getDigest "test" = "sha256:9f86d081884c7d659a2feaa0c55ad015a3bf4f1b2b0b822cd15d6c15b0f00a08".
Proof. vm_compute. reflexivity. Qed.

Example digest_of_nothing :
  getDigest "" = "sha256:e3b0c44298fc1c149afbf4c8996fb92427ae41e4649b934ca495991b7852b855".
Proof. vm_compute. reflexivity. Qed.

Example digest_of_two_blocks :
  getDigest "abcdbcdecdefdefgefghfghighijhijkijkljklmklmnlmnomnopnopq"
  = "sha256:248d6a61d20638b8e5c026930c3e6039a33ce45964ff2167f6ecedd419db06c1".
Proof. vm_compute. reflexivity. Qed.

Example name_grammar_accepts : matches nameRegex "some/long/chained/repo-x/na.me" = true.
Proof. vm_compute. reflexivity. Qed.

Example name_grammar_rejects : matches nameRegex "some//x" = false.
Proof. vm_compute. reflexivity. Qed.

(** The first end-to-end scenario: a blob pushed in one PUT and pulled. *)
Example push_pull_round_trip :
  fst (serve_all sample_env empty_storage 0
         [ request "PUT" ("/v2/lib/app/blobs/uploads/session-0?digest=" ++ digest_hello)
                   [("digest", digest_hello)] ["hello"];
           request "GET" ("/v2/lib/app/blobs/" ++ digest_hello) [] [] ])
  = [ Response 201 [("Location", "/v2/lib/app/blobs/" ++ digest_hello)] "";
      Response 200 [("Docker-Content-Digest", digest_hello)] "hello" ].
Proof. vm_compute. reflexivity. Qed.

(* ================================================================= *)
(** ** Strings *)

Module strings_facts.
Import strings.

Lemma HasPrefix_app (p s : string) : HasPrefix (p ++ s) p = true.
Proof.
  induction p as [|c p IH]; simpl; [reflexivity|].
  now rewrite Ascii.eqb_refl, IH.
Qed.

Lemma drop_app (p s : string) : drop (String.length p) (p ++ s) = s.
Proof. induction p as [|c p IH]; simpl; [now destruct s | exact IH]. Qed.

Lemma TrimPrefix_app (p s : string) : TrimPrefix (p ++ s) p = s.
Proof. unfold TrimPrefix. now rewrite HasPrefix_app, drop_app. Qed.

Lemma append_assoc (a b c : string) : ((a ++ b) ++ c = a ++ (b ++ c))%string.
Proof. induction a as [|x a IH]; simpl; [reflexivity | now rewrite IH]. Qed.

Lemma append_nil_r (a : string) : (a ++ "" = a)%string.
Proof. induction a as [|x a IH]; simpl; [reflexivity | now rewrite IH]. Qed.

(** *** Splitting at a slash *)

Lemma Split_nil : Split "" "/" = [""].
Proof. reflexivity. Qed.

Lemma Split_slash (s : string) : Split (String "/" s) "/" = "" :: Split s "/".
Proof. reflexivity. Qed.

Lemma Split_other (c : ascii) (s : string) :
  Ascii.eqb c "/" = false ->
  Split (String c s) "/"
  = match Split s "/" with
    | p :: ps => String c p :: ps
    | [] => [String c ""]
    end.
Proof. intros H. unfold Split. simpl. now rewrite H. Qed.

Lemma Split_not_nil (s : string) : Split s "/" <> [].
Proof.
  induction s as [|c s IH]; [discriminate|].
  destruct (Ascii.eqb c "/") eqn:E.
  - apply Ascii.eqb_eq in E. subst c. rewrite Split_slash. discriminate.
  - rewrite (Split_other _ _ E). destruct (Split s "/"); discriminate.
Qed.

Lemma Count_slash (s : string) : Count (String "/" s) "/" = S (Count s "/").
Proof. reflexivity. Qed.

Lemma Count_other (c : ascii) (s : string) :
  Ascii.eqb c "/" = false -> Count (String c s) "/" = Count s "/".
Proof. intros H. unfold Count. simpl. now rewrite H. Qed.

Lemma Split_app (a b : string) :
  Split (a ++ String "/" b) "/" = (Split a "/" ++ Split b "/")%list.
Proof.
  induction a as [|c a IH]; [reflexivity|].
  change ((String c a ++ String "/" b)%string) with (String c (a ++ String "/" b)).
  destruct (Ascii.eqb c "/") eqn:E.
  - apply Ascii.eqb_eq in E. subst c. now rewrite !Split_slash, IH.
  - rewrite !(Split_other _ _ E), IH.
    pose proof (Split_not_nil a) as Hn. now destruct (Split a "/").
Qed.

Lemma Count_app (a b : string) :
  Count (a ++ String "/" b) "/" = S (Count a "/" + Count b "/").
Proof.
  induction a as [|c a IH]; [reflexivity|].
  change ((String c a ++ String "/" b)%string) with (String c (a ++ String "/" b)).
  destruct (Ascii.eqb c "/") eqn:E.
  - apply Ascii.eqb_eq in E. subst c. rewrite !Count_slash, IH. reflexivity.
  - now rewrite !(Count_other _ _ E), IH.
Qed.

Lemma length_Split (s : string) : List.length (Split s "/") = S (Count s "/").
Proof.
  induction s as [|c s IH]; [reflexivity|].
  destruct (Ascii.eqb c "/") eqn:E.
  - apply Ascii.eqb_eq in E. subst c. rewrite Split_slash, Count_slash. simpl. now rewrite IH.
  - rewrite (Split_other _ _ E), (Count_other _ _ E), <- IH.
    pose proof (Split_not_nil s) as Hn. now destruct (Split s "/").
Qed.

Lemma Join_Split (s : string) : Join (Split s "/") "/" = s.
Proof.
  induction s as [|c s IH]; [reflexivity|].
  destruct (Ascii.eqb c "/") eqn:E.
  - apply Ascii.eqb_eq in E. subst c. rewrite Split_slash.
    pose proof (Split_not_nil s) as Hn.
    destruct (Split s "/") as [|p ps] eqn:Es; [congruence|].
    change (Join ("" :: p :: ps) "/") with ("" ++ "/" ++ Join (p :: ps) "/")%string.
    now rewrite IH.
  - rewrite (Split_other _ _ E).
    pose proof (Split_not_nil s) as Hn.
    destruct (Split s "/") as [|p ps] eqn:Es; [congruence|].
    destruct ps as [|q ps].
    + simpl in IH. simpl. now rewrite IH.
    + change (Join (String c p :: q :: ps) "/")
        with (String c (p ++ "/" ++ Join (q :: ps) "/")).
      change (Join (p :: q :: ps) "/") with (p ++ "/" ++ Join (q :: ps) "/")%string in IH.
      now rewrite IH.
Qed.

(** A string without a slash is one piece. *)
Lemma Split_no_slash (s : string) : has_char "/" s = false -> Split s "/" = [s].
Proof.
  induction s as [|c s IH]; [reflexivity|].
  simpl. intros H. apply orb_false_iff in H as [Hc Hs].
  rewrite (Split_other _ _ Hc), (IH Hs). reflexivity.
Qed.

Lemma Count_no_slash (s : string) : has_char "/" s = false -> Count s "/" = 0.
Proof.
  induction s as [|c s IH]; [reflexivity|].
  simpl. intros H. apply orb_false_iff in H as [Hc Hs].
  rewrite (Count_other _ _ Hc). auto.
Qed.

End strings_facts.

(* ================================================================= *)
(** ** [parseName] *)

Module parseName_facts.
Import strings strings_facts.

Lemma name_parts_keyword (pre post : list string) (kw : string) :
  keyword_free pre -> is_endpoint_keyword kw = true ->
  name_parts (pre ++ kw :: post) = pre.
Proof.
  intros Hpre Hkw. induction Hpre as [|p pre Hp _ IH]; simpl.
  - now rewrite Hkw.
  - now rewrite Hp, IH.
Qed.

Lemma keyword_no_slash (kw : string) :
  is_endpoint_keyword kw = true -> has_char "/" kw = false.
Proof.
  unfold is_endpoint_keyword. rewrite !orb_true_iff, !String.eqb_eq.
  intros [[[->| ->]| ->]| ->]; reflexivity.
Qed.

(** The pieces of [X/K] followed by nothing or by [/...]. *)
Lemma Split_name_keyword (X K T : string) :
  has_char "/" K = false ->
  T = "" \/ (exists T', T = String "/" T') ->
  exists post, Split (X ++ String "/" (K ++ T)) "/" = (Split X "/" ++ K :: post)%list
               /\ Count (X ++ String "/" (K ++ T)) "/" = S (Count X "/" + Count T "/").
Proof.
  intros HK [->|[T' ->]].
  - exists []. rewrite Split_app, Count_app, append_nil_r.
    now rewrite (Split_no_slash _ HK), (Count_no_slash _ HK).
  - exists (Split T' "/"). rewrite Split_app, Count_app, Split_app, Count_app.
    rewrite (Split_no_slash _ HK), (Count_no_slash _ HK), Count_slash. split; [reflexivity | lia].
Qed.

(** The name is what precedes the keyword, in the branch of the loop and,
    for a name of one component, in the branch of two slashes. *)
Lemma parseName_before_keyword (X K T : string) :
  keyword_free (Split X "/") ->
  is_endpoint_keyword K = true ->
  T = "" \/ (exists T', T = String "/" T') ->
  2 <= Count X "/" + Count T "/" \/ (Count X "/" = 0 /\ Count T "/" = 1) ->
  parseName ("/v2/" ++ X ++ String "/" (K ++ T)) = Ok X.
Proof.
  intros HX HK HT Hn.
  destruct (Split_name_keyword X K T (keyword_no_slash _ HK) HT) as (post & Hs & Hc).
  unfold parseName. rewrite (TrimPrefix_app "/v2/"), Hc, Hs.
  destruct Hn as [Hn|[H0 H1]].
  - destruct (Count X "/" + Count T "/") as [|[|n]] eqn:E; try lia.
    simpl. now rewrite (name_parts_keyword _ _ _ HX HK), Join_Split.
  - rewrite H0, H1. simpl.
    pose proof (length_Split X) as HL. rewrite H0 in HL.
    pose proof (Join_Split X) as HJ.
    destruct (Split X "/") as [|x [|y l]]; try discriminate.
    simpl in HJ. subst x. reflexivity.
Qed.

End parseName_facts.

Import parseName_facts.

(** C7, as the program has it: [parseName] returns [X] on
    [/v2/X/blobs/uploads/] for every [X] none of whose components is
    [blobs], [manifests], [tags] or [referrers]; with three slashes or more
    after the prefix the name is made of the components before the first
    such component; with exactly two slashes it is the first component;
    with fewer there is no name. *)
Theorem parseName_returns_name :
  (forall X : string,
      keyword_free (strings.Split X "/") ->
      parseName ("/v2/" ++ X ++ "/blobs/uploads/") = Ok X)
  /\ (forall (url : string) (pre post : list string) (kw : string),
         strings.Split (strings.TrimPrefix url "/v2/") "/" = (pre ++ kw :: post)%list ->
         keyword_free pre -> is_endpoint_keyword kw = true ->
         3 <= strings.Count (strings.TrimPrefix url "/v2/") "/" ->
         parseName url = Ok (strings.Join pre "/"))
  /\ (forall url : string,
         strings.Count (strings.TrimPrefix url "/v2/") "/" = 2 ->
         parseName url = Ok (nth 0 (strings.Split (strings.TrimPrefix url "/v2/") "/") ""))
  /\ (forall url : string,
         strings.Count (strings.TrimPrefix url "/v2/") "/" <= 1 ->
         exists e, parseName url = Err e).
Proof.
  repeat split.
  - intros X HX.
    apply (parseName_before_keyword X "blobs" "/uploads/" HX eq_refl).
    + right. now exists "uploads/".
    + left. change (strings.Count "/uploads/" "/") with 2. lia.
  - intros url pre post kw Hs Hpre Hkw Hn. unfold parseName.
    destruct (strings.Count (strings.TrimPrefix url "/v2/") "/") as [|[|[|n]]]; try lia.
    simpl. now rewrite Hs, (name_parts_keyword _ _ _ Hpre Hkw).
  - intros url Hn. unfold parseName. now rewrite Hn.
  - intros url Hn. unfold parseName.
    destruct (strings.Count (strings.TrimPrefix url "/v2/") "/") as [|[|n]]; try lia;
      eexists; reflexivity.
Qed.

Lemma parseName_returns_name_witness :
  parseName ("/v2/" ++ "lib/app" ++ "/blobs/uploads/") = Ok "lib/app".
Proof.
  apply (proj1 parseName_returns_name "lib/app").
  repeat constructor.
Defined.

(** C7 as stated fails: a name that matches the grammar may have a
    keyword among its components, and with two slashes the name is not
    made of all the components before the keyword. *)
Lemma parseName_returns_name_counterexample :
  (matches nameRegex "lib/tags" = true
   /\ 2 <= List.length (strings.Split "lib/tags" "/")
   /\ parseName ("/v2/" ++ "lib/tags" ++ "/blobs/uploads/") <> Ok "lib/tags")
  /\ (name_parts (strings.Split (strings.TrimPrefix "/v2/lib/app/tags" "/v2/") "/")
      = ["lib"; "app"]
      /\ parseName "/v2/lib/app/tags" <> Ok (strings.Join ["lib"; "app"] "/")).
Proof.
  repeat split; try (vm_compute; reflexivity); try (vm_compute; lia);
    vm_compute; discriminate.
Qed.

(* ================================================================= *)
(** ** The dispatcher: name validation *)

Lemma parseName_base : exists e, parseName "/v2/" = Err e.
Proof. eexists. reflexivity. Qed.

(** C6, as the program has it: when [parseName] yields a name and the name
    does not match the name grammar, the reply is the OCI error
    NAME_INVALID with status 400 (a HEAD request gets no body), and the
    storage is left as it was. *)
Theorem invalid_name_is_rejected_400 :
  forall (env : environ) (fs : os.node) (ids : nat) (r : Request) (name : string),
    parseName (RequestURI r) = Ok name ->
    matches nameRegex name = false ->
    serve env fs ids r
    = (Response 400 error_headers
                (if Method r =? "HEAD" then ""
                 else json_Marshal_ErrorResponse env "NAME_INVALID" "invalid repository name"
                      ++ nl),
       fs, ids).
Proof.
  intros env fs ids r name Hp Hm.
  unfold serve, handler.
  destruct ((Method r =? "GET") && (RequestURI r =? "/v2/")) eqn:Hbase.
  - apply andb_true_iff in Hbase as [_ Hu]. apply String.eqb_eq in Hu.
    rewrite Hu in Hp. destruct parseName_base as [e He]. congruence.
  - rewrite Hp, Hm. simpl negb. cbv iota.
    unfold writeOCIError, http_Error, w_Header_Set, w_WriteHeader, w_Write, on_w, bind,
      return_, ret, new_ResponseWriter.
    cbn -[json_Marshal_ErrorResponse nl String.append].
    unfold json_Marshal_ErrorResponse at 1. cbn [String.append String.eqb].
    destruct (Method r =? "HEAD"); reflexivity.
Qed.

Lemma invalid_name_is_rejected_400_witness :
  reply_code (reply_to sample_env empty_storage 0
                       (request "GET" "/v2/Lib/App/tags/list" [] []))
  = Some 400%Z.
Proof.
  unfold reply_to.
  rewrite (invalid_name_is_rejected_400 sample_env empty_storage 0
             (request "GET" "/v2/Lib/App/tags/list" [] []) "Lib/App");
    [reflexivity | vm_compute; reflexivity | vm_compute; reflexivity].
Defined.

(** C6 as stated fails: a URI without any name component before the
    keyword is answered with status 500, and a name of one component is
    accepted. *)
Lemma invalid_name_is_rejected_400_counterexample :
  reply_code (reply_to sample_env empty_storage 0 (request "GET" "/v2/tags/list" [] []))
  = Some 500%Z
  /\ parseName "/v2/foo/manifests/v1" = Ok "foo"
  /\ reply_code (reply_to sample_env empty_storage 0
                          (request "PUT" "/v2/foo/manifests/v1" [] ["{}"]))
     = Some 201%Z.
Proof. repeat split; vm_compute; reflexivity. Qed.

(* ================================================================= *)
(** ** The storage tree *)

Module os_facts.
Import os.

Lemma set_entry_same (e : string) (c : node) (ents : list (string * node)) :
  find_entry e ents = Some c -> set_entry e c ents = ents.
Proof.
  induction ents as [|[k v] ents IH]; simpl; [discriminate|].
  destruct (k =? e)%string.
  - now intros [= ->].
  - intros H. now rewrite (IH H).
Qed.

(** A change that puts back the node it finds leaves the tree as it is. *)
Lemma alter_same (f : option node -> sys (option node)) :
  forall (es : list string) (n x : node),
    walk es n = Done x -> f (Some x) = Done (Some x) -> alter es f n = Done n.
Proof.
  induction es as [|e es IH]; intros n x Hw Hf; simpl in *.
  - injection Hw as ->. now rewrite Hf.
  - destruct n as [d|ents]; [discriminate|].
    destruct (find_entry e ents) as [c|] eqn:Hc; [|discriminate].
    destruct es as [|e' es'].
    + simpl in Hw. injection Hw as ->. now rewrite Hf, (set_entry_same _ _ _ Hc).
    + now rewrite (IH c x Hw Hf), (set_entry_same _ _ _ Hc).
Qed.

Lemma Open_inv (fs : node) (p : string) (x : node) :
  Open fs p = Ok x -> (p =? "")%string = false /\ walk (resolve p) fs = Done x.
Proof.
  unfold Open, lift, at_path. destruct (p =? "")%string; [discriminate|].
  destruct (walk (resolve p) fs); [|discriminate]. now intros [= ->].
Qed.

(** Opening an existing file with [O_CREATE] changes nothing. *)
Lemma OpenFile_create_existing (fs : node) (p d : string) :
  Open fs p = Ok (File d) -> OpenFile_create fs p = Ok fs.
Proof.
  intros H. apply Open_inv in H as [Hp Hw].
  unfold OpenFile_create, lift, at_path. rewrite Hp.
  erewrite alter_same; [reflexivity | exact Hw | reflexivity].
Qed.

(** *** Entries of a directory *)

Lemma find_entry_set_entry_same (k : string) (c : node) (ents : list (string * node)) :
  find_entry k (set_entry k c ents) = Some c.
Proof.
  induction ents as [|[k' v] ents IH]; simpl.
  - now rewrite String.eqb_refl.
  - destruct (k' =? k)%string eqn:E; simpl; now rewrite E.
Qed.

Lemma find_entry_set_entry_other (t k : string) (c : node) (ents : list (string * node)) :
  t <> k -> find_entry t (set_entry k c ents) = find_entry t ents.
Proof.
  intros Hn. induction ents as [|[k' v] ents IH]; simpl.
  - destruct (String.eqb_spec k t) as [->|_]; [congruence | reflexivity].
  - destruct (String.eqb_spec k' k) as [->|_]; simpl.
    + destruct (String.eqb_spec k t) as [->|_]; [congruence | reflexivity].
    + now rewrite IH.
Qed.

Lemma map_entry_of_set_entry (k : string) (a b : list (string * node))
      (ents : list (string * node)) :
  find_entry k ents = Some (Dir a) ->
  map entry_of (set_entry k (Dir b) ents) = map entry_of ents.
Proof.
  induction ents as [|[k' v] ents IH]; simpl; [discriminate|].
  destruct (k' =? k)%string.
  - now intros [= ->].
  - intros H. simpl. now rewrite (IH H).
Qed.

Lemma In_set_entry_other (t k : string) (n c : node) (ents : list (string * node)) :
  In (t, n) (set_entry k c ents) -> t <> k -> In (t, n) ents.
Proof.
  intros H Hn. induction ents as [|[k' v] ents IH]; simpl in *.
  - destruct H as [[= <- _]|[]]. congruence.
  - destruct (String.eqb_spec k' k) as [->|_]; simpl in H.
    + destruct H as [[= <- _]|H]; [congruence | now right].
    + destruct H as [H|H]; [now left | right; now apply IH].
Qed.

Lemma find_entry_In (k : string) (c : node) (ents : list (string * node)) :
  find_entry k ents = Some c -> In (k, c) ents.
Proof.
  induction ents as [|[k' v] ents IH]; simpl; [discriminate|].
  destruct (String.eqb_spec k' k) as [->|_].
  - intros [= ->]. now left.
  - intros H. right. now apply IH.
Qed.

Lemma In_insert_sorted {A : Type} (key : A -> string) (x y : A) (l : list A) :
  In y (insert_sorted key x l) <-> y = x \/ In y l.
Proof.
  induction l as [|z l IH]; simpl; [intuition|].
  destruct (String.leb (key x) (key z)); simpl; [intuition|].
  rewrite IH. intuition.
Qed.

Lemma In_sort_by {A : Type} (key : A -> string) (y : A) (l : list A) :
  In y (sort_by key l) <-> In y l.
Proof.
  induction l as [|x l IH]; simpl; [tauto|].
  unfold sort_by in *. simpl. rewrite In_insert_sorted, IH. intuition.
Qed.

(** *** Walks below a directory *)

Lemma walk_app (p q : list string) :
  forall n, walk (p ++ q) n = match walk p n with
                              | Done x => walk q x
                              | Fail e => Fail e
                              end.
Proof.
  induction p as [|e p IH]; intros n; simpl; [reflexivity|].
  destruct n as [d|ents]; [reflexivity|].
  destruct (find_entry e ents); [apply IH | reflexivity].
Qed.

(** A change below the directory at [p] is a change of that directory. *)
Lemma alter_under (f : option node -> sys (option node)) (q : list string) :
  q <> [] ->
  forall (p : list string) (n x : node),
    walk p n = Done x ->
    match alter q f x with
    | Done x' => exists n', alter (p ++ q) f n = Done n' /\ walk p n' = Done x'
    | Fail e => alter (p ++ q) f n = Fail e
    end.
Proof.
  intros Hq. induction p as [|e p IH]; intros n x Hw.
  - simpl in Hw. injection Hw as ->. simpl.
    destruct (alter q f x); [eauto | reflexivity].
  - simpl in Hw. destruct n as [d|ents]; [discriminate|].
    destruct (find_entry e ents) as [c|] eqn:Hc; [|discriminate].
    specialize (IH c x Hw).
    change ((e :: p) ++ q)%list with (e :: (p ++ q))%list. cbn [alter].
    destruct (p ++ q)%list as [|e' pq] eqn:Epq.
    { apply app_eq_nil in Epq as [_ ->]. congruence. }
    rewrite Hc.
    destruct (alter q f x) as [x'|err].
    + destruct IH as (c' & Ha & Hw'). rewrite Ha. eexists. split; [reflexivity|].
      simpl. now rewrite find_entry_set_entry_same.
    + now rewrite IH.
Qed.

Lemma dir_entries_empty (p : list string) : dir_entries p (Dir []) = [].
Proof. destruct p; reflexivity. Qed.

(** What [MkdirAll] leaves at the parent of the directory it makes. *)
Lemma mkdir_all_parent (ref : string) :
  forall (p : list string) (n n' : node),
    mkdir_all (p ++ [ref]) n = Done n' ->
    exists er,
      walk p n' = Done (Dir (set_entry ref (Dir er) (dir_entries p n)))
      /\ match find_entry ref (dir_entries p n) with
         | Some c => c = Dir er
         | None => er = []
         end.
Proof.
  induction p as [|e p IH]; intros n n'.
  - destruct n as [d|ents]; [discriminate|]. cbn [app mkdir_all].
    destruct (find_entry ref ents) as [c|] eqn:Hc.
    + destruct c as [d|er]; [discriminate|]. intros [= <-].
      exists er. unfold dir_entries. cbn [walk]. now rewrite Hc.
    + intros [= <-]. exists []. unfold dir_entries. cbn [walk]. now rewrite Hc.
  - destruct n as [d|ents]; [discriminate|].
    change ((e :: p) ++ [ref])%list with (e :: (p ++ [ref]))%list. cbn [mkdir_all].
    destruct (mkdir_all (p ++ [ref]) _) as [c'|err] eqn:Hm; [|discriminate].
    intros [= <-]. apply IH in Hm as (er & Hw & Hf).
    exists er. cbn [walk]. rewrite find_entry_set_entry_same.
    unfold dir_entries in *. cbn [walk].
    destruct (find_entry e ents) as [c|]; [now split|].
    fold (dir_entries p (Dir [])) in *. rewrite dir_entries_empty in *. now split.
Qed.

(** *** A file in a tag directory *)

Lemma same_listing_refl (ref : string) (ents : list (string * node)) :
  same_listing ref ents ents.
Proof. now split. Qed.

Lemma same_listing_trans (ref : string) (a b c : list (string * node)) :
  same_listing ref a b -> same_listing ref b c -> same_listing ref a c.
Proof.
  intros [H1 H2] [H3 H4]. split; [congruence|].
  intros t Ht. now rewrite H4, H2.
Qed.

(** A call that changes the file [m] of the tag directory [ref], or makes
    it, in the directory at [p]. *)
Lemma alter_tag_file (f : option node -> sys (option node)) (op F : string)
      (p : list string) (ref m : string) (n : node)
      (ents er : list (string * node)) (d' : string) :
  (F =? "")%string = false -> resolve F = (p ++ [ref; m])%list ->
  walk p n = Done (Dir ents) -> find_entry ref ents = Some (Dir er) ->
  f (find_entry m er) = Done (Some (File d')) ->
  exists n' ents',
    lift op F (at_path F (fun es => alter es f n)) = Ok n'
    /\ holds_file p ref m n' ents' d' /\ same_listing ref ents ents'.
Proof.
  intros HF Hr Hw Hf Hm. unfold at_path. rewrite HF, Hr.
  pose proof (alter_under f [ref; m] ltac:(discriminate) p n (Dir ents) Hw) as H.
  cbn [alter] in H. rewrite Hf, Hm in H. destruct H as (n' & Ha & Hw').
  rewrite Ha. exists n'. eexists. split; [reflexivity|]. split.
  - split; [exact Hw'|]. eexists. split; apply find_entry_set_entry_same.
  - split.
    + now apply map_entry_of_set_entry with (a := er).
    + intros t Ht. now apply find_entry_set_entry_other.
Qed.

End os_facts.

(* ================================================================= *)
(** ** Numbers in headers *)

Lemma digits_nonneg :
  forall (s : string) (acc v : Z), strconv.digits s acc = Some v -> (0 <= acc)%Z -> (0 <= v)%Z.
Proof.
  induction s as [|c s IH]; simpl; intros acc v H Hacc.
  - injection H as <-. exact Hacc.
  - destruct (strconv.is_digit c) eqn:Hc; [|discriminate].
    apply (IH _ _ H). unfold strconv.is_digit, between in Hc.
    apply andb_true_iff in Hc as [Hlo _]. apply Nat.leb_le in Hlo.
    change (nat_of_ascii "0") with 48%nat in Hlo. lia.
Qed.

(** A number read from a text without a minus sign is not negative. *)
Lemma parse64_nonneg (env : environ) (fn s : string) (v : Z) :
  has_char "-" s = false -> strconv.parse64 env fn s = Ok v -> (0 <= v)%Z.
Proof.
  intros Hs. unfold strconv.parse64.
  assert (E : exists mag, (match s with
                           | String "+" t => (false, t)
                           | String "-" t => (true, t)
                           | _ => (false, s)
                           end) = (false, mag)).
  { destruct s as [|c t]; [now exists ""|].
    destruct (Ascii.eqb_spec c "-") as [->|Hc]; [discriminate|].
    destruct (Ascii.eqb_spec c "+") as [->|Hp]; [now exists t | exists (String c t)].
    destruct c as [[] [] [] [] [] [] [] []]; try reflexivity; congruence. }
  destruct E as [mag ->]. destruct mag; [discriminate|].
  destruct (strconv.digits (String a mag) 0) as [z|] eqn:Hd; [|discriminate].
  destruct ((- 2 ^ 63 <=? z)%Z && (z <? 2 ^ 63)%Z); [|discriminate].
  intros [= <-]. apply (digits_nonneg _ _ _ Hd). lia.
Qed.

(** The first piece of a text cut at [c] has no [c]. *)
Lemma Split_head_no_sep (c : ascii) :
  forall (s p : string) (ps : list string),
    strings.Split s (String c "") = p :: ps -> has_char c p = false.
Proof.
  unfold strings.Split. induction s as [|x s IH]; intros p ps; cbn [strings.split_from].
  - now intros [= <- _].
  - cbn [strings.HasPrefix]. rewrite andb_true_r.
    destruct (Ascii.eqb x c) eqn:Hx; [now intros [= <- _]|].
    destruct (strings.split_from (String c "") 0 s) as [|q qs] eqn:Hq.
    + intros [= <- _]. simpl. now rewrite Hx.
    + intros [= <- _]. simpl. now rewrite Hx, (IH q qs eq_refl).
Qed.

Lemma parse64_any_caller (env : environ) (f1 f2 s : string) (v : Z) :
  strconv.parse64 env f1 s = Ok v -> strconv.parse64 env f2 s = Ok v.
Proof.
  unfold strconv.parse64.
  destruct (match s with
            | String "+" t => (false, t)
            | String "-" t => (true, t)
            | _ => (false, s)
            end) as [neg mag].
  destruct mag; [discriminate|].
  destruct (strconv.digits (String a mag) 0); [|discriminate].
  destruct ((- 2 ^ 63 <=? (if neg then - z else z))%Z && ((if neg then - z else z) <? 2 ^ 63)%Z);
    [trivial | discriminate].
Qed.

(* ================================================================= *)
(** ** The dispatcher: control *)

Lemma bind_Returned {A B : Type} (m : M A) (k : A -> M B) (s s' : state) :
  m s = (Returned, s') -> bind m k s = (Returned, s').
Proof. unfold bind. now intros ->. Qed.

Lemma bind_Next {A B : Type} (m : M A) (k : A -> M B) (s s' : state) (a : A) :
  m s = (Next a, s') -> bind m k s = k a s'.
Proof. unfold bind. now intros ->. Qed.

(** The matchers that a PATCH passes before its own. *)
Lemma PATCH_reaches_end_5 (env : environ) (r : Request) (name endpoint : string) (s : state) :
  Method r = "PATCH" ->
  endpoints env r name endpoint s
  = bind (end_5 env r name endpoint)
         (fun _ =>
            end_6 env r name endpoint ;; end_7 env r name endpoint ;;
            end_8a env r name endpoint ;; end_8b env r name endpoint ;;
            end_9 env r name endpoint ;; end_10 env r name endpoint ;;
            end_11 env r name endpoint ;; end_12a r name endpoint ;;
            end_12b r name endpoint ;; end_13 env r name endpoint) s.
Proof.
  intros HM. unfold endpoints, end_2, end_3, end_4a, end_4b, is_GET_or_HEAD.
  rewrite !HM. reflexivity.
Qed.

(** The two refusals of a PATCH that carries a range, on the session file
    as it is. *)
Lemma end_5_range_not_satisfiable
      (env : environ) (r : Request) (name endpoint : string) (st : state)
      (i s : Z) (start e : string) (rest : list string) (data : string) :
  Method r = "PATCH" ->
  strings.Contains endpoint "/blobs/uploads/" = true ->
  strconv.Atoi env (Header_Get r "Content-Length") = Ok i ->
  strings.Split (Header_Get r "Content-Range") "-" = start :: e :: rest ->
  strconv.ParseInt env start = Ok s ->
  (s <= max_alloc env)%Z ->
  os.Open (st_fs st)
          (path.Join [rootDir env; name; "_blobs";
                      last_part (strings.Split endpoint "/")])
  = Ok (os.File data) ->
  (Z.of_nat (String.length data) < s
   \/ (0 <= i <= max_alloc env /\ s + i <= Z.of_nat (String.length data)))%Z ->
  end_5 env r name endpoint st
  = (Returned,
     mkSt (st_fs st)
          (WriteHeader 416 (Header_Set "Location" (RequestURI r) (st_w st)))
          (st_body st) (st_ids st)).
Proof.
  intros HM HC HA HS HP Hmax HO Hcase.
  assert (Hs : (0 <= s)%Z).
  { apply (parse64_nonneg env "ParseInt" start s); [|exact HP].
    exact (Split_head_no_sep "-" _ _ _ HS). }
  unfold end_5. rewrite HM, HC. cbn [String.eqb Ascii.eqb Bool.eqb andb when].
  unfold bind at 1. unfold w_Header_Set at 1, on_w at 1. rewrite HA.
  destruct (String.eqb_spec (Header_Get r "Content-Range") "") as [Hcr|_].
  { rewrite Hcr in HS. discriminate. }
  rewrite HS, HP.
  unfold strconv.Atoi. unfold strconv.ParseInt in HP.
  rewrite (parse64_any_caller env "ParseInt" "Atoi" start s HP).
  apply bind_Returned.
  unfold bind at 1, get_fs at 1. cbn [st_fs].
  rewrite (os_facts.OpenFile_create_existing _ _ _ HO).
  unfold bind at 1, put_fs at 1. cbn [st_fs st_w st_body st_ids].
  unfold file_data. rewrite HO.
  assert (Hcs : can_make env s = true).
  { unfold can_make. apply andb_true_iff. split; apply Z.leb_le; assumption. }
  rewrite Hcs. cbn [negb].
  assert (Hlen0 : data = "" -> String.length data = 0) by (now intros ->).
  destruct Hcase as [Hgap|[Hi Hdup]].
  - (* the range starts past the end of the file *)
    unfold os.Read.
    destruct (Z.to_nat s) as [|k] eqn:Hk; [lia|].
    destruct (String.eqb_spec data "") as [_|Hne]; [reflexivity|].
    rewrite Nat.min_r by lia.
    destruct (Z.of_nat (String.length data) =? s)%Z eqn:Heq;
      [apply Z.eqb_eq in Heq; lia | reflexivity].
  - (* the range is already in the file *)
    assert (HR : os.Read data (Z.to_nat s) = Ok (Z.to_nat s)).
    { unfold os.Read. destruct (Z.to_nat s) as [|k] eqn:Hk; [reflexivity|].
      destruct (String.eqb_spec data "") as [He|_].
      - apply Hlen0 in He. lia.
      - rewrite Nat.min_l by lia. reflexivity. }
    rewrite HR. rewrite Z2Nat.id by lia. rewrite Z.eqb_refl. cbn [negb].
    assert (Hci : can_make env i = true).
    { unfold can_make. apply andb_true_iff. split; apply Z.leb_le; lia. }
    rewrite Hci. cbn [negb].
    unfold os.ReadAt. rewrite Nat.min_l by lia.
    rewrite Nat.eqb_refl. cbn [negb andb]. rewrite Z2Nat.id by lia. rewrite Z.eqb_refl.
    reflexivity.
Qed.

(** C5, as the program has it: a PATCH with [Content-Range: s-e], where
    [s] fits 64 bits and is a length the run time can allocate, on a
    session file of [c] bytes is answered 416, and the storage stays as it
    was, when [s > c] and when the bytes from [s] to [s + Content-Length]
    are already there (the length being one the run time can allocate). *)
Theorem patch_out_of_range_is_416 :
  forall (env : environ) (fs : os.node) (ids : nat) (r : Request) (name : string)
         (i s : Z) (start e : string) (rest : list string) (data : string),
    Method r = "PATCH" ->
    parseName (RequestURI r) = Ok name ->
    matches nameRegex name = true ->
    strings.Contains (strings.TrimPrefix (RequestURI r) ("/v2/" ++ name))
                     "/blobs/uploads/" = true ->
    strconv.Atoi env (Header_Get r "Content-Length") = Ok i ->
    strings.Split (Header_Get r "Content-Range") "-" = start :: e :: rest ->
    strconv.ParseInt env start = Ok s ->
    (s <= max_alloc env)%Z ->
    os.Open fs (path.Join [rootDir env; name; "_blobs";
                           last_part (strings.Split
                                        (strings.TrimPrefix (RequestURI r) ("/v2/" ++ name))
                                        "/")])
    = Ok (os.File data) ->
    (Z.of_nat (String.length data) < s
     \/ (0 <= i <= max_alloc env /\ s + i <= Z.of_nat (String.length data)))%Z ->
    serve env fs ids r = (Response 416 [("Location", RequestURI r)] "", fs, ids).
Proof.
  intros env fs ids r name i s start e rest data HM Hname Hgram HC HA HS HP Hmax HO Hcase.
  unfold serve, handler. rewrite HM, Hname, Hgram.
  cbn [String.eqb Ascii.eqb Bool.eqb andb negb strings.Join].
  change ("/v2/" ++ "" ++ name)%string with ("/v2/" ++ name)%string.
  rewrite (PATCH_reaches_end_5 env r name _ _ HM).
  erewrite bind_Returned;
    [| eapply end_5_range_not_satisfiable; cbn [st_fs]; eassumption].
  reflexivity.
Qed.

Lemma patch_out_of_range_is_416_witness :
  let fs := os.Dir [("data", os.Dir [("lib", os.Dir [("app", os.Dir [("_blobs",
              os.Dir [("session-0", os.File "abc")])])])])] in
  let r := mkRequest "PATCH" "/v2/lib/app/blobs/uploads/session-0"
                     [("Content-Length", "3"); ("Content-Range", "10-12")] [] 3 ["xyz"] in
  serve sample_env fs 1 r = (Response 416 [("Location", RequestURI r)] "", fs, 1).
Proof.
  intros fs r.
  apply (patch_out_of_range_is_416 sample_env fs 1 r "lib/app" 3 10 "10" "12" [] "abc");
    try (vm_compute; reflexivity); try (vm_compute; discriminate).
  left. vm_compute. reflexivity.
Defined.

(** C5 as stated fails: on a session file of 3 bytes, a start of 2^63 is
    answered 500, the text being no 64-bit number, and a start of 2^63 - 1
    ends the request in a panic, the run time having no slice of that
    length. *)
Lemma patch_out_of_range_is_416_counterexample :
  let fs := os.Dir [("data", os.Dir [("lib", os.Dir [("app", os.Dir [("_blobs",
              os.Dir [("session-0", os.File "abc")])])])])] in
  let patch := fun range =>
    mkRequest "PATCH" "/v2/lib/app/blobs/uploads/session-0"
              [("Content-Length", "3"); ("Content-Range", range)] [] 3 ["xyz"] in
  (3 < 2 ^ 63)%Z
  /\ reply_code (reply_to sample_env fs 1 (patch "9223372036854775808-9223372036854775810"))
     = Some 500%Z
  /\ reply_to sample_env fs 1 (patch "9223372036854775807-9223372036854775809")
     = Aborted "runtime error: makeslice: len out of range".
Proof. repeat split; vm_compute; reflexivity. Qed.

(* ================================================================= *)
(** ** Runs of the handler *)

Lemma digests_are_right :
  getDigest "hello" = digest_hello /\ getDigest "abcdef" = digest_abcdef
  /\ getDigest "{}" = digest_braces.
Proof. repeat split; vm_compute; reflexivity. Qed.

(** C1 on the program: a PUT whose body does not have the digest it
    claims is answered 400, yet the body is stored under the claimed digest
    name; and when the session file exists it is renamed to the claimed
    digest, whatever its bytes, with status 201. *)
Theorem finalize_stores_under_claimed_digest :
  getDigest "world" <> digest_hello
  /\ serve sample_env empty_storage 0
           (request "PUT" ("/v2/lib/app/blobs/uploads/session-0?digest=" ++ digest_hello)
                    [("digest", digest_hello)] ["world"])
     = (Response 400 error_headers ("blob did not match length or digest" ++ nl),
        repository [blobs [(digest_hello, "world")]], 0)
  /\ getDigest "abc" <> digest_hello
  /\ serve sample_env (repository [blobs [("session-0", "abc")]]) 1
           (request "PUT" ("/v2/lib/app/blobs/uploads/session-0?digest=" ++ digest_hello)
                    [("digest", digest_hello)] [])
     = (Response 201 [("Location", "/v2/lib/app/blobs/" ++ digest_hello)] "",
        repository [blobs [(digest_hello, "abc")]], 1).
Proof.
  repeat split; try (vm_compute; reflexivity); vm_compute; discriminate.
Qed.

(** C2 on the program: the first PATCH creates the session file and drops
    its body, the second is refused, and the blob the PUT leaves under the
    digest of the whole has no bytes. *)
Theorem chunked_upload_drops_first_chunk :
  serve_all sample_env (repository [blobs []]) 1
    [ mkRequest "PATCH" "/v2/lib/app/blobs/uploads/session-0"
                [("Content-Length", "3")] [] 3 ["abc"];
      mkRequest "PATCH" "/v2/lib/app/blobs/uploads/session-0"
                [("Content-Length", "3"); ("Content-Range", "3-5")] [] 3 ["def"];
      request "PUT" ("/v2/lib/app/blobs/uploads/session-0?digest=" ++ digest_abcdef)
              [("digest", digest_abcdef)] [];
      request "GET" ("/v2/lib/app/blobs/" ++ digest_abcdef) [] [] ]
  = ([ Response 202 [("Location", "/v2/lib/app/blobs/uploads/session-0")] "";
       Response 416 [("Location", "/v2/lib/app/blobs/uploads/session-0")] "";
       Response 201 [("Location", "/v2/lib/app/blobs/" ++ digest_abcdef)] "";
       Response 200 [("Docker-Content-Digest", digest_abcdef)] "" ],
     repository [blobs [(digest_abcdef, "")]]).
Proof. vm_compute. reflexivity. Qed.

(** C3 on the program: with the query in the URI no matcher answers, and
    when the URI still ends in [/tags/list] the list starts at [last]
    itself. *)
Theorem tags_list_starts_at_last :
  let fs := repository [tag "a" "{}"; tag "b" "{}"; tag "c" "{}"; tag "d" "{}"] in
  reply_to sample_env fs 0
           (request "GET" "/v2/lib/app/tags/list?n=2&last=a" [("n", "2"); ("last", "a")] [])
  = Response 200 [] ""
  /\ reply_to sample_env fs 0
              (request "GET" "/v2/lib/app/tags/list?n=2&last=a&x=/tags/list"
                       [("n", "2"); ("last", "a"); ("x", "/tags/list")] [])
     = Response 200 []
                ("{" ++ quoted "name" ++ ":" ++ quoted "lib/app" ++ ","
                 ++ quoted "tags" ++ ":[" ++ quoted "a" ++ "," ++ quoted "b" ++ "]}").
Proof. split; vm_compute; reflexivity. Qed.

(** C4 on the program: DELETE by digest answers 202 and leaves the tag
    whose manifest has that digest, and DELETE of a tag that does not exist
    answers 202. *)
Theorem delete_manifest_is_always_202 :
  let fs := repository [tag "v1" "{}"] in
  serve sample_env fs 0 (request "DELETE" ("/v2/lib/app/manifests/" ++ digest_braces) [] [])
  = (Response 202 [] "", fs, 0)
  /\ serve sample_env fs 0 (request "DELETE" "/v2/lib/app/manifests/nosuch" [] [])
     = (Response 202 [] "", fs, 0).
Proof. split; vm_compute; reflexivity. Qed.

(** C9 on the program: the tags listing panics on an [n] that is not a
    number, on an [n] beyond the capacity of the slice and on a [last] that
    is no tag, and an [n] between the length and the capacity adds an
    empty tag. *)
Theorem tags_list_is_not_total :
  let fs := repository [tag "a" "{}"; tag "b" "{}"; tag "c" "{}"] in
  let get := fun form =>
    reply_to sample_env fs 0
             (request "GET" "/v2/lib/app/tags/list?x=/tags/list"
                      (form ++ [("x", "/tags/list")])%list []) in
  get [("n", "abc"); ("last", "a")]
  = Aborted ("strconv.Atoi: parsing " ++ quoted "abc" ++ ": invalid syntax")
  /\ get [("n", "9"); ("last", "a")] = Aborted "runtime error: slice bounds out of range"
  /\ get [("last", "zz")] = Aborted "runtime error: slice bounds out of range"
  /\ get [("n", "4"); ("last", "a")]
     = Response 200 []
                ("{" ++ quoted "name" ++ ":" ++ quoted "lib/app" ++ ","
                 ++ quoted "tags" ++ ":[" ++ quoted "a" ++ "," ++ quoted "b" ++ ","
                 ++ quoted "c" ++ "," ++ quoted "" ++ "]}").
Proof. repeat split; vm_compute; reflexivity. Qed.

(** C10 on the program: the POST that opens a session is answered by
    end-4a and then by end-4b, which adds its message to the body. *)
Theorem upload_init_is_answered_twice :
  serve sample_env empty_storage 0 (request "POST" "/v2/lib/app/blobs/uploads/" [] [])
  = (Response 202 [("Location", "/v2/lib/app/blobs/uploads/session-0")]
              ("Digest missing" ++ nl),
     empty_storage, 1).
Proof. vm_compute. reflexivity. Qed.

(* ================================================================= *)
(** ** Patterns: the matcher accepts the words of the pattern *)

Module regexp_facts.
Import strings_facts.

Lemma append_eq_nil (s t : string) : s ++ t = "" -> s = "" /\ t = "".
Proof. destruct s; simpl; [now intros ->|discriminate]. Qed.

Lemma lang_Void (s : string) : ~ lang Void s.
Proof. intros H. inversion H. Qed.

Lemma lang_Eps_inv (s : string) : lang Eps s -> s = "".
Proof. intros H. now inversion H. Qed.

Lemma lang_Seq_inv (a b : regex) (s : string) :
  lang (Seq a b) s -> exists s1 s2, s = s1 ++ s2 /\ lang a s1 /\ lang b s2.
Proof. intros H. inversion H; subst. eauto. Qed.

Lemma lang_Alt_inv (a b : regex) (s : string) : lang (Alt a b) s -> lang a s \/ lang b s.
Proof. intros H. inversion H; subst; auto. Qed.

Lemma lang_Class_inv (P : ascii -> bool) (s : string) :
  lang (Class P) s -> exists c, s = String c "" /\ P c = true.
Proof. intros H. inversion H; subst. eauto. Qed.

Lemma nullable_lang (r : regex) : nullable r = true <-> lang r "".
Proof.
  induction r as [| |P|a IHa b IHb|a IHa b IHb|a IHa]; simpl.
  - split; [discriminate | intros H; inversion H].
  - split; [constructor | reflexivity].
  - split; [discriminate | intros H; inversion H].
  - rewrite andb_true_iff, IHa, IHb. split.
    + intros [Ha Hb]. exact (@lang_Seq a b "" "" Ha Hb).
    + intros H. apply lang_Seq_inv in H as (s1 & s2 & E & H1 & H2).
      symmetry in E. apply append_eq_nil in E as [-> ->]. now split.
  - rewrite orb_true_iff, IHa, IHb. split.
    + intros [H|H]; [now apply lang_Alt_l | now apply lang_Alt_r].
    + apply lang_Alt_inv.
  - split; [constructor | reflexivity].
Qed.

Lemma lang_seq (a b : regex) (s : string) : lang (seq a b) s <-> lang (Seq a b) s.
Proof.
  destruct a; simpl; try tauto.
  - split; intros H; [inversion H|].
    apply lang_Seq_inv in H as (s1 & s2 & _ & H1 & _). inversion H1.
  - split; intros H.
    + exact (@lang_Seq Eps b "" s lang_Eps H).
    + apply lang_Seq_inv in H as (s1 & s2 & -> & H1 & H2).
      apply lang_Eps_inv in H1. now subst.
Qed.

Lemma lang_alt (a b : regex) (s : string) : lang (alt a b) s <-> lang (Alt a b) s.
Proof.
  assert (HV : forall x, lang x s <-> lang (Alt Void x) s).
  { intros x. split; intros H; [now apply lang_Alt_r|].
    apply lang_Alt_inv in H as [H|H]; [inversion H | exact H]. }
  assert (HW : forall x, lang x s <-> lang (Alt x Void) s).
  { intros x. split; intros H; [now apply lang_Alt_l|].
    apply lang_Alt_inv in H as [H|H]; [exact H | inversion H]. }
  destruct a; simpl; try apply HV; destruct b; try apply HW; tauto.
Qed.

(** A non-empty word of [a*] starts with a non-empty word of [a]. *)
Lemma lang_Star_cons_inv (a : regex) (c : ascii) (s : string) :
  lang (Star a) (String c s) ->
  exists s1 s2, s = s1 ++ s2 /\ lang a (String c s1) /\ lang (Star a) s2.
Proof.
  intros H. remember (Star a) as r eqn:Er. remember (String c s) as w eqn:Ew.
  revert Er Ew.
  induction H as [| | | | | |a' s0 t H0 _ Ht IHt]; try discriminate.
  intros [= ->] Ew. destruct s0 as [|c0 s0].
  - simpl in Ew. now apply IHt.
  - simpl in Ew. injection Ew as -> <-. eauto.
Qed.

Lemma deriv_lang (c : ascii) (r : regex) :
  forall s, lang (deriv c r) s <-> lang r (String c s).
Proof.
  induction r as [| |P|a IHa b IHb|a IHa b IHb|a IHa]; intros s; simpl.
  - split; intros H; inversion H.
  - split; intros H; inversion H.
  - destruct (P c) eqn:HP; split; intros H.
    + apply lang_Eps_inv in H. subst. now constructor.
    + apply lang_Class_inv in H as (c' & [= <- ->] & _). constructor.
    + inversion H.
    + apply lang_Class_inv in H as (c' & [= <- ->] & HP'). congruence.
  - rewrite lang_alt. split; intros H.
    + apply lang_Alt_inv in H as [H|H].
      * apply lang_seq, lang_Seq_inv in H as (s1 & s2 & -> & H1 & H2).
        apply IHa in H1. exact (@lang_Seq a b (String c s1) s2 H1 H2).
      * destruct (nullable a) eqn:Hn; [|inversion H].
        apply nullable_lang in Hn. apply IHb in H.
        exact (@lang_Seq a b "" (String c s) Hn H).
    + apply lang_Seq_inv in H as (s1 & s2 & E & H1 & H2).
      destruct s1 as [|c1 s1]; simpl in E.
      * subst s2. apply lang_Alt_r. apply nullable_lang in H1. rewrite H1. now apply IHb.
      * injection E as <- ->. apply lang_Alt_l, lang_seq.
        apply lang_Seq; [now apply IHa | exact H2].
  - rewrite lang_alt. split; intros H.
    + apply lang_Alt_inv in H as [H|H];
        [apply lang_Alt_l; now apply IHa | apply lang_Alt_r; now apply IHb].
    + apply lang_Alt_inv in H as [H|H];
        [apply lang_Alt_l; now apply IHa | apply lang_Alt_r; now apply IHb].
  - rewrite lang_seq. split; intros H.
    + apply lang_Seq_inv in H as (s1 & s2 & -> & H1 & H2). apply IHa in H1.
      exact (@lang_Star_cons a (String c s1) s2 H1 H2).
    + apply lang_Star_cons_inv in H as (s1 & s2 & -> & H1 & H2).
      apply lang_Seq; [now apply IHa | exact H2].
Qed.

(** [regexp.MatchString] on an anchored pattern decides its language. *)
Theorem accepts_lang (s : string) : forall r, accepts r s = true <-> lang r s.
Proof.
  induction s as [|c s IH]; intros r; simpl.
  - apply nullable_lang.
  - rewrite IH. apply deriv_lang.
Qed.

End regexp_facts.

(* ================================================================= *)
(** ** Digests and references as strings *)

Module digest_facts.
Import strings strings_facts regexp_facts.

Lemma lang_Lit (p : string) : lang (Lit p) p.
Proof.
  induction p as [|c p IH]; simpl; [constructor|].
  apply (@lang_Seq _ _ (String c "") p); [|exact IH].
  constructor. apply Ascii.eqb_refl.
Qed.

Lemma lang_Times (P : ascii -> bool) :
  forall (n : nat) (h : string),
    String.length h = n -> all_chars P h = true -> lang (Times n (Class P)) h.
Proof.
  induction n as [|n IH]; intros h Hl Hc; destruct h as [|c h]; try discriminate.
  - constructor.
  - simpl in *. apply andb_true_iff in Hc as [Hc Hh]. injection Hl as Hl.
    apply (@lang_Seq _ _ (String c "") h); [now constructor | now apply IH].
Qed.

Lemma lang_Times_inv (P : ascii -> bool) :
  forall (n : nat) (h : string),
    lang (Times n (Class P)) h -> String.length h = n /\ all_chars P h = true.
Proof.
  induction n as [|n IH]; intros h H; simpl in H.
  - apply lang_Eps_inv in H. now subst.
  - apply lang_Seq_inv in H as (s1 & s2 & -> & H1 & H2).
    apply lang_Class_inv in H1 as (c & -> & Hc). apply IH in H2 as [Hl Ha].
    simpl. now rewrite Hc, Ha, Hl.
Qed.

Lemma lang_UpTo_inv (P : ascii -> bool) :
  forall (n : nat) (h : string), lang (UpTo n (Class P)) h -> all_chars P h = true.
Proof.
  induction n as [|n IH]; intros h H; simpl in H.
  - apply lang_Eps_inv in H. now subst.
  - apply lang_Alt_inv in H as [H|H].
    + apply lang_Eps_inv in H. now subst.
    + apply lang_Seq_inv in H as (s1 & s2 & -> & H1 & H2).
      apply lang_Class_inv in H1 as (c & -> & Hc). apply IH in H2.
      simpl. now rewrite Hc, H2.
Qed.

Lemma all_chars_app (P : ascii -> bool) (s t : string) :
  all_chars P (s ++ t) = all_chars P s && all_chars P t.
Proof. induction s as [|c s IH]; simpl; [reflexivity | now rewrite IH, andb_assoc]. Qed.

(** The shape of a reference. *)
Lemma refRegex_inv (s : string) :
  matches refRegex s = true ->
  exists c t, s = String c t /\ ref_head c = true /\ t <> "" /\ all_chars ref_tail t = true.
Proof.
  intros H. apply accepts_lang in H. unfold refRegex, Range in H.
  apply lang_Seq_inv in H as (s1 & s2 & -> & H1 & H2).
  apply lang_Class_inv in H1 as (c & -> & Hc).
  apply lang_Seq_inv in H2 as (t1 & t2 & -> & H1 & H2).
  apply lang_Times_inv in H1 as [Hl Ha]. apply lang_UpTo_inv in H2.
  exists c, (t1 ++ t2). repeat split; trivial.
  - destruct t1; [discriminate|]. discriminate.
  - now rewrite all_chars_app, Ha, H2.
Qed.

Lemma class_no_slash (P : ascii -> bool) (s : string) :
  P "/"%char = false -> all_chars P s = true -> has_char "/" s = false.
Proof.
  intros HP. induction s as [|c s IH]; simpl; [reflexivity|].
  intros H. apply andb_true_iff in H as [Hc Hs]. rewrite (IH Hs), orb_false_r.
  destruct (Ascii.eqb_spec c "/") as [->|_]; [congruence | reflexivity].
Qed.

(** A reference is a name that a directory entry can have. *)
Lemma reference_is_file_name (ref : string) : matches refRegex ref = true -> file_name ref.
Proof.
  intros H. apply refRegex_inv in H as (c & t & -> & Hc & Ht & Ha).
  assert (Hs : has_char "/" t = false) by (now apply (class_no_slash ref_tail)).
  repeat split.
  - discriminate.
  - destruct t; [congruence | discriminate].
  - intros [= -> _]. discriminate.
  - simpl. rewrite Hs, orb_false_r.
    destruct (Ascii.eqb_spec c "/") as [->|_]; [discriminate | reflexivity].
Qed.

(** *** What [getDigest] returns *)

Lemma hex_digit_lower_hex (n : N) : lower_hex (hex_digit n) = true.
Proof.
  unfold hex_digit. generalize (N.to_nat n). intros k.
  do 17 (destruct k as [|k]; [reflexivity|]). reflexivity.
Qed.

Lemma fmt_x_shape (bytes : list N) :
  String.length (fmt_x bytes) = 2 * List.length bytes
  /\ all_chars lower_hex (fmt_x bytes) = true.
Proof.
  induction bytes as [|b bytes [IHl IHc]]; [now split|].
  split.
  - cbn [fmt_x String.length List.length]. rewrite IHl. lia.
  - cbn [fmt_x all_chars]. now rewrite !hex_digit_lower_hex, IHc.
Qed.

Lemma Sum256_length (b : string) : List.length (sha256.Sum256 b) = 32.
Proof. reflexivity. Qed.

Lemma getDigest_shape (b : string) :
  getDigest b = "sha256:" ++ digest_hex b
  /\ String.length (digest_hex b) = 64
  /\ all_chars lower_hex (digest_hex b) = true.
Proof.
  unfold digest_hex. destruct (fmt_x_shape (sha256.Sum256 b)) as [Hl Hc].
  rewrite Sum256_length in Hl. now repeat split.
Qed.

(** [getDigest] returns a digest of the grammar, which is no reference. *)
Lemma getDigest_matches_digestRegex (b : string) :
  matches digestRegex (getDigest b) = true.
Proof.
  destruct (getDigest_shape b) as (-> & Hl & Hc).
  apply accepts_lang. unfold digestRegex.
  apply lang_Seq; [apply lang_Lit | now apply lang_Times].
Qed.

Lemma getDigest_not_refRegex (b : string) : matches refRegex (getDigest b) = false.
Proof.
  destruct (matches refRegex (getDigest b)) eqn:H; [|reflexivity].
  apply refRegex_inv in H as (c & t & E & _ & _ & Ha).
  destruct (getDigest_shape b) as (E' & _ & _). rewrite E' in E.
  injection E as _ <-. discriminate.
Qed.

Lemma has_char_app (c : ascii) (s t : string) :
  has_char c (s ++ t) = has_char c s || has_char c t.
Proof. induction s as [|x s IH]; simpl; [reflexivity | now rewrite IH, orb_assoc]. Qed.

Lemma length_app (s t : string) :
  String.length (s ++ t) = String.length s + String.length t.
Proof. induction s as [|x s IH]; simpl; [reflexivity | now rewrite IH]. Qed.

Lemma getDigest_no_slash (b : string) : has_char "/" (getDigest b) = false.
Proof.
  destruct (getDigest_shape b) as (-> & _ & Hc).
  rewrite has_char_app, (class_no_slash lower_hex _ eq_refl Hc). reflexivity.
Qed.

Lemma getDigest_length (b : string) : String.length (getDigest b) = 71.
Proof.
  destruct (getDigest_shape b) as (-> & Hl & _). rewrite length_app, Hl. reflexivity.
Qed.

End digest_facts.

(* ================================================================= *)
(** ** Endpoints as strings *)

Module endpoint_facts.
Import strings strings_facts digest_facts.

Lemma HasPrefix_has_char (c : ascii) :
  forall s p, HasPrefix s p = true -> has_char c p = true -> has_char c s = true.
Proof.
  intros s p. revert s. induction p as [|y p IH]; intros s H Hc; [discriminate|].
  destruct s as [|x s]; [discriminate|]. simpl in *.
  apply andb_true_iff in H as [Hxy Hp]. apply Ascii.eqb_eq in Hxy. subst y.
  apply orb_true_iff in Hc as [Hc|Hc]; [now rewrite Hc|].
  rewrite (IH _ Hp Hc). apply orb_true_r.
Qed.

Lemma Contains_has_char (c : ascii) (p : string) :
  forall s, Contains s p = true -> has_char c p = true -> has_char c s = true.
Proof.
  induction s as [|x s IH]; simpl; intros H Hc.
  - rewrite orb_false_r in H. apply (HasPrefix_has_char c _ _ H Hc).
  - apply orb_true_iff in H as [H|H].
    + apply (HasPrefix_has_char c _ _ H Hc).
    + rewrite (IH H Hc). apply orb_true_r.
Qed.

(** A text without a slash holds no pattern with a slash. *)
Lemma no_slash_no_Contains (s p : string) :
  has_char "/" s = false -> has_char "/" p = true -> Contains s p = false.
Proof.
  intros Hs Hp. destruct (Contains s p) eqn:H; [|reflexivity].
  rewrite (Contains_has_char "/" p s H Hp) in Hs. discriminate.
Qed.

Lemma no_slash_no_HasPrefix (s p : string) :
  has_char "/" s = false -> has_char "/" p = true -> HasPrefix s p = false.
Proof.
  intros Hs Hp. destruct (HasPrefix s p) eqn:H; [|reflexivity].
  rewrite (HasPrefix_has_char "/" s p H Hp) in Hs. discriminate.
Qed.

Lemma Contains_skip (x y : ascii) (s q : string) :
  Ascii.eqb x y = false -> Contains (String x s) (String y q) = Contains s (String y q).
Proof. intros H. cbn [Contains HasPrefix]. now rewrite H. Qed.

Lemma Contains_skip_head (y : ascii) (s q : string) :
  HasPrefix s q = false -> Contains (String y s) (String y q) = Contains s (String y q).
Proof. intros H. cbn [Contains HasPrefix]. now rewrite H, andb_false_r. Qed.

(** After [/manifests/] and a text without a slash, none of the other
    endpoint patterns occurs. *)
Lemma manifests_endpoint_Contains (t : string) (c : ascii) (p : string) :
  has_char "/" t = false -> has_char "/" p = true -> Ascii.eqb "m" c = false ->
  Contains ("/manifests/" ++ t) (String "/" (String c p)) = false.
Proof.
  intros Ht Hp Hc.
  assert (H1 : HasPrefix t (String c p) = false).
  { apply no_slash_no_HasPrefix; [exact Ht|]. simpl. rewrite Hp. apply orb_true_r. }
  assert (H2 : Contains t (String "/" (String c p)) = false).
  { now apply no_slash_no_Contains. }
  cbn [String.append].
  rewrite Contains_skip_head by (cbn [HasPrefix]; now rewrite Hc).
  rewrite !Contains_skip by reflexivity.
  now rewrite Contains_skip_head.
Qed.

Lemma HasPrefix_Contains (s p : string) : HasPrefix s p = true -> Contains s p = true.
Proof. intros H. destruct s; cbn [Contains]; now rewrite H. Qed.

Lemma manifests_endpoint_self (t : string) : Contains ("/manifests/" ++ t) "/manifests/" = true.
Proof. apply HasPrefix_Contains, HasPrefix_app. Qed.

Lemma drop_app_ge (a b : string) :
  forall n, String.length a <= n -> drop n (a ++ b) = drop (n - String.length a) b.
Proof.
  induction a as [|x a IH]; intros n Hn; simpl in *.
  - now rewrite Nat.sub_0_r.
  - destruct n as [|n]; [lia|]. simpl. apply IH. lia.
Qed.

Lemma has_char_drop (c : ascii) (s : string) :
  forall n, has_char c s = false -> has_char c (drop n s) = false.
Proof.
  induction s as [|x s IH]; intros n H.
  - now destruct n.
  - destruct n as [|n]; [exact H|]. simpl in *.
    apply orb_false_iff in H as [_ H]. now apply IH.
Qed.

(** A text whose last bytes have no slash does not end with a pattern
    that has one. *)
Lemma no_slash_no_HasSuffix (a t suf : string) :
  has_char "/" t = false -> has_char "/" suf = true ->
  String.length suf <= String.length t ->
  HasSuffix (a ++ t) suf = false.
Proof.
  intros Ht Hs Hl. unfold HasSuffix.
  destruct (String.eqb_spec (drop (String.length (a ++ t) - String.length suf) (a ++ t)) suf)
    as [E|_]; [|apply andb_false_r].
  rewrite length_app, drop_app_ge in E by lia.
  rewrite <- E, has_char_drop in Hs by exact Ht. discriminate.
Qed.

(** *** Splitting at [/manifests/] *)

Lemma split_from_skip (sep a t : string) :
  split_from sep (String.length a) (a ++ t) = split_from sep 0 t.
Proof. induction a as [|x a IH]; [reflexivity | exact IH]. Qed.

Lemma Split_at_sep (c : ascii) (sep t : string) :
  Split (String c sep ++ t) (String c sep) = "" :: Split t (String c sep).
Proof.
  unfold Split. change (String c sep ++ t) with (String c (sep ++ t)).
  cbn [split_from]. change (String c (sep ++ t)) with (String c sep ++ t).
  rewrite HasPrefix_app. cbn [String.length Nat.sub]. rewrite Nat.sub_0_r.
  now rewrite split_from_skip.
Qed.

Lemma Split_no_slash_sep (sep t : string) :
  has_char "/" t = false -> Split t (String "/" sep) = [t].
Proof.
  induction t as [|x t IH]; [reflexivity|]. simpl. intros H.
  apply orb_false_iff in H as [Hx Ht]. unfold Split in *. cbn [split_from HasPrefix].
  rewrite Hx. cbn [andb]. now rewrite (IH Ht).
Qed.

(** The reference of a manifest PUT. *)
Lemma manifests_endpoint_ref (ref : string) :
  has_char "/" ref = false ->
  last_part (Split ("/manifests/" ++ ref) "/manifests/") = ref.
Proof.
  intros H. rewrite (Split_at_sep "/" "manifests/"), (Split_no_slash_sep _ _ H). reflexivity.
Qed.

(** The last component of a manifest endpoint. *)
Lemma manifests_endpoint_last (t : string) :
  has_char "/" t = false -> last_part (Split ("/manifests/" ++ t) "/") = t.
Proof.
  intros H.
  change ("/manifests/" ++ t) with ("" ++ String "/" ("manifests" ++ String "/" t)).
  now rewrite !Split_app, (Split_no_slash _ H).
Qed.

End endpoint_facts.

(* ================================================================= *)
(** ** Paths: joining one more file name *)

Module path_facts.
Import strings strings_facts digest_facts.

Lemma Join_snoc (sep x : string) :
  forall l, l <> [] -> Join (l ++ [x])%list sep = Join l sep ++ sep ++ x.
Proof.
  induction l as [|a l IH]; intros Hl; [congruence|].
  destruct l as [|b l]; [reflexivity|].
  change (Join ((a :: b :: l) ++ [x])%list sep)
    with (a ++ sep ++ Join ((b :: l) ++ [x])%list sep).
  rewrite IH by discriminate.
  change (Join (a :: b :: l) sep) with (a ++ sep ++ Join (b :: l) sep).
  now rewrite !append_assoc.
Qed.

Lemma file_name_kept (x : string) :
  file_name x -> negb ((x =? "") || (x =? ".") || (x =? "..")) = true.
Proof.
  intros (H1 & H2 & H3 & _).
  apply String.eqb_neq in H1, H2, H3. now rewrite H1, H2, H3.
Qed.

Lemma step_file_name (rooted : bool) (kept : list string) (x : string) :
  file_name x -> path.step rooted kept x = x :: kept.
Proof.
  intros (H1 & H2 & H3 & _). unfold path.step.
  apply String.eqb_neq in H1, H2, H3. now rewrite H1, H2, H3.
Qed.

Lemma resolve_file_name (x : string) : file_name x -> os.resolve x = [x].
Proof.
  intros H. unfold os.resolve. destruct H as (H1 & H2 & H3 & H4).
  rewrite (Split_no_slash _ H4). cbn [filter].
  now rewrite (file_name_kept x (conj H1 (conj H2 (conj H3 H4)))).
Qed.

Lemma resolve_snoc (s x : string) :
  file_name x -> os.resolve (s ++ String "/" x) = (os.resolve s ++ [x])%list.
Proof.
  intros H. unfold os.resolve. rewrite Split_app, filter_app.
  f_equal. exact (resolve_file_name x H).
Qed.

Lemma HasPrefix_app_l (s t : string) (p : ascii) :
  s <> "" -> HasPrefix (s ++ t) (String p "") = HasPrefix s (String p "").
Proof. destruct s; [congruence | reflexivity]. Qed.

Lemma Clean_not_empty (p : string) : path.Clean p <> "".
Proof.
  unfold path.Clean. destruct (p =? ""); [discriminate|].
  match goal with |- (if ?b then _ else _) <> _ => destruct b eqn:E end;
    [discriminate | now apply String.eqb_neq].
Qed.

(** How [path.Clean] treats a path that ends with a file name. *)
Lemma Clean_snoc (J x : string) :
  J <> "" -> file_name x ->
  os.resolve (path.Clean (J ++ String "/" x)) = (os.resolve (path.Clean J) ++ [x])%list.
Proof.
  intros HJ Hx. unfold path.Clean.
  destruct (String.eqb_spec J "") as [|_]; [congruence|].
  destruct (String.eqb_spec (J ++ String "/" x) "") as [E|_];
    [destruct J; discriminate|].
  rewrite (HasPrefix_app_l J (String "/" x) "/"%char HJ).
  set (rooted := HasPrefix J "/").
  unfold path.clean_elems. rewrite Split_app, fold_left_app.
  destruct Hx as (H1 & H2 & H3 & H4).
  rewrite (Split_no_slash _ H4). cbn [fold_left].
  rewrite (step_file_name rooted _ x (conj H1 (conj H2 (conj H3 H4)))).
  cbn [rev].
  set (ce := rev (fold_left (path.step rooted) (Split J "/") [])).
  set (pre := if rooted then "/" else "").
  assert (Hx : file_name x) by (repeat split; assumption).
  assert (Hout : pre ++ Join (ce ++ [x])%list "/"
                 = (if (pre ++ Join ce "/" =? "") then x
                    else if Join ce "/" =? "" then pre ++ Join ce "/" ++ x
                    else (pre ++ Join ce "/") ++ String "/" x)
                 \/ (ce <> [] /\ pre ++ Join (ce ++ [x])%list "/"
                                = (pre ++ Join ce "/") ++ String "/" x)).
  { destruct ce as [|c0 ce'].
    - left. cbn [Join app]. rewrite append_nil_r.
      unfold pre. destruct rooted; reflexivity.
    - right. split; [discriminate|].
      rewrite Join_snoc by discriminate. now rewrite append_assoc. }
  destruct Hout as [Hout|[Hce Hout]].
  - rewrite Hout. clear Hout.
    destruct (String.eqb_spec (pre ++ Join ce "/") "") as [E|NE].
    + destruct (String.eqb_spec x "") as [|_]; [congruence|].
      now rewrite (resolve_file_name x Hx).
    + destruct (String.eqb_spec (Join ce "/") "") as [E'|NE'].
      * rewrite E' in *. rewrite append_nil_r in NE. cbn [String.append].
        unfold pre in *. destruct rooted; [|congruence].
        destruct (String.eqb_spec ("/" ++ x) "") as [|_]; [discriminate|].
        change ("/" ++ x) with ("" ++ String "/" x).
        now rewrite (resolve_snoc "" x Hx).
      * destruct (String.eqb_spec ((pre ++ Join ce "/") ++ String "/" x) "") as [E''|_].
        { apply regexp_facts.append_eq_nil in E'' as [_ E'']. discriminate. }
        now rewrite (resolve_snoc _ x Hx).
  - rewrite Hout.
    destruct (String.eqb_spec ((pre ++ Join ce "/") ++ String "/" x) "") as [E''|_].
    { apply regexp_facts.append_eq_nil in E'' as [_ E'']. discriminate. }
    destruct (String.eqb_spec (pre ++ Join ce "/") "") as [E|NE].
    + rewrite E. now rewrite (resolve_snoc "" x Hx).
    + now rewrite (resolve_snoc _ x Hx).
Qed.

(** One more file name at the end of [path.Join]: one more step of the
    walk. *)
Lemma resolve_Join_snoc (es : list string) (x : string) :
  file_name x ->
  os.resolve (path.Join (es ++ [x])%list) = (os.resolve (path.Join es) ++ [x])%list
  /\ path.Join (es ++ [x])%list <> "".
Proof.
  intros Hx. unfold path.Join. rewrite filter_app. cbn [filter].
  destruct Hx as (H1 & H2 & H3 & H4).
  assert (Hx : file_name x) by (repeat split; assumption).
  destruct (String.eqb_spec x "") as [|_]; [congruence|]. cbn [negb].
  destruct (filter (fun e => negb (e =? "")) es) as [|a ne] eqn:Ene.
  - cbn [app Join]. split; [|apply Clean_not_empty].
    unfold path.Clean. destruct (String.eqb_spec x "") as [|_]; [congruence|].
    assert (Hr : HasPrefix x "/" = false).
    { destruct x as [|c x]; [reflexivity|]. simpl in H4 |- *.
      apply orb_false_iff in H4 as [-> _]. reflexivity. }
    rewrite Hr. unfold path.clean_elems. rewrite (Split_no_slash _ H4). cbn [fold_left].
    rewrite (step_file_name false [] x Hx). cbn [rev app Join String.append].
    destruct (String.eqb_spec x "") as [|_]; [congruence|].
    now rewrite (resolve_file_name x Hx).
  - assert (Ha : a <> "").
    { assert (Hin : In a (filter (fun e => negb (e =? "")) es)) by (rewrite Ene; now left).
      apply filter_In in Hin as [_ Hin]. intros ->. discriminate. }
    assert (HJ : Join (a :: ne) "/" <> "").
    { destruct ne; cbn [Join]; [exact Ha|]. destruct a; [congruence | discriminate]. }
    destruct ((a :: ne) ++ [x])%list as [|b l] eqn:El; [discriminate|].
    rewrite <- El. rewrite Join_snoc by discriminate.
    split; [|apply Clean_not_empty].
    change ("/" ++ x) with (String "/" x).
    now apply Clean_snoc.
Qed.

Lemma Join_not_empty (a b : string) : b <> "" -> path.Join [a; b] <> "".
Proof.
  intros Hb. unfold path.Join. cbn [filter].
  destruct (String.eqb_spec b "") as [|_]; [congruence|].
  destruct (a =? ""); cbn [negb]; apply Clean_not_empty.
Qed.

Lemma file_name_manifest_json : file_name "manifest.json".
Proof. repeat split; discriminate. Qed.

End path_facts.

(* ================================================================= *)
(** ** Writing a request body to a file *)

Module body_facts.
Import strings strings_facts os os_facts.

Lemma take_drop (s : string) : forall n, take n s ++ drop n s = s.
Proof.
  induction s as [|c s IH]; intros [|n]; simpl; try reflexivity. now rewrite IH.
Qed.

Lemma take_all (s : string) : forall n, String.length s <= n -> take n s = s.
Proof.
  induction s as [|c s IH]; intros [|n] H; simpl in *; try reflexivity; try lia.
  rewrite IH by lia. reflexivity.
Qed.

Lemma length_drop (s : string) : forall n, String.length (drop n s) = String.length s - n.
Proof. induction s as [|c s IH]; intros [|n]; simpl; try reflexivity. apply IH. Qed.

(** The loop of [writeBodyToFile] hands every byte of the body to
    [f.Write], in order, and ends. *)
Lemma copy_body_all :
  forall (fuel : nat) (body : list string) (out : string),
    body_fuel body <= fuel ->
    copy_body fuel body out = (out ++ body_bytes body, []).
Proof.
  induction fuel as [|fuel IH]; intros body out H.
  - destruct body; simpl in H; lia.
  - cbn [copy_body]. unfold Body_Read. destruct body as [|seg rest].
    + reflexivity.
    + cbn [body_fuel body_bytes] in *.
      remember 1024 as k eqn:Ek.
      destruct (Nat.leb_spec (String.length seg) k) as [Hle|Hgt].
      * rewrite IH by lia. rewrite (take_all seg k Hle). now rewrite append_assoc.
      * rewrite IH.
        -- cbn [body_bytes]. rewrite !append_assoc. rewrite <- (append_assoc (take k seg)).
           now rewrite take_drop.
        -- cbn [body_fuel]. rewrite length_drop. subst k. lia.
Qed.

Lemma pwrite_empty (out : string) : pwrite "" 0 out = out.
Proof.
  unfold pwrite. cbn [take zeros Nat.sub String.length String.append].
  destruct (0 + String.length out); simpl; apply append_nil_r.
Qed.

Lemma copy_to_file_run (F : string) (p : list string) (ref m : string) (st : state)
      (ents : list (string * node)) :
  (F =? "")%string = false -> resolve F = (p ++ [ref; m])%list ->
  holds_file p ref m (st_fs st) ents "" ->
  exists fs2 ents2,
    copy_to_file F st = (Next tt, mkSt fs2 (st_w st) [] (st_ids st))
    /\ holds_file p ref m fs2 ents2 (body_bytes (st_body st))
    /\ same_listing ref ents ents2.
Proof.
  intros HF Hr (Hw & er & Hf & Hm). unfold copy_to_file.
  rewrite copy_body_all by lia. cbn [String.append].
  destruct (alter_tag_file
              (fun o => match o with
                        | None => Fail ENOENT
                        | Some (File d) => Done (Some (File (pwrite d 0 (body_bytes (st_body st)))))
                        | Some (Dir _) => Fail EISDIR
                        end)
              "write" F p ref m (st_fs st) ents er (body_bytes (st_body st)) HF Hr Hw Hf)
    as (n' & ents' & Ha & Hh & Hs).
  { rewrite Hm. now rewrite pwrite_empty. }
  unfold WriteAt. rewrite Ha. eauto.
Qed.

(** [writeBodyToFile] on a file of an existing directory [ref]: the file
    ends with the bytes of the body, and nothing else changes in the
    directory at [p]. *)
Lemma writeBodyToFile_run (F : string) (p : list string) (ref m : string)
      (st : state) (ents er : list (string * node)) :
  (F =? "")%string = false -> resolve F = (p ++ [ref; m])%list ->
  walk p (st_fs st) = Done (Dir ents) ->
  find_entry ref ents = Some (Dir er) ->
  (forall e, find_entry m er <> Some (Dir e)) ->
  exists fs2 ents2,
    writeBodyToFile F st = (Next tt, mkSt fs2 (st_w st) [] (st_ids st))
    /\ holds_file p ref m fs2 ents2 (body_bytes (st_body st))
    /\ same_listing ref ents ents2.
Proof.
  intros HF Hr Hw Hf Hnd. unfold writeBodyToFile.
  unfold bind at 1, get_fs at 1.
  assert (HS : os.Stat (st_fs st) F
               = match find_entry m er with
                 | Some c => Ok c
                 | None => Err (PathError "stat" F ENOENT)
                 end).
  { unfold os.Stat, lift, at_path. rewrite HF, Hr, walk_app, Hw. cbn [walk].
    rewrite Hf. now destruct (find_entry m er). }
  rewrite HS. clear HS.
  destruct (find_entry m er) as [[d|e]|] eqn:Hm.
  - (* the file exists *)
    destruct (alter_tag_file
                (fun o => match o with
                          | None => Done (Some (File ""))
                          | Some (File d) => Done (Some (File d))
                          | Some (Dir _) => Fail EISDIR
                          end)
                "open" F p ref m (st_fs st) ents er d HF Hr Hw Hf)
      as (n1 & ents1 & Ha1 & (Hw1 & er1 & Hf1 & Hm1) & Hs1); [now rewrite Hm|].
    unfold OpenFile_create. rewrite Ha1.
    unfold bind at 1, put_fs at 1. cbn [st_fs st_w st_body st_ids].
    destruct (alter_tag_file
                (fun o => match o with
                          | None => Fail ENOENT
                          | Some (File _) => Done (Some (File ""))
                          | Some (Dir _) => Fail EISDIR
                          end)
                "truncate" F p ref m n1 ents1 er1 "" HF Hr Hw1 Hf1)
      as (n2 & ents2 & Ha2 & Hh2 & Hs2); [now rewrite Hm1|].
    unfold Truncate0. rewrite Ha2.
    unfold bind at 1, put_fs at 1. cbn [st_fs st_w st_body st_ids].
    destruct (copy_to_file_run F p ref m (mkSt n2 (st_w st) (st_body st) (st_ids st))
                               ents2 HF Hr Hh2) as (fs3 & ents3 & Hc & Hh3 & Hs3).
    cbn [st_fs st_w st_body st_ids] in Hc, Hh3.
    rewrite Hc. exists fs3, ents3. split; [reflexivity|]. split; [exact Hh3|].
    exact (same_listing_trans _ _ _ _ (same_listing_trans _ _ _ _ Hs1 Hs2) Hs3).
  - now destruct (Hnd e).
  - (* the file is made *)
    cbn [is_not_exist PathError is_ENOENT].
    destruct (alter_tag_file
                (fun o => match o with
                          | None => Done (Some (File ""))
                          | Some (File d) => Done (Some (File d))
                          | Some (Dir _) => Fail EISDIR
                          end)
                "open" F p ref m (st_fs st) ents er "" HF Hr Hw Hf)
      as (n1 & ents1 & Ha1 & Hh1 & Hs1); [now rewrite Hm|].
    unfold OpenFile_create. rewrite Ha1.
    unfold bind at 1, put_fs at 1. cbn [st_fs st_w st_body st_ids].
    destruct (copy_to_file_run F p ref m (mkSt n1 (st_w st) (st_body st) (st_ids st))
                               ents1 HF Hr Hh1) as (fs3 & ents3 & Hc & Hh3 & Hs3).
    cbn [st_fs st_w st_body st_ids] in Hc, Hh3.
    rewrite Hc. exists fs3, ents3. split; [reflexivity|]. split; [exact Hh3|].
    exact (same_listing_trans _ _ _ _ Hs1 Hs3).
Qed.

End body_facts.

(* ================================================================= *)
(** ** A manifest PUT and the GET by its digest *)

Section ManifestRoundTrip.

Import strings strings_facts os os_facts digest_facts endpoint_facts path_facts body_facts.

Variable env : environ.
Variables name ref : string.

Hypothesis name_grammar : matches nameRegex name = true.
Hypothesis name_keyword_free : keyword_free (Split name "/").
Hypothesis ref_grammar : matches refRegex ref = true.

Let repo : string := path.Join [rootDir env; name].
Let P : list string := resolve repo.
Let manifest (t : string) : string := path.Join [rootDir env; name; t; "manifest.json"].

Lemma name_not_empty : name <> "".
Proof. intros E. rewrite E in name_grammar. discriminate. Qed.

Lemma repo_not_empty : (repo =? "")%string = false.
Proof. apply String.eqb_neq, Join_not_empty, name_not_empty. Qed.

Lemma resolve_tag_directory (t : string) :
  file_name t ->
  resolve (path.Join [rootDir env; name; t]) = (P ++ [t])%list
  /\ (path.Join [rootDir env; name; t] =? "")%string = false.
Proof.
  intros Ht. destruct (resolve_Join_snoc [rootDir env; name] t Ht) as [H1 H2].
  split; [exact H1 | now apply String.eqb_neq].
Qed.

Lemma resolve_manifest (t : string) :
  file_name t ->
  resolve (manifest t) = (P ++ [t; "manifest.json"])%list
  /\ (manifest t =? "")%string = false.
Proof.
  intros Ht.
  destruct (resolve_Join_snoc [rootDir env; name; t] "manifest.json" file_name_manifest_json)
    as [H1 H2].
  destruct (resolve_tag_directory t Ht) as [H3 _].
  split; [|now apply String.eqb_neq].
  unfold manifest. change [rootDir env; name; t; "manifest.json"]
    with ([rootDir env; name; t] ++ ["manifest.json"])%list.
  rewrite H1, H3, <- app_assoc. reflexivity.
Qed.

Lemma ref_file_name : file_name ref.
Proof. exact (reference_is_file_name ref ref_grammar). Qed.

(** The URI of a manifest of [name] is parsed into [name] and the
    endpoint. *)
Lemma parseName_manifest_uri (x : string) :
  has_char "/" x = false ->
  parseName ("/v2/" ++ name ++ "/manifests/" ++ x) = Ok name.
Proof.
  intros Hx.
  change ("/manifests/" ++ x) with (String "/" ("manifests" ++ String "/" x)).
  apply parseName_before_keyword; [exact name_keyword_free | reflexivity | eauto |].
  rewrite Count_slash, (Count_no_slash _ Hx).
  destruct (Count name "/"); [right; now split | left; lia].
Qed.

Lemma endpoint_manifest_uri (x : string) :
  TrimPrefix ("/v2/" ++ name ++ "/manifests/" ++ x) (Join ["/v2/"; name] "")
  = "/manifests/" ++ x.
Proof.
  change (Join ["/v2/"; name] "") with ("/v2/" ++ name).
  change ("/v2/" ++ name ++ "/manifests/" ++ x) with (("/v2/" ++ name) ++ "/manifests/" ++ x).
  apply TrimPrefix_app.
Qed.

Lemma manifest_uri_not_base (x : string) :
  ("/v2/" ++ name ++ "/manifests/" ++ x =? "/v2/")%string = false.
Proof.
  change ("/v2/" ++ name ++ "/manifests/" ++ x =? "/v2/")%string
    with (name ++ "/manifests/" ++ x =? "")%string.
  apply String.eqb_neq. intros E.
  apply regexp_facts.append_eq_nil in E as [_ E]. discriminate.
Qed.

Lemma Open_holds_file (fs : node) (t : string) (ents : list (string * node)) (d : string) :
  file_name t -> holds_file P t "manifest.json" fs ents d ->
  os.Open fs (manifest t) = Ok (File d).
Proof.
  intros Ht (Hw & er & Hf & Hm). destruct (resolve_manifest t Ht) as [Hr Hne].
  unfold os.Open, lift, at_path. rewrite Hne, Hr, walk_app, Hw. cbn [walk].
  now rewrite Hf, Hm.
Qed.

(** The tag directory after [MkdirAll]. *)
Lemma MkdirAll_tag_directory (fs fs1 : node) :
  os.MkdirAll fs (path.Join [rootDir env; name; ref]) = Ok fs1 ->
  (forall e, os.Open fs (manifest ref) <> Ok (Dir e)) ->
  exists er,
    walk P fs1 = Done (Dir (set_entry ref (Dir er) (dir_entries P fs)))
    /\ (forall e, find_entry "manifest.json" er <> Some (Dir e)).
Proof.
  intros Hmk Hnd. destruct (resolve_tag_directory ref ref_file_name) as [Hr Hne].
  unfold os.MkdirAll, lift, at_path in Hmk. rewrite Hne, Hr in Hmk.
  destruct (mkdir_all (P ++ [ref]) fs) as [n'|] eqn:Hm; [|discriminate].
  injection Hmk as ->. apply mkdir_all_parent in Hm as (er & Hw & Hf).
  exists er. split; [exact Hw|]. intros e He.
  destruct (find_entry ref (dir_entries P fs)) as [c|] eqn:Hc.
  - subst c. apply (Hnd e). destruct (resolve_manifest ref ref_file_name) as [Hr' Hne'].
    unfold os.Open, lift, at_path. rewrite Hne', Hr', walk_app.
    unfold dir_entries in Hc. destruct (walk P fs) as [[d|ents0]|]; try discriminate.
    cbn [walk]. now rewrite Hc, He.
  - subst er. discriminate.
Qed.

(** end-7 on a tag directory that can be made. *)
Lemma end_7_run (r : Request) (st : state) (fs1 : node) :
  Method r = "PUT" ->
  os.MkdirAll (st_fs st) (path.Join [rootDir env; name; ref]) = Ok fs1 ->
  (forall e, os.Open (st_fs st) (manifest ref) <> Ok (Dir e)) ->
  exists fs2 ents2 er,
    end_7 env r name ("/manifests/" ++ ref) st
    = (Next tt,
       mkSt fs2
            (WriteHeader 201
               (Header_Set "Location"
                           ("/v2/" ++ name ++ "/manifests/"
                            ++ getDigest (body_bytes (st_body st)))
                           (st_w st)))
            [] (st_ids st))
    /\ holds_file P ref "manifest.json" fs2 ents2 (body_bytes (st_body st))
    /\ same_listing ref (set_entry ref (Dir er) (dir_entries P (st_fs st))) ents2.
Proof.
  intros HM Hmk Hnd.
  destruct (MkdirAll_tag_directory _ _ Hmk Hnd) as (er & Hw1 & Hnd1).
  destruct ref_file_name as (R1 & R2 & R3 & R4).
  destruct (resolve_manifest ref ref_file_name) as [Hr Hne].
  destruct (writeBodyToFile_run (manifest ref) P ref "manifest.json"
              (mkSt fs1 (st_w st) (st_body st) (st_ids st))
              (set_entry ref (Dir er) (dir_entries P (st_fs st))) er
              Hne Hr Hw1 (find_entry_set_entry_same _ _ _) Hnd1)
    as (fs2 & ents2 & Hrun & Hh & Hs).
  cbn [st_fs st_w st_body st_ids] in Hrun, Hh.
  exists fs2, ents2, er. split; [|now split].
  unfold end_7. rewrite HM, manifests_endpoint_self, (manifests_endpoint_ref ref R4).
  cbn [String.eqb Ascii.eqb Bool.eqb andb when].
  unfold bind at 1, get_fs at 1. rewrite Hmk.
  unfold bind at 1, put_fs at 1. cbn [st_fs st_w st_body st_ids].
  unfold bind at 1. fold (manifest ref). rewrite Hrun.
  unfold bind at 1, get_fs at 1. cbn [st_fs st_w st_body st_ids].
  rewrite (Open_holds_file fs2 ref ents2 _ ref_file_name Hh). cbn [read_node].
  reflexivity.
Qed.

(** The scan of [findManifest] stops at a manifest with the bytes [M]
    when the tag directories before it are readable and free of
    collisions with [M]. *)
Lemma findManifest_loop_finds (fs2 : node) (M : string) :
  forall files : list DirEntry,
    (forall de, In de files -> Name de <> "_blobs" -> IsDir de = true ->
                exists M', os.Open fs2 (manifest (Name de)) = Ok (File M')
                           /\ (getDigest M' = getDigest M -> M' = M)) ->
    (exists de, In de files /\ Name de <> "_blobs" /\ IsDir de = true
                /\ os.Open fs2 (manifest (Name de)) = Ok (File M)) ->
    exists p, findManifest_loop env fs2 name (getDigest M) files = Ok p
              /\ os.Open fs2 p = Ok (File M).
Proof.
  induction files as [|a files IH]; intros Hall (de & Hin & Hnb & Hd & HO).
  - destruct Hin.
  - assert (Hall' : forall de, In de files -> Name de <> "_blobs" -> IsDir de = true ->
                      exists M', os.Open fs2 (manifest (Name de)) = Ok (File M')
                                 /\ (getDigest M' = getDigest M -> M' = M)).
    { intros de' Hin'. apply Hall. now right. }
    cbn [findManifest_loop].
    destruct (String.eqb_spec (Name a) "_blobs") as [Ea|Na].
    { apply IH; [exact Hall'|]. exists de. repeat split; trivial.
      destruct Hin as [->|Hin]; [congruence | exact Hin]. }
    destruct (IsDir a) eqn:Da.
    + destruct (Hall a (or_introl eq_refl) Na Da) as (M' & HOa & Hcol).
      fold (manifest (Name a)). rewrite HOa. cbn [read_node].
      destruct (String.eqb_spec (getDigest M') (getDigest M)) as [E|NE].
      * exists (manifest (Name a)). split; [reflexivity|]. now rewrite HOa, (Hcol E).
      * apply IH; [exact Hall'|]. exists de. repeat split; trivial.
        destruct Hin as [->|Hin]; [|exact Hin]. congruence.
    + apply IH; [exact Hall'|]. exists de. repeat split; trivial.
      destruct Hin as [->|Hin]; [congruence | exact Hin].
Qed.

Hypothesis ref_not_blobs : ref <> "_blobs".

(** [findManifest] after the PUT. *)
Lemma findManifest_finds (fs fs2 : node) (ents2 er : list (string * node)) (M : string) :
  holds_file P ref "manifest.json" fs2 ents2 M ->
  same_listing ref (set_entry ref (Dir er) (dir_entries P fs)) ents2 ->
  other_tags_readable env fs name ref M ->
  exists p, findManifest env fs2 name (getDigest M) = Ok p /\ os.Open fs2 p = Ok (File M).
Proof.
  intros Hh [Hmap Hother] Hread.
  pose proof Hh as (Hw2 & er2 & Hf2 & Hm2).
  unfold findManifest. fold repo. unfold ReadDir, at_path. rewrite repo_not_empty.
  fold P. rewrite Hw2.
  apply findManifest_loop_finds.
  - intros de Hin Hnb Hd. apply In_sort_by in Hin. rewrite Hmap in Hin.
    apply in_map_iff in Hin as ([t n] & <- & Hin). cbn [entry_of Name IsDir fst snd] in *.
    destruct (String.eqb_spec t ref) as [->|Ht].
    { exists M. split; [|trivial]. exact (Open_holds_file fs2 ref ents2 M ref_file_name Hh). }
    apply In_set_entry_other in Hin; [|exact Ht].
    unfold dir_entries in Hin. destruct (walk P fs) as [[d|ents0]|] eqn:Hw0; try destruct Hin.
    assert (HR : os.ReadDir fs (path.Join [rootDir env; name])
                 = Ok (sort_by Name (map entry_of ents0))).
    { fold repo. unfold ReadDir, at_path. rewrite repo_not_empty. fold P. now rewrite Hw0. }
    destruct (Hread _ (entry_of (t, n)) HR) as (Hfn & M' & HrF & Hcol); trivial.
    { apply In_sort_by, in_map. exact Hin. }
    cbn [entry_of Name fst] in Hfn, HrF. exists M'. split; [|exact Hcol].
    destruct (resolve_manifest t Hfn) as [Hr Hne].
    unfold readFile in HrF. fold (manifest t) in HrF.
    assert (HO : os.Open fs2 (manifest t) = os.Open fs (manifest t)).
    { unfold os.Open, lift, at_path. rewrite Hne, Hr, !walk_app, Hw2, Hw0. cbn [walk].
      rewrite (Hother t Ht), (find_entry_set_entry_other t ref _ _ Ht).
      unfold dir_entries. rewrite Hw0. reflexivity. }
    rewrite HO. destruct (os.Open fs (manifest t)) as [[d|e]|]; try discriminate.
    cbn [read_node] in HrF. now injection HrF as ->.
  - exists (entry_of (ref, Dir er2)). cbn [entry_of Name IsDir fst snd]. repeat split; trivial.
    + apply In_sort_by, in_map. now apply find_entry_In.
    + exact (Open_holds_file fs2 ref ents2 M ref_file_name Hh).
Qed.

(** end-3 on a digest that [findManifest] resolves, when nothing has been
    written to the response yet. *)
Lemma end_3_run (r : Request) (st : state) (M p : string) :
  Method r = "GET" ->
  wroteHeader (st_w st) = false ->
  findManifest env (st_fs st) name (getDigest M) = Ok p ->
  os.Open (st_fs st) p = Ok (File M) ->
  end_3 env r name ("/manifests/" ++ getDigest M) st
  = (Next tt,
     mkSt (st_fs st)
          (WriteHeader 200 (if (M =? "")%string then st_w st else fst (Write M (st_w st))))
          (st_body st) (st_ids st)).
Proof.
  intros HM Hfresh Hfind HO. unfold end_3, is_GET_or_HEAD.
  rewrite HM, manifests_endpoint_self,
    (manifests_endpoint_last _ (getDigest_no_slash M)),
    getDigest_not_refRegex, getDigest_matches_digestRegex.
  cbn [String.eqb Ascii.eqb Bool.eqb andb orb negb when].
  unfold bind at 1, get_fs at 1. rewrite Hfind.
  destruct (Open_inv _ _ _ HO) as [Hne _]. rewrite Hne.
  unfold bind at 1, ret at 1. unfold fileExists, readFile. rewrite HO. cbn [read_node].
  unfold Buffer_WriteTo.
  destruct (M =? "")%string eqn:HMe; [reflexivity|].
  unfold bind, w_Write, w_WriteHeader, on_w, ret.
  assert (HW : snd (Write M (st_w st)) = None).
  { unfold Write, WriteHeader. rewrite HMe, Hfresh. cbn [status bodyAllowedForStatus].
    cbn. now destruct (head_request (st_w st)). }
  destruct (Write M (st_w st)) as [w' e]. cbn [snd] in HW. subst e. reflexivity.
Qed.

End ManifestRoundTrip.

(* ================================================================= *)
(** ** The dispatcher on a manifest endpoint *)

Lemma bind_ret {B : Type} (k : unit -> M B) (s : state) : bind (ret tt) k s = k tt s.
Proof. reflexivity. Qed.

(** A PUT on [/manifests/ref] is answered by end-7 alone. *)
Lemma PUT_manifest_endpoints (env : environ) (r : Request) (name ref : string)
      (st st' : state) :
  Method r = "PUT" -> has_char "/" ref = false ->
  end_7 env r name ("/manifests/" ++ ref) st = (Next tt, st') ->
  endpoints env r name ("/manifests/" ++ ref) st = (Next tt, st').
Proof.
  intros HM Hr H7.
  unfold endpoints, end_2, end_3, end_4a, end_4b, end_5, end_6, is_GET_or_HEAD.
  rewrite !HM.
  rewrite (endpoint_facts.manifests_endpoint_Contains ref "b" "lobs/uploads/" Hr eq_refl eq_refl).
  cbn [String.eqb Ascii.eqb Bool.eqb andb orb when].
  repeat (rewrite bind_ret; cbv beta).
  rewrite (bind_Next _ _ _ _ _ H7).
  unfold end_8a, end_8b, end_9, end_10, end_11, end_12a, end_12b, end_13.
  rewrite !HM. reflexivity.
Qed.

(** A GET on [/manifests/digest] is answered by end-3 alone. *)
Lemma GET_manifest_endpoints (env : environ) (r : Request) (name : string) (M : string)
      (st st' : state) :
  Method r = "GET" ->
  end_3 env r name ("/manifests/" ++ getDigest M) st = (Next tt, st') ->
  endpoints env r name ("/manifests/" ++ getDigest M) st = (Next tt, st').
Proof.
  intros HM H3.
  pose proof (digest_facts.getDigest_no_slash M) as Hd.
  unfold endpoints, end_2, is_GET_or_HEAD.
  rewrite !HM.
  rewrite (endpoint_facts.manifests_endpoint_Contains _ "b" "lobs/sha256:" Hd eq_refl eq_refl).
  cbn [String.eqb Ascii.eqb Bool.eqb andb orb when].
  rewrite bind_ret; cbv beta.
  rewrite (bind_Next _ _ _ _ _ H3).
  unfold end_4a, end_4b, end_5, end_6, end_7, end_8a, end_8b, end_9, end_10, end_11,
    end_12a, end_12b, end_13.
  rewrite !HM.
  rewrite (endpoint_facts.manifests_endpoint_Contains _ "b" "lobs/uploads/" Hd eq_refl eq_refl).
  rewrite (endpoint_facts.manifests_endpoint_Contains _ "r" "eferrers/" Hd eq_refl eq_refl).
  rewrite (endpoint_facts.no_slash_no_HasSuffix "/manifests/" (getDigest M) "/tags/list"
             Hd eq_refl)
    by (rewrite digest_facts.getDigest_length; cbn; lia).
  reflexivity.
Qed.

(** C8, as the program has it: for a name without keyword component and a
    reference other than [_blobs], when the tag directory can be made and
    holds no directory [manifest.json], a PUT of the manifest [M] is
    answered 201 with the location of the digest of [M]; and if the other
    tag directories of the repository hold readable manifests that do not
    collide with [M], the GET of that digest then returns the bytes of
    [M]. *)
Theorem manifest_put_then_get_by_digest :
  forall (env : environ) (fs fs1 : os.node) (ids ids' : nat) (put get : Request)
         (name ref M : string),
    matches nameRegex name = true ->
    keyword_free (strings.Split name "/") ->
    matches refRegex ref = true ->
    ref <> "_blobs" ->
    Method put = "PUT" ->
    RequestURI put = "/v2/" ++ name ++ "/manifests/" ++ ref ->
    body_bytes (Body put) = M ->
    Method get = "GET" ->
    RequestURI get = "/v2/" ++ name ++ "/manifests/" ++ getDigest M ->
    os.MkdirAll fs (path.Join [rootDir env; name; ref]) = Ok fs1 ->
    (forall e, os.Open fs (path.Join [rootDir env; name; ref; "manifest.json"])
               <> Ok (os.Dir e)) ->
    exists fs2 : os.node,
      serve env fs ids put
      = (Response 201 [("Location", "/v2/" ++ name ++ "/manifests/" ++ getDigest M)] "",
         fs2, ids)
      /\ (other_tags_readable env fs name ref M ->
          serve env fs2 ids' get = (Response 200 [] M, fs2, ids')).
Proof.
  intros env fs fs1 ids ids' put get name ref M Hname Hkw Href Hnb HMp HUp HB HMg HUg
         Hmk Hnd.
  pose proof (ref_file_name ref Href) as (_ & _ & _ & Hrs).
  destruct (end_7_run env name ref Href put
                      (mkSt fs (new_ResponseWriter put) (Body put) ids) fs1 HMp Hmk Hnd)
    as (fs2 & ents2 & er & H7 & Hh & Hs).
  cbn [st_fs st_w st_body st_ids] in H7, Hh, Hs. rewrite HB in H7, Hh.
  exists fs2. split.
  - unfold serve, handler. rewrite HMp, HUp.
    cbn [String.eqb Ascii.eqb Bool.eqb andb].
    rewrite (parseName_manifest_uri name Hkw ref Hrs), Hname. cbn [negb].
    rewrite endpoint_manifest_uri.
    rewrite (PUT_manifest_endpoints env put name ref _ _ HMp Hrs H7).
    unfold new_ResponseWriter. rewrite HMp. reflexivity.
  - intros Hread.
    destruct (findManifest_finds env name ref Hname Href Hnb fs fs2 ents2 er M Hh Hs Hread)
      as (p & Hfind & HO).
    pose proof (end_3_run env name get (mkSt fs2 (new_ResponseWriter get) (Body get) ids')
                          M p HMg eq_refl Hfind HO) as H3.
    cbn [st_fs st_w st_body st_ids] in H3.
    unfold serve, handler. rewrite HMg, HUg.
    rewrite (manifest_uri_not_base name).
    cbn [String.eqb Ascii.eqb Bool.eqb andb].
    rewrite (parseName_manifest_uri name Hkw _ (digest_facts.getDigest_no_slash M)), Hname.
    cbn [negb]. rewrite endpoint_manifest_uri.
    rewrite (GET_manifest_endpoints env get name M _ _ HMg H3).
    unfold new_ResponseWriter. rewrite HMg.
    destruct (M =? "") eqn:HMe.
    + apply String.eqb_eq in HMe. rewrite HMe. reflexivity.
    + unfold Write, WriteHeader, finish. cbn. rewrite HMe. reflexivity.
Qed.

Lemma manifest_put_then_get_by_digest_witness :
  exists fs2 : os.node,
    serve sample_env (repository [tag "v0" "[]"]) 0
          (request "PUT" "/v2/lib/app/manifests/v1" [] ["{}"])
    = (Response 201 [("Location", "/v2/lib/app/manifests/" ++ getDigest "{}")] "", fs2, 0)
    /\ serve sample_env fs2 0
             (request "GET" ("/v2/lib/app/manifests/" ++ digest_braces) [] [])
       = (Response 200 [] "{}", fs2, 0).
Proof.
  destruct (manifest_put_then_get_by_digest
              sample_env (repository [tag "v0" "[]"])
              (repository [tag "v0" "[]"; ("v1", os.Dir [])]) 0 0
              (request "PUT" "/v2/lib/app/manifests/v1" [] ["{}"])
              (request "GET" ("/v2/lib/app/manifests/" ++ digest_braces) [] [])
              "lib/app" "v1" "{}") as (fs2 & Hput & Hget).
  - vm_compute. reflexivity.
  - repeat constructor.
  - vm_compute. reflexivity.
  - discriminate.
  - reflexivity.
  - reflexivity.
  - reflexivity.
  - reflexivity.
  - vm_compute. reflexivity.
  - vm_compute. reflexivity.
  - intros e. vm_compute. discriminate.
  - exists fs2. split; [exact Hput|]. apply Hget.
    intros files de HR Hin Hb Hr Hd. vm_compute in HR. injection HR as <-.
    destruct Hin as [<-|[]]; cbn [os.Name] in *.
    split; [repeat split; discriminate|].
    exists "[]". split; [vm_compute; reflexivity|].
    vm_compute. discriminate.
Defined.

(** C8 as stated fails: the reference [_blobs] is stored and then not
    found by its digest, and a directory of another repository below the
    repository makes the scan fail. *)
Lemma manifest_put_then_get_by_digest_counterexample :
  matches refRegex "_blobs" = true
  /\ serve_all sample_env empty_storage 0
       [ request "PUT" "/v2/lib/app/manifests/_blobs" [] ["{}"];
         request "GET" ("/v2/lib/app/manifests/" ++ digest_braces) [] [] ]
     = ([ Response 201 [("Location", "/v2/lib/app/manifests/" ++ digest_braces)] "";
          Response 404 error_headers
                   (json_Marshal_ErrorResponse sample_env "MANIFEST_UNKNOWN"
                                               "manifest unknown to registry" ++ nl) ],
        repository [("_blobs", os.Dir [("manifest.json", os.File "{}")])])
  /\ fst (serve_all sample_env empty_storage 0
            [ request "PUT" "/v2/lib/app/manifests/v1" [] ["{}"];
              request "PUT" "/v2/lib/manifests/v2" [] ["{}"];
              request "GET" ("/v2/lib/manifests/" ++ digest_braces) [] [] ])
     = [ Response 201 [("Location", "/v2/lib/app/manifests/" ++ digest_braces)] "";
         Response 201 [("Location", "/v2/lib/manifests/" ++ digest_braces)] "";
         Response 404 [] "" ].
Proof. repeat split; vm_compute; reflexivity. Qed.

(* ================================================================= *)
(** ** The dispatcher: from the URI to the matchers *)

Module route_facts.
Import strings strings_facts digest_facts endpoint_facts.

(** With a name that parses and matches the grammar, the handler is the
    chain of matchers on the rest of the URI. *)
Lemma handler_named (env : environ) (r : Request) (name : string) (st : state) :
  parseName (RequestURI r) = Ok name ->
  matches nameRegex name = true ->
  handler env r st
  = endpoints env r name (TrimPrefix (RequestURI r) ("/v2/" ++ name)) st.
Proof.
  intros Hp Hm. unfold handler.
  destruct ((Method r =? "GET") && (RequestURI r =? "/v2/")) eqn:Hbase.
  - apply andb_true_iff in Hbase as [_ Hu]. apply String.eqb_eq in Hu.
    rewrite Hu in Hp. destruct parseName_base as [e He]. congruence.
  - rewrite Hp, Hm. reflexivity.
Qed.

(** The URI of an endpoint of [name] that goes on after the keyword. *)
Lemma parseName_endpoint (name K T : string) :
  keyword_free (Split name "/") ->
  is_endpoint_keyword K = true ->
  parseName ("/v2/" ++ name ++ String "/" (K ++ String "/" T)) = Ok name.
Proof.
  intros Hkw HK.
  apply parseName_before_keyword; [exact Hkw | exact HK | eauto |].
  rewrite Count_slash. destruct (Count name "/"); [|left; lia].
  destruct (Count T "/"); [right; now split | left; lia].
Qed.

Lemma handler_endpoint (env : environ) (r : Request) (name K T : string) (st : state) :
  matches nameRegex name = true ->
  keyword_free (Split name "/") ->
  is_endpoint_keyword K = true ->
  RequestURI r = "/v2/" ++ name ++ String "/" (K ++ String "/" T) ->
  handler env r st = endpoints env r name (String "/" (K ++ String "/" T)) st.
Proof.
  intros Hm Hkw HK HU.
  rewrite (handler_named env r name st); [| rewrite HU; now apply parseName_endpoint | exact Hm].
  rewrite HU.
  change ("/v2/" ++ name ++ String "/" (K ++ String "/" T))
    with (("/v2/" ++ name) ++ String "/" (K ++ String "/" T)).
  now rewrite TrimPrefix_app.
Qed.

(** The last component of an endpoint. *)
Lemma last_part_Split (a t : string) :
  has_char "/" t = false -> last_part (Split (a ++ String "/" t) "/") = t.
Proof.
  intros H. rewrite Split_app, (Split_no_slash _ H). unfold last_part. apply last_last.
Qed.

(** A pattern that begins with a slash is not met inside a text without
    one. *)
Lemma Contains_app_no_slash (k s q : string) :
  has_char "/" k = false ->
  Contains (k ++ s) (String "/" q) = Contains s (String "/" q).
Proof.
  induction k as [|x k IH]; [reflexivity|]. simpl has_char. intros H.
  apply orb_false_iff in H as [Hx Hk].
  change (String x k ++ s) with (String x (k ++ s)).
  rewrite Contains_skip by exact Hx. now apply IH.
Qed.

Lemma Contains_slash (s q : string) :
  Contains (String "/" s) (String "/" q) = HasPrefix s q || Contains s (String "/" q).
Proof. reflexivity. Qed.

(** A text that ends with [suffix] is some text followed by it. *)
Lemma HasSuffix_inv (s suf : string) :
  HasSuffix s suf = true -> exists a, s = a ++ suf.
Proof.
  unfold HasSuffix. intros H. apply andb_true_iff in H as [_ H].
  apply String.eqb_eq in H.
  set (n := String.length s - String.length suf) in *.
  exists (take n s). rewrite <- H. symmetry. apply body_facts.take_drop.
Qed.

(** The components of a text that ends with a slash and [suf]. *)
Lemma HasSuffix_components (s suf : string) :
  HasSuffix s (String "/" suf) = true ->
  exists l, Split s "/" = (l ++ Split suf "/")%list.
Proof.
  intros H. apply HasSuffix_inv in H as [a ->]. exists (Split a "/"). apply Split_app.
Qed.

(** The tags listing is asked for by its two last components. *)
Lemma HasSuffix_tags_list (a k t : string) :
  has_char "/" k = false -> has_char "/" t = false ->
  HasSuffix (a ++ String "/" (k ++ String "/" t)) "/tags/list" = true ->
  k = "tags" /\ t = "list".
Proof.
  intros Hk Ht H. apply HasSuffix_components in H as [l H].
  rewrite !Split_app, (Split_no_slash _ Hk), (Split_no_slash _ Ht) in H.
  change (Split "tags/list" "/") with ["tags"; "list"] in H.
  apply (f_equal (@rev string)) in H. rewrite !rev_app_distr in H. simpl in H.
  now injection H as -> ->.
Qed.

(** An upload is opened at the endpoint that ends with [/blobs/uploads/]. *)
Lemma HasSuffix_uploads (t : string) :
  has_char "/" t = false ->
  HasSuffix ("/blobs/uploads/" ++ t) "/blobs/uploads/" = true -> t = "".
Proof.
  intros Ht H. apply HasSuffix_components in H as [l H].
  change ("/blobs/uploads/" ++ t)
    with ("" ++ String "/" ("blobs" ++ String "/" ("uploads" ++ String "/" t))) in H.
  rewrite !Split_app, (Split_no_slash _ Ht) in H.
  change (Split "blobs/uploads/" "/") with ["blobs"; "uploads"; ""] in H.
  apply (f_equal (@rev string)) in H. rewrite !rev_app_distr in H. simpl in H.
  now injection H as ->.
Qed.

(** The shape of a digest. *)
Lemma digestRegex_inv (s : string) :
  matches digestRegex s = true ->
  exists h, s = "sha256:" ++ h /\ String.length h = 64 /\ all_chars lower_hex h = true.
Proof.
  intros H. apply regexp_facts.accepts_lang in H. unfold digestRegex in H.
  apply regexp_facts.lang_Seq_inv in H as (s1 & s2 & -> & H1 & H2).
  apply lang_Times_inv in H2 as [Hl Ha]. exists s2. repeat split; trivial.
  f_equal. clear -H1.
  change (Lit "sha256:") with
    (Seq (Class (Ascii.eqb "s")) (Seq (Class (Ascii.eqb "h")) (Seq (Class (Ascii.eqb "a"))
      (Seq (Class (Ascii.eqb "2")) (Seq (Class (Ascii.eqb "5")) (Seq (Class (Ascii.eqb "6"))
        (Seq (Class (Ascii.eqb ":")) Eps))))))) in H1.
  repeat (apply regexp_facts.lang_Seq_inv in H1 as (? & ? & -> & Hc & H1);
          apply regexp_facts.lang_Class_inv in Hc as (? & -> & Hc);
          apply Ascii.eqb_eq in Hc; subst).
  apply regexp_facts.lang_Eps_inv in H1. now subst.
Qed.

Lemma digest_no_slash (s : string) : matches digestRegex s = true -> has_char "/" s = false.
Proof.
  intros H. apply digestRegex_inv in H as (h & -> & _ & Ha).
  rewrite has_char_app, (class_no_slash lower_hex _ eq_refl Ha). reflexivity.
Qed.

Lemma digest_file_name (s : string) : matches digestRegex s = true -> file_name s.
Proof.
  intros H. pose proof (digest_no_slash s H) as Hs.
  apply digestRegex_inv in H as (h & -> & _ & _). repeat split; trivial; discriminate.
Qed.

(** *** The endpoint [/blobs/t] *)

Lemma blobs_endpoint_Contains (t : string) (c : ascii) (p : string) :
  has_char "/" t = false -> has_char "/" p = true -> Ascii.eqb "b" c = false ->
  Contains ("/blobs/" ++ t) (String "/" (String c p)) = false.
Proof.
  intros Ht Hp Hc.
  assert (H1 : HasPrefix t (String c p) = false).
  { apply no_slash_no_HasPrefix; [exact Ht|]. simpl. rewrite Hp. apply orb_true_r. }
  assert (H2 : Contains t (String "/" (String c p)) = false).
  { now apply no_slash_no_Contains. }
  cbn [String.append].
  rewrite Contains_skip_head by (cbn [HasPrefix]; now rewrite Hc).
  rewrite !Contains_skip by reflexivity.
  now rewrite Contains_skip_head.
Qed.

Lemma blobs_endpoint_uploads (t : string) :
  has_char "/" t = false -> Contains ("/blobs/" ++ t) "/blobs/uploads/" = false.
Proof.
  intros Ht.
  assert (H0 : HasPrefix t "uploads/" = false) by (now apply no_slash_no_HasPrefix).
  assert (H1 : HasPrefix t "blobs/uploads/" = false) by (now apply no_slash_no_HasPrefix).
  assert (H2 : Contains t "/blobs/uploads/" = false) by (now apply no_slash_no_Contains).
  cbn [String.append].
  rewrite Contains_skip_head
    by (cbn [HasPrefix Ascii.eqb Bool.eqb andb]; exact H0).
  rewrite !Contains_skip by reflexivity.
  now rewrite Contains_skip_head.
Qed.

Lemma blobs_endpoint_self (t : string) : Contains ("/blobs/" ++ t) "/blobs/" = true.
Proof. apply HasPrefix_Contains, HasPrefix_app. Qed.

Lemma blobs_endpoint_tags (t : string) :
  has_char "/" t = false -> HasSuffix ("/blobs/" ++ t) "/tags/list" = false.
Proof.
  intros Ht. destruct (HasSuffix ("/blobs/" ++ t) "/tags/list") eqn:H; [|reflexivity].
  apply (HasSuffix_tags_list "" "blobs" t eq_refl Ht) in H as [H _]. discriminate.
Qed.

Lemma blobs_endpoint_sha256 (t : string) :
  has_char "/" t = false ->
  Contains ("/blobs/" ++ t) "/blobs/sha256:" = HasPrefix t "sha256:".
Proof.
  intros Ht.
  assert (H1 : HasPrefix t "blobs/sha256:" = false) by (now apply no_slash_no_HasPrefix).
  assert (H2 : Contains t "/blobs/sha256:" = false) by (now apply no_slash_no_Contains).
  cbn [String.append]. rewrite Contains_slash.
  rewrite !Contains_skip by reflexivity.
  rewrite Contains_slash, H1, H2.
  cbn [HasPrefix Ascii.eqb Bool.eqb andb]. now rewrite !orb_false_r.
Qed.

End route_facts.

(* ================================================================= *)
(** ** Files of a repository *)

Module storage_facts.
Import strings strings_facts os os_facts digest_facts path_facts.

(** The walk to a file [b] of the directory [a] of a repository. *)
Lemma resolve_in_directory (env : environ) (name a b : string) :
  file_name a -> file_name b ->
  resolve (path.Join [rootDir env; name; a; b])
  = (resolve (path.Join [rootDir env; name]) ++ [a; b])%list
  /\ (path.Join [rootDir env; name; a; b] =? "") = false.
Proof.
  intros Ha Hb.
  destruct (resolve_Join_snoc [rootDir env; name; a] b Hb) as [H1 H2].
  destruct (resolve_Join_snoc [rootDir env; name] a Ha) as [H3 _].
  split; [|now apply String.eqb_neq].
  change [rootDir env; name; a; b] with ([rootDir env; name; a] ++ [b])%list.
  rewrite H1. change [rootDir env; name; a] with ([rootDir env; name] ++ [a])%list.
  rewrite H3, <- app_assoc. reflexivity.
Qed.

Lemma resolve_directory (env : environ) (name a : string) :
  file_name a ->
  resolve (path.Join [rootDir env; name; a])
  = (resolve (path.Join [rootDir env; name]) ++ [a])%list
  /\ (path.Join [rootDir env; name; a] =? "") = false.
Proof.
  intros Ha. destruct (resolve_Join_snoc [rootDir env; name] a Ha) as [H1 H2].
  split; [exact H1 | now apply String.eqb_neq].
Qed.

Lemma file_name_blobs : file_name "_blobs".
Proof. repeat split; discriminate. Qed.

Lemma Open_walk (fs : node) (p : string) :
  (p =? "") = false -> os.Open fs p = lift "open" p (walk (resolve p) fs).
Proof. intros H. unfold os.Open, at_path. now rewrite H. Qed.

Lemma readFile_Open (fs : node) (p d : string) :
  readFile fs p = Ok d -> os.Open fs p = Ok (File d).
Proof.
  unfold readFile. destruct (os.Open fs p) as [[x|e]|]; try discriminate.
  now intros [= ->].
Qed.

End storage_facts.

(* ================================================================= *)
(** ** What the client receives *)

Module reply_facts.
Import strings strings_facts route_facts.

(** The reply to a request on an endpoint of [name], from the run of the
    matchers. *)
Lemma serve_endpoint (env : environ) (fs : os.node) (ids : nat) (r : Request)
      (name K T : string) (fl : flow unit) (st' : state) :
  matches nameRegex name = true ->
  keyword_free (Split name "/") ->
  is_endpoint_keyword K = true ->
  RequestURI r = "/v2/" ++ name ++ String "/" (K ++ String "/" T) ->
  endpoints env r name (String "/" (K ++ String "/" T))
            (mkSt fs (new_ResponseWriter r) (Body r) ids) = (fl, st') ->
  (forall v, fl <> Panicked v) ->
  serve env fs ids r
  = (Response (status (finish (st_w st'))) (sent_header (finish (st_w st')))
              (written (finish (st_w st'))),
     st_fs st', st_ids st').
Proof.
  intros Hm Hkw HK HU He Hfl. unfold serve.
  rewrite (handler_endpoint env r name K T _ Hm Hkw HK HU), He.
  destruct fl as [[]| |v]; try reflexivity. now destruct (Hfl v).
Qed.

(** A first write of bytes reports no error. *)
Lemma Write_no_error (d : string) (w : ResponseWriter) :
  wroteHeader w = false -> snd (Write d w) = None.
Proof.
  intros Hw. unfold Write, WriteHeader. rewrite Hw.
  destruct (d =? ""); [reflexivity|]. cbn. now destruct (head_request w).
Qed.

(** [http.Error] when nothing has been written. *)
Lemma http_Error_run (msg : string) (code : Z) (st : state) :
  http_Error msg code st
  = (Next tt,
     mkSt (st_fs st)
          (fst (Write (msg ++ nl)
                      (WriteHeader code
                         (Header_Set "X-Content-Type-Options" "nosniff"
                            (Header_Set "Content-Type" "text/plain; charset=utf-8"
                                        (st_w st))))))
          (st_body st) (st_ids st)).
Proof.
  unfold http_Error, bind, w_Header_Set, w_WriteHeader, w_Write, on_w, ret.
  cbn [st_fs st_w st_body st_ids].
  destruct (Write _ _). reflexivity.
Qed.

(** The response of [http.Error] on a fresh writer. *)
Lemma http_Error_reply (r : Request) (msg : string) (code : Z) :
  bodyAllowedForStatus code = true ->
  let w := finish (fst (Write (msg ++ nl)
                          (WriteHeader code
                             (Header_Set "X-Content-Type-Options" "nosniff"
                                (Header_Set "Content-Type" "text/plain; charset=utf-8"
                                            (new_ResponseWriter r)))))) in
  status w = code /\ sent_header w = error_headers
  /\ written w = (if Method r =? "HEAD" then "" else msg ++ nl).
Proof.
  intros Hb. unfold Write, WriteHeader, finish, new_ResponseWriter, Header_Set.
  cbn [wroteHeader header status sent_header written head_request http.set].
  cbn [String.eqb Ascii.eqb Bool.eqb].
  assert (Hn : (msg ++ nl =? "") = false).
  { apply String.eqb_neq. intros E. apply regexp_facts.append_eq_nil in E as [_ E].
    discriminate. }
  rewrite Hn, Hb. cbn [negb].
  destruct (Method r =? "HEAD"); cbn; repeat split; reflexivity.
Qed.

End reply_facts.

(* ================================================================= *)
(** ** GET and HEAD of a blob *)

Module blob_facts.
Import strings strings_facts os os_facts digest_facts endpoint_facts path_facts.
Import route_facts storage_facts reply_facts.

Lemma digest_endpoint_sha256 (D : string) :
  matches digestRegex D = true -> Contains ("/blobs/" ++ D) "/blobs/sha256:" = true.
Proof.
  intros H. rewrite (blobs_endpoint_sha256 D (digest_no_slash D H)).
  apply digestRegex_inv in H as (h & -> & _). reflexivity.
Qed.

(** end-2 on a blob that can be read. *)
Lemma end_2_found (env : environ) (r : Request) (name D d : string) (st : state) :
  Method r = "GET" \/ Method r = "HEAD" ->
  matches digestRegex D = true ->
  wroteHeader (st_w st) = false ->
  readFile (st_fs st) (path.Join [rootDir env; name; "_blobs"; D]) = Ok d ->
  end_2 env r name ("/blobs/" ++ D) st
  = (Next tt,
     mkSt (st_fs st)
          (WriteHeader 200
             (if (Method r =? "GET") && negb (d =? "")
              then fst (Write d (Header_Set "Docker-Content-Digest" D (st_w st)))
              else Header_Set "Docker-Content-Digest" D (st_w st)))
          (st_body st) (st_ids st)).
Proof.
  intros HM HD Hfresh HR. unfold end_2.
  assert (Hg : is_GET_or_HEAD r = true).
  { unfold is_GET_or_HEAD. destruct HM as [-> | ->]; reflexivity. }
  rewrite Hg, (digest_endpoint_sha256 D HD). cbn [andb when].
  change ("/blobs/" ++ D) with ("/blobs" ++ String "/" D).
  rewrite (last_part_Split "/blobs" D (digest_no_slash D HD)), HD. cbn [negb].
  unfold bind at 1, get_fs at 1.
  unfold fileExists. rewrite (readFile_Open _ _ _ HR).
  unfold bind at 1. unfold bind at 1.
  unfold w_Header_Set at 1, on_w at 1. cbn [st_fs st_w st_body st_ids].
  destruct (Method r =? "GET") eqn:EG; cbn [when andb].
  - rewrite HR. unfold Buffer_WriteTo.
    destruct (d =? "") eqn:Ed; cbn [negb].
    + reflexivity.
    + unfold bind, w_Write, w_WriteHeader, on_w, ret. cbn [st_fs st_w st_body st_ids].
      pose proof (Write_no_error d (Header_Set "Docker-Content-Digest" D (st_w st)) Hfresh)
        as HW.
      destruct (Write d _) as [w' e]. cbn [snd] in HW. subst e. reflexivity.
  - reflexivity.
Qed.

(** end-2 on a blob that is not there. *)
Lemma end_2_missing (env : environ) (r : Request) (name D : string) (st : state) :
  Method r = "GET" \/ Method r = "HEAD" ->
  matches digestRegex D = true ->
  fileExists (st_fs st) (path.Join [rootDir env; name; "_blobs"; D]) = Ok false ->
  end_2 env r name ("/blobs/" ++ D) st
  = (Next tt, mkSt (st_fs st) (WriteHeader 404 (st_w st)) (st_body st) (st_ids st)).
Proof.
  intros HM HD HF. unfold end_2.
  assert (Hg : is_GET_or_HEAD r = true).
  { unfold is_GET_or_HEAD. destruct HM as [-> | ->]; reflexivity. }
  rewrite Hg, (digest_endpoint_sha256 D HD). cbn [andb when].
  change ("/blobs/" ++ D) with ("/blobs" ++ String "/" D).
  rewrite (last_part_Split "/blobs" D (digest_no_slash D HD)), HD. cbn [negb].
  unfold bind at 1, get_fs at 1. rewrite HF. reflexivity.
Qed.

(** After end-2, no other matcher answers a GET or a HEAD on [/blobs/t]. *)
Lemma GET_blob_endpoints (env : environ) (r : Request) (name t : string) (st st' : state) :
  Method r = "GET" \/ Method r = "HEAD" ->
  has_char "/" t = false ->
  end_2 env r name ("/blobs/" ++ t) st = (Next tt, st') ->
  endpoints env r name ("/blobs/" ++ t) st = (Next tt, st').
Proof.
  intros HM Ht H2. unfold endpoints.
  rewrite (bind_Next _ _ _ _ _ H2).
  unfold end_3, end_4a, end_4b, end_5, end_6, end_7, end_8a, end_8b, end_9, end_10, end_11,
    end_12a, end_12b, end_13.
  rewrite (blobs_endpoint_Contains t "m" "anifests/" Ht eq_refl eq_refl).
  rewrite (blobs_endpoint_Contains t "r" "eferrers/" Ht eq_refl eq_refl).
  rewrite (blobs_endpoint_uploads t Ht), (blobs_endpoint_tags t Ht).
  rewrite !andb_false_r.
  destruct HM as [HM|HM]; rewrite !HM; reflexivity.
Qed.

End blob_facts.

(** X1: a GET of a blob that is stored returns its bytes with status 200 and
    its digest in [Docker-Content-Digest]; a HEAD returns the same without
    the bytes; the storage stays as it is. *)
Theorem stored_blob_is_served :
  forall (env : environ) (fs : os.node) (ids : nat) (r : Request) (name D d : string),
    matches nameRegex name = true ->
    keyword_free (strings.Split name "/") ->
    matches digestRegex D = true ->
    Method r = "GET" \/ Method r = "HEAD" ->
    RequestURI r = "/v2/" ++ name ++ "/blobs/" ++ D ->
    readFile fs (path.Join [rootDir env; name; "_blobs"; D]) = Ok d ->
    serve env fs ids r
    = (Response 200 [("Docker-Content-Digest", D)] (if Method r =? "HEAD" then "" else d),
       fs, ids).
Proof.
  intros env fs ids r name D d Hname Hkw HD HM HU HR.
  pose proof (blob_facts.end_2_found env r name D d
                (mkSt fs (new_ResponseWriter r) (Body r) ids) HM HD eq_refl HR) as H2.
  apply (blob_facts.GET_blob_endpoints env r name D _ _ HM (route_facts.digest_no_slash D HD))
    in H2.
  rewrite (reply_facts.serve_endpoint env fs ids r name "blobs" D _ _ Hname Hkw eq_refl HU H2)
    by discriminate.
  cbn [st_fs st_w st_body st_ids]. unfold new_ResponseWriter.
  destruct HM as [HM|HM]; rewrite HM; cbn [String.eqb Ascii.eqb Bool.eqb andb].
  - destruct (d =? "") eqn:Ed.
    + apply String.eqb_eq in Ed. subst d. reflexivity.
    + unfold Write, WriteHeader, finish. cbn. rewrite Ed. reflexivity.
  - reflexivity.
Qed.

Lemma stored_blob_is_served_witness :
  serve sample_env (repository [blobs [(digest_hello, "hello")]]) 0
        (request "GET" ("/v2/lib/app/blobs/" ++ digest_hello) [] [])
  = (Response 200 [("Docker-Content-Digest", digest_hello)] "hello",
     repository [blobs [(digest_hello, "hello")]], 0).
Proof.
  apply (stored_blob_is_served sample_env (repository [blobs [(digest_hello, "hello")]]) 0
           (request "GET" ("/v2/lib/app/blobs/" ++ digest_hello) [] [])
           "lib/app" digest_hello "hello");
    try (vm_compute; reflexivity).
  - repeat constructor.
  - now left.
Defined.

(* ================================================================= *)
(** ** Requests that are refused or that no matcher claims *)

Module refusal_facts.
Import strings strings_facts os os_facts digest_facts endpoint_facts path_facts.
Import route_facts storage_facts reply_facts.

(** The run of [writeOCIError] followed by [return]. *)
Lemma writeOCIError_return (env : environ) (code message : string) (sc : Z) (st : state) :
  (writeOCIError env code message sc ;; return_) st
  = (@Returned unit,
     mkSt (st_fs st)
          (fst (Write (json_Marshal_ErrorResponse env code message ++ nl)
                      (WriteHeader sc
                         (Header_Set "X-Content-Type-Options" "nosniff"
                            (Header_Set "Content-Type" "text/plain; charset=utf-8"
                                        (st_w st))))))
          (st_body st) (st_ids st)).
Proof. unfold writeOCIError, bind. now rewrite http_Error_run. Qed.

Lemma HasPrefix_longer (p q : string) :
  forall s, HasPrefix s (p ++ q) = true -> HasPrefix s p = true.
Proof.
  induction p as [|c p IH]; intros s H; [reflexivity|].
  destruct s as [|x s]; [discriminate|]. cbn [String.append HasPrefix] in *.
  apply andb_true_iff in H as [-> H]. now rewrite (IH _ H).
Qed.

(** A text that holds a pattern holds every prefix of the pattern. *)
Lemma Contains_longer (p q : string) :
  forall s, Contains s (p ++ q) = true -> Contains s p = true.
Proof.
  induction s as [|x s IH]; cbn [Contains]; intros H.
  - rewrite orb_false_r in *. now apply HasPrefix_longer in H.
  - apply orb_true_iff in H as [H|H].
    + apply HasPrefix_longer in H. now rewrite H.
    + rewrite (IH H). apply orb_true_r.
Qed.

Lemma Contains_app_r (a p : string) : Contains (a ++ p) p = true.
Proof.
  induction a as [|x a IH].
  - apply HasPrefix_Contains. pose proof (HasPrefix_app p "") as H.
    now rewrite append_nil_r in H.
  - change (String x a ++ p) with (String x (a ++ p)). cbn [Contains]. rewrite IH.
    apply orb_true_r.
Qed.

Lemma HasSuffix_Contains (s suf : string) : HasSuffix s suf = true -> Contains s suf = true.
Proof. intros H. apply HasSuffix_inv in H as [a ->]. apply Contains_app_r. Qed.

Lemma no_blobs_pattern (s q : string) :
  Contains s "/blobs/" = false -> Contains s ("/blobs/" ++ q) = false.
Proof.
  intros H. destruct (Contains s ("/blobs/" ++ q)) eqn:E; [|reflexivity].
  apply Contains_longer in E. congruence.
Qed.

Lemma no_uploads_suffix (s : string) :
  Contains s "/blobs/" = false -> HasSuffix s "/blobs/uploads/" = false.
Proof.
  intros H. destruct (HasSuffix s "/blobs/uploads/") eqn:E; [|reflexivity].
  apply HasSuffix_Contains in E. apply (Contains_longer "/blobs/" "uploads/") in E. congruence.
Qed.

(** No matcher of the chain is for a method other than the six. *)
Lemma endpoints_other_method (env : environ) (r : Request) (name endpoint : string)
      (st : state) :
  Method r <> "GET" -> Method r <> "HEAD" -> Method r <> "POST" ->
  Method r <> "PATCH" -> Method r <> "PUT" -> Method r <> "DELETE" ->
  endpoints env r name endpoint st = (Next tt, st).
Proof.
  intros H1 H2 H3 H4 H5 H6.
  apply String.eqb_neq in H1, H2, H3, H4, H5, H6.
  unfold endpoints, end_2, end_3, end_4a, end_4b, end_5, end_6, end_7, end_8a, end_8b, end_9,
    end_10, end_11, end_12a, end_12b, end_13, is_GET_or_HEAD.
  rewrite H1, H2, H3, H4, H5, H6. reflexivity.
Qed.

(** No matcher of the chain is for an endpoint without any of the
    patterns. *)
Lemma endpoints_no_pattern (env : environ) (r : Request) (name endpoint : string)
      (st : state) :
  Contains endpoint "/blobs/" = false ->
  Contains endpoint "/manifests/" = false ->
  Contains endpoint "/referrers/" = false ->
  HasSuffix endpoint "/tags/list" = false ->
  endpoints env r name endpoint st = (Next tt, st).
Proof.
  intros Hb Hm Hr Ht.
  assert (H1 : Contains endpoint "/blobs/sha256:" = false)
    by exact (no_blobs_pattern endpoint "sha256:" Hb).
  assert (H2 : Contains endpoint "/blobs/uploads/" = false)
    by exact (no_blobs_pattern endpoint "uploads/" Hb).
  unfold endpoints, end_2, end_3, end_4a, end_4b, end_5, end_6, end_7, end_8a, end_8b, end_9,
    end_10, end_11, end_12a, end_12b, end_13.
  rewrite H1, H2, (no_uploads_suffix endpoint Hb), Hb, Hm, Hr, Ht.
  rewrite !andb_false_r. reflexivity.
Qed.

End refusal_facts.

(** X2: a request that no matcher claims is answered 200 with an empty body
    and leaves the storage as it is: this is so when the method is none of
    GET, HEAD, POST, PATCH, PUT and DELETE, and when the endpoint holds none
    of [/blobs/], [/manifests/] and [/referrers/] and does not end with
    [/tags/list]. *)
Theorem unclaimed_request_is_200_empty :
  forall (env : environ) (fs : os.node) (ids : nat) (r : Request) (name : string),
    parseName (RequestURI r) = Ok name ->
    matches nameRegex name = true ->
    (Method r <> "GET" /\ Method r <> "HEAD" /\ Method r <> "POST"
     /\ Method r <> "PATCH" /\ Method r <> "PUT" /\ Method r <> "DELETE")
    \/ (let endpoint := strings.TrimPrefix (RequestURI r) ("/v2/" ++ name) in
        strings.Contains endpoint "/blobs/" = false
        /\ strings.Contains endpoint "/manifests/" = false
        /\ strings.Contains endpoint "/referrers/" = false
        /\ strings.HasSuffix endpoint "/tags/list" = false) ->
    serve env fs ids r = (Response 200 [] "", fs, ids).
Proof.
  intros env fs ids r name Hp Hm Hcase. unfold serve.
  rewrite (route_facts.handler_named env r name _ Hp Hm).
  destruct Hcase as [(H1 & H2 & H3 & H4 & H5 & H6)|(Hb & Hmf & Hr & Ht)].
  - now rewrite refusal_facts.endpoints_other_method.
  - now rewrite refusal_facts.endpoints_no_pattern.
Qed.

Lemma unclaimed_request_is_200_empty_witness :
  serve sample_env empty_storage 0 (request "OPTIONS" "/v2/lib/app/manifests/v1" [] [])
  = (Response 200 [] "", empty_storage, 0)
  /\ serve sample_env empty_storage 0 (request "GET" "/v2/lib/app/blobs" [] [])
     = (Response 200 [] "", empty_storage, 0).
Proof.
  split.
  - apply (unclaimed_request_is_200_empty sample_env empty_storage 0
             (request "OPTIONS" "/v2/lib/app/manifests/v1" [] []) "lib/app");
      [vm_compute; reflexivity | vm_compute; reflexivity |].
    left. repeat split; discriminate.
  - apply (unclaimed_request_is_200_empty sample_env empty_storage 0
             (request "GET" "/v2/lib/app/blobs" [] []) "lib");
      [vm_compute; reflexivity | vm_compute; reflexivity |].
    right. repeat split; vm_compute; reflexivity.
Defined.

(** X3: a request whose URI has at most one slash after [/v2/], other than
    the GET of [/v2/] itself, is answered 500 with the message of
    [parseName] (a HEAD gets no body), and the GET of [/v2/] is answered
    200; the storage stays as it is. *)
Theorem short_uri_is_500 :
  forall (env : environ) (fs : os.node) (ids : nat) (r : Request),
    strings.Count (strings.TrimPrefix (RequestURI r) "/v2/") "/" <= 1 ->
    serve env fs ids r
    = (if (Method r =? "GET") && (RequestURI r =? "/v2/")
       then Response 200 [] ""
       else Response 500 error_headers
                     (if Method r =? "HEAD" then ""
                      else "Unexpected error encountered: "
                           ++ "URL does not match any valid OCI endpoint: "
                           ++ RequestURI r ++ nl),
       fs, ids).
Proof.
  intros env fs ids r Hn. unfold serve, handler.
  destruct ((Method r =? "GET") && (RequestURI r =? "/v2/")).
  - reflexivity.
  - unfold parseName.
    destruct (strings.Count (strings.TrimPrefix (RequestURI r) "/v2/") "/") as [|[|n]];
      try lia; cbn [Nat.leb];
      unfold writeServerError, bind; rewrite reply_facts.http_Error_run;
      cbn [st_fs st_w st_body st_ids return_ errors_New Error];
      destruct (reply_facts.http_Error_reply r
                  ("Unexpected error encountered: "
                   ++ "URL does not match any valid OCI endpoint: " ++ RequestURI r)
                  500 eq_refl) as (E1 & E2 & E3);
      cbv zeta in E1, E2, E3; unfold return_; rewrite E1, E2, E3;
      rewrite !strings_facts.append_assoc; reflexivity.
Qed.

Lemma short_uri_is_500_witness :
  serve sample_env empty_storage 0 (request "GET" "/v2/tags/list" [] [])
  = (Response 500 error_headers
              ("Unexpected error encountered: "
               ++ "URL does not match any valid OCI endpoint: " ++ "/v2/tags/list" ++ nl),
     empty_storage, 0).
Proof.
  apply (short_uri_is_500 sample_env empty_storage 0 (request "GET" "/v2/tags/list" [] [])).
  vm_compute. lia.
Defined.

(* ================================================================= *)
(** ** Endpoints below other keywords *)

Module keyword_facts.
Import strings strings_facts os os_facts digest_facts endpoint_facts path_facts.
Import route_facts storage_facts reply_facts refusal_facts.

(** After [/k/] and a text without a slash, a pattern that starts with a
    slash and holds another one is met only at the start. *)
Lemma keyword_endpoint_Contains (k t q : string) :
  has_char "/" k = false -> has_char "/" t = false -> has_char "/" q = true ->
  HasPrefix (k ++ String "/" t) q = false ->
  Contains (String "/" (k ++ String "/" t)) (String "/" q) = false.
Proof.
  intros Hk Ht Hq H0.
  rewrite Contains_slash, H0, (Contains_app_no_slash k _ q Hk), Contains_slash.
  rewrite (no_slash_no_HasPrefix t q Ht Hq).
  apply no_slash_no_Contains; [exact Ht | reflexivity].
Qed.

(** The same below [/blobs/uploads/]. *)
Lemma uploads_endpoint_Contains (t q : string) :
  has_char "/" t = false -> has_char "/" q = true ->
  HasPrefix ("blobs/uploads/" ++ t) q = false ->
  HasPrefix ("uploads/" ++ t) q = false ->
  Contains ("/blobs/uploads/" ++ t) (String "/" q) = false.
Proof.
  intros Ht Hq H0 H1.
  change ("/blobs/uploads/" ++ t) with (String "/" ("blobs" ++ String "/" ("uploads/" ++ t))).
  rewrite Contains_slash.
  change ("blobs" ++ String "/" ("uploads/" ++ t)) with ("blobs/uploads/" ++ t) at 1.
  rewrite H0, (Contains_app_no_slash "blobs" _ q eq_refl).
  change (String "/" ("uploads/" ++ t)) with (String "/" ("uploads" ++ String "/" t)).
  apply keyword_endpoint_Contains; trivial.
Qed.

Lemma uploads_endpoint_self (t : string) :
  Contains ("/blobs/uploads/" ++ t) "/blobs/uploads/" = true.
Proof. apply HasPrefix_Contains, HasPrefix_app. Qed.

Lemma uploads_endpoint_tags (t : string) :
  has_char "/" t = false -> HasSuffix ("/blobs/uploads/" ++ t) "/tags/list" = false.
Proof.
  intros Ht. destruct (HasSuffix ("/blobs/uploads/" ++ t) "/tags/list") eqn:H; [|reflexivity].
  apply (HasSuffix_tags_list "/blobs" "uploads" t eq_refl Ht) in H as [H _]. discriminate.
Qed.

Lemma keyword_endpoint_tags (k t : string) :
  has_char "/" k = false -> has_char "/" t = false -> k <> "tags" ->
  HasSuffix (String "/" (k ++ String "/" t)) "/tags/list" = false.
Proof.
  intros Hk Ht Hn.
  destruct (HasSuffix (String "/" (k ++ String "/" t)) "/tags/list") eqn:H; [|reflexivity].
  apply (HasSuffix_tags_list "" k t Hk Ht) in H as [H _]. congruence.
Qed.

(** No matcher before end-9 is for a DELETE. *)
Lemma DELETE_reaches_end_9 (env : environ) (r : Request) (name endpoint : string) (s : state) :
  Method r = "DELETE" ->
  endpoints env r name endpoint s
  = bind (end_9 env r name endpoint)
         (fun _ =>
            end_10 env r name endpoint ;; end_11 env r name endpoint ;;
            end_12a r name endpoint ;; end_12b r name endpoint ;;
            end_13 env r name endpoint) s.
Proof.
  intros HM.
  unfold endpoints, end_2, end_3, end_4a, end_4b, end_5, end_6, end_7, end_8a, end_8b,
    is_GET_or_HEAD.
  rewrite !HM. reflexivity.
Qed.

(** end-2 and end-10 on a last component that is no digest. *)
Lemma end_2_malformed (env : environ) (r : Request) (name x : string) (st : state) :
  Method r = "GET" \/ Method r = "HEAD" ->
  has_char "/" x = false -> HasPrefix x "sha256:" = true ->
  matches digestRegex x = false ->
  end_2 env r name ("/blobs/" ++ x) st
  = (writeOCIError env "BLOB_UNKNOWN" "blob unknown to registry" 404 ;; return_) st.
Proof.
  intros HM Hx Hp Hd. unfold end_2.
  assert (Hg : is_GET_or_HEAD r = true).
  { unfold is_GET_or_HEAD. destruct HM as [-> | ->]; reflexivity. }
  rewrite Hg, (blobs_endpoint_sha256 x Hx), Hp. cbn [andb when].
  change ("/blobs/" ++ x) with ("/blobs" ++ String "/" x).
  now rewrite (last_part_Split "/blobs" x Hx), Hd.
Qed.

Lemma end_10_malformed (env : environ) (r : Request) (name x : string) (st : state) :
  Method r = "DELETE" ->
  has_char "/" x = false -> matches digestRegex x = false ->
  end_10 env r name ("/blobs/" ++ x) st
  = (writeOCIError env "BLOB_UNKNOWN" "blob unknown to registry" 404 ;; return_) st.
Proof.
  intros HM Hx Hd. unfold end_10.
  rewrite HM, (blobs_endpoint_self x). cbn [String.eqb Ascii.eqb Bool.eqb andb when].
  change ("/blobs/" ++ x) with ("/blobs" ++ String "/" x).
  now rewrite (last_part_Split "/blobs" x Hx), Hd.
Qed.

Lemma end_9_not_blobs (env : environ) (r : Request) (name x : string) (st : state) :
  has_char "/" x = false -> end_9 env r name ("/blobs/" ++ x) st = (Next tt, st).
Proof.
  intros Hx. unfold end_9.
  rewrite (blobs_endpoint_Contains x "m" "anifests/" Hx eq_refl eq_refl).
  now rewrite andb_false_r.
Qed.

(** end-3 and end-9 on a last component that is neither a reference nor a
    digest. *)
Lemma end_3_invalid (env : environ) (r : Request) (name x : string) (st : state) :
  Method r = "GET" \/ Method r = "HEAD" ->
  has_char "/" x = false ->
  matches refRegex x = false -> matches digestRegex x = false ->
  end_3 env r name ("/manifests/" ++ x) st
  = (writeOCIError env "MANIFEST_INVALID" "manifest invalid" 404 ;; return_) st.
Proof.
  intros HM Hx Hr Hd. unfold end_3.
  assert (Hg : is_GET_or_HEAD r = true).
  { unfold is_GET_or_HEAD. destruct HM as [-> | ->]; reflexivity. }
  rewrite Hg, manifests_endpoint_self, (manifests_endpoint_last x Hx), Hr, Hd. reflexivity.
Qed.

Lemma end_9_invalid (env : environ) (r : Request) (name x : string) (st : state) :
  Method r = "DELETE" ->
  has_char "/" x = false ->
  matches refRegex x = false -> matches digestRegex x = false ->
  end_9 env r name ("/manifests/" ++ x) st
  = (writeOCIError env "MANIFEST_INVALID" "manifest invalid" 404 ;; return_) st.
Proof.
  intros HM Hx Hr Hd. unfold end_9.
  rewrite HM, manifests_endpoint_self, (manifests_endpoint_last x Hx), Hr, Hd. reflexivity.
Qed.

Lemma end_2_not_manifests (env : environ) (r : Request) (name x : string) (st : state) :
  has_char "/" x = false -> end_2 env r name ("/manifests/" ++ x) st = (Next tt, st).
Proof.
  intros Hx. unfold end_2.
  rewrite (manifests_endpoint_Contains x "b" "lobs/sha256:" Hx eq_refl eq_refl).
  now rewrite andb_false_r.
Qed.

(** The reply when the chain ends with an OCI error. *)
Lemma serve_OCIError (env : environ) (fs : os.node) (ids : nat) (r : Request)
      (name K T code message : string) (sc : Z) :
  matches nameRegex name = true ->
  keyword_free (Split name "/") ->
  is_endpoint_keyword K = true ->
  RequestURI r = "/v2/" ++ name ++ String "/" (K ++ String "/" T) ->
  bodyAllowedForStatus sc = true ->
  endpoints env r name (String "/" (K ++ String "/" T))
            (mkSt fs (new_ResponseWriter r) (Body r) ids)
  = (writeOCIError env code message sc ;; return_)
      (mkSt fs (new_ResponseWriter r) (Body r) ids) ->
  serve env fs ids r
  = (Response sc error_headers
              (if Method r =? "HEAD" then ""
               else json_Marshal_ErrorResponse env code message ++ nl),
     fs, ids).
Proof.
  intros Hm Hkw HK HU Hb He. rewrite writeOCIError_return in He.
  rewrite (serve_endpoint env fs ids r name K T _ _ Hm Hkw HK HU He) by discriminate.
  cbn [st_fs st_w st_body st_ids].
  destruct (http_Error_reply r (json_Marshal_ErrorResponse env code message) sc Hb)
    as (E1 & E2 & E3).
  cbv zeta in E1, E2, E3. now rewrite E1, E2, E3.
Qed.

End keyword_facts.

(** X4: a GET, HEAD or DELETE of a blob whose last component is not a digest
    of the grammar is refused with the OCI error BLOB_UNKNOWN and status
    404 (for GET and HEAD when the component starts with [sha256:]); the
    storage stays as it is. *)
Theorem malformed_blob_digest_is_404 :
  forall (env : environ) (fs : os.node) (ids : nat) (r : Request) (name x : string),
    matches nameRegex name = true ->
    keyword_free (strings.Split name "/") ->
    has_char "/" x = false ->
    matches digestRegex x = false ->
    RequestURI r = "/v2/" ++ name ++ "/blobs/" ++ x ->
    ((Method r = "GET" \/ Method r = "HEAD") /\ strings.HasPrefix x "sha256:" = true)
    \/ Method r = "DELETE" ->
    serve env fs ids r
    = (Response 404 error_headers
                (if Method r =? "HEAD" then ""
                 else json_Marshal_ErrorResponse env "BLOB_UNKNOWN" "blob unknown to registry"
                      ++ nl),
       fs, ids).
Proof.
  intros env fs ids r name x Hname Hkw Hx Hd HU Hcase.
  apply (keyword_facts.serve_OCIError env fs ids r name "blobs" x _ _ 404 Hname Hkw eq_refl HU
           eq_refl).
  change (String "/" ("blobs" ++ String "/" x)) with ("/blobs/" ++ x).
  rewrite refusal_facts.writeOCIError_return.
  destruct Hcase as [[HM Hp]|HM].
  - unfold endpoints. apply bind_Returned.
    rewrite (keyword_facts.end_2_malformed env r name x _ HM Hx Hp Hd).
    apply refusal_facts.writeOCIError_return.
  - rewrite (keyword_facts.DELETE_reaches_end_9 env r name _ _ HM).
    rewrite (bind_Next _ _ _ _ _ (keyword_facts.end_9_not_blobs env r name x _ Hx)).
    apply bind_Returned.
    rewrite (keyword_facts.end_10_malformed env r name x _ HM Hx Hd).
    apply refusal_facts.writeOCIError_return.
Qed.

Lemma malformed_blob_digest_is_404_witness :
  reply_code (reply_to sample_env empty_storage 0
                       (request "DELETE" "/v2/lib/app/blobs/sha256:abc" [] []))
  = Some 404%Z.
Proof.
  unfold reply_to.
  rewrite (malformed_blob_digest_is_404 sample_env empty_storage 0
             (request "DELETE" "/v2/lib/app/blobs/sha256:abc" [] []) "lib/app" "sha256:abc");
    try (vm_compute; reflexivity).
  - repeat constructor.
  - now right.
Defined.

(** X5: a GET, HEAD or DELETE of a manifest whose last component is neither a
    reference nor a digest of the grammars is refused with the OCI error
    MANIFEST_INVALID and status 404; the storage stays as it is. *)
Theorem invalid_manifest_reference_is_404 :
  forall (env : environ) (fs : os.node) (ids : nat) (r : Request) (name x : string),
    matches nameRegex name = true ->
    keyword_free (strings.Split name "/") ->
    has_char "/" x = false ->
    matches refRegex x = false ->
    matches digestRegex x = false ->
    RequestURI r = "/v2/" ++ name ++ "/manifests/" ++ x ->
    Method r = "GET" \/ Method r = "HEAD" \/ Method r = "DELETE" ->
    serve env fs ids r
    = (Response 404 error_headers
                (if Method r =? "HEAD" then ""
                 else json_Marshal_ErrorResponse env "MANIFEST_INVALID" "manifest invalid"
                      ++ nl),
       fs, ids).
Proof.
  intros env fs ids r name x Hname Hkw Hx Hr Hd HU Hcase.
  apply (keyword_facts.serve_OCIError env fs ids r name "manifests" x _ _ 404 Hname Hkw
           eq_refl HU eq_refl).
  change (String "/" ("manifests" ++ String "/" x)) with ("/manifests/" ++ x).
  rewrite refusal_facts.writeOCIError_return.
  assert (HGH : Method r = "GET" \/ Method r = "HEAD" ->
                endpoints env r name ("/manifests/" ++ x)
                          (mkSt fs (new_ResponseWriter r) (Body r) ids)
                = (Returned,
                   mkSt fs
                        (fst (Write (json_Marshal_ErrorResponse env "MANIFEST_INVALID"
                                                                "manifest invalid" ++ nl)
                                (WriteHeader 404
                                   (Header_Set "X-Content-Type-Options" "nosniff"
                                      (Header_Set "Content-Type" "text/plain; charset=utf-8"
                                                  (new_ResponseWriter r))))))
                        (Body r) ids)).
  { intros HM. unfold endpoints.
    rewrite (bind_Next _ _ _ _ _ (keyword_facts.end_2_not_manifests env r name x _ Hx)).
    apply bind_Returned.
    rewrite (keyword_facts.end_3_invalid env r name x _ HM Hx Hr Hd).
    apply refusal_facts.writeOCIError_return. }
  destruct Hcase as [HM|[HM|HM]].
  - apply HGH. now left.
  - apply HGH. now right.
  - rewrite (keyword_facts.DELETE_reaches_end_9 env r name _ _ HM).
    apply bind_Returned.
    rewrite (keyword_facts.end_9_invalid env r name x _ HM Hx Hr Hd).
    apply refusal_facts.writeOCIError_return.
Qed.

Lemma invalid_manifest_reference_is_404_witness :
  reply_code (reply_to sample_env (repository [tag "a" "{}"]) 0
                       (request "GET" "/v2/lib/app/manifests/a" [] []))
  = Some 404%Z.
Proof.
  unfold reply_to.
  rewrite (invalid_manifest_reference_is_404 sample_env (repository [tag "a" "{}"]) 0
             (request "GET" "/v2/lib/app/manifests/a" [] []) "lib/app" "a");
    try (vm_compute; reflexivity).
  - repeat constructor.
  - now left.
Defined.

(* ================================================================= *)
(** ** Removing an entry *)

Module removal_facts.
Import strings strings_facts os os_facts digest_facts endpoint_facts path_facts.
Import route_facts storage_facts reply_facts refusal_facts keyword_facts.

Lemma find_entry_del_entry_same (k : string) (ents : list (string * node)) :
  find_entry k (del_entry k ents) = None.
Proof.
  induction ents as [|[k' v] ents IH]; [reflexivity|]. simpl.
  destruct (k' =? k) eqn:E; [exact IH|]. simpl. now rewrite E.
Qed.

Lemma find_entry_del_entry_other (t k : string) (ents : list (string * node)) :
  t <> k -> find_entry t (del_entry k ents) = find_entry t ents.
Proof.
  intros Hn. induction ents as [|[k' v] ents IH]; [reflexivity|]. simpl.
  destruct (String.eqb_spec k' k) as [->|Hk]; simpl.
  - destruct (String.eqb_spec k t) as [->|_]; [congruence | exact IH].
  - now rewrite IH.
Qed.

(** Removing what is at [q]: nothing is there afterwards, and the walks
    that leave [q] before its end find what they found. *)
Lemma alter_delete :
  forall (q : list string) (n c : node),
    q <> [] -> walk q n = Done c ->
    exists n',
      alter q (fun _ => Done None) n = Done n'
      /\ walk q n' = Fail ENOENT
      /\ forall (a : list string) (x y : string) (b b' : list string),
           q = (a ++ x :: b)%list -> y <> x ->
           walk (a ++ y :: b') n' = walk (a ++ y :: b') n.
Proof.
  induction q as [|e q IH]; intros n c Hq Hw; [congruence|].
  simpl in Hw. destruct n as [d|ents]; [discriminate|].
  destruct (find_entry e ents) as [c1|] eqn:Hc; [|discriminate].
  destruct q as [|e' q'].
  - exists (Dir (del_entry e ents)). cbn [alter]. split; [reflexivity|]. split.
    + cbn [walk]. now rewrite find_entry_del_entry_same.
    + intros a x y b b' E Hy. destruct a as [|a0 a'].
      * injection E as <- _. cbn [app walk].
        now rewrite find_entry_del_entry_other.
      * injection E as _ E. destruct a'; discriminate.
  - destruct (IH c1 c ltac:(discriminate) Hw) as (n1 & Ha & Hw1 & Hfr).
    exists (Dir (set_entry e n1 ents)). cbn [alter]. rewrite Hc.
    cbn [alter] in Ha. rewrite Ha. split; [reflexivity|]. split.
    + cbn [walk]. rewrite find_entry_set_entry_same. exact Hw1.
    + intros a x y b b' E Hy. destruct a as [|a0 a'].
      * injection E as <- _. cbn [app walk].
        now rewrite find_entry_set_entry_other.
      * injection E as <- E. cbn [app walk].
        rewrite find_entry_set_entry_same, Hc. exact (Hfr a' x y b b' E Hy).
Qed.

(** [os.RemoveAll] on a path that leads somewhere. *)
Lemma RemoveAll_present (fs : node) (F : string) (p q : list string) (c : node) :
  (F =? "") = false -> resolve F = (p ++ q)%list -> q <> [] ->
  walk (p ++ q) fs = Done c ->
  exists fs',
    RemoveAll fs F = Ok fs'
    /\ walk (p ++ q) fs' = Fail ENOENT
    /\ forall (a : list string) (x y : string) (b b' : list string),
         q = (a ++ x :: b)%list -> y <> x ->
         walk (p ++ a ++ y :: b') fs' = walk (p ++ a ++ y :: b') fs.
Proof.
  intros HF Hr Hq Hw. rewrite walk_app in Hw.
  destruct (walk p fs) as [x0|] eqn:Hp; [|discriminate].
  destruct (alter_delete q x0 c Hq Hw) as (n1 & Ha & Hw1 & Hfr).
  pose proof (alter_under (fun _ => Done None) q Hq p fs x0 Hp) as Hu.
  rewrite Ha in Hu. destruct Hu as (fs' & Hal & Hp').
  exists fs'. unfold RemoveAll. rewrite HF, Hr, Hal. split; [reflexivity|]. split.
  - now rewrite walk_app, Hp'.
  - intros a x y b b' E Hy. rewrite !walk_app, Hp, Hp'. exact (Hfr a x y b b' E Hy).
Qed.

(** end-10 on a blob that is there. *)
Lemma end_10_found (env : environ) (r : Request) (name D : string) (st : state) (fs' : node) :
  Method r = "DELETE" ->
  matches digestRegex D = true ->
  fileExists (st_fs st) (path.Join [rootDir env; name; "_blobs"; D]) = Ok true ->
  RemoveAll (st_fs st) (path.Join [rootDir env; name; "_blobs"; D]) = Ok fs' ->
  end_10 env r name ("/blobs/" ++ D) st
  = (Returned, mkSt fs' (WriteHeader 202 (st_w st)) (st_body st) (st_ids st)).
Proof.
  intros HM HD HF HR. unfold end_10.
  rewrite HM, (blobs_endpoint_self D). cbn [String.eqb Ascii.eqb Bool.eqb andb when].
  change ("/blobs/" ++ D) with ("/blobs" ++ String "/" D).
  rewrite (last_part_Split "/blobs" D (digest_no_slash D HD)), HD. cbn [negb].
  unfold bind at 1, get_fs at 1. rewrite HF, HR. reflexivity.
Qed.

Lemma end_10_missing (env : environ) (r : Request) (name D : string) (st : state) :
  Method r = "DELETE" ->
  matches digestRegex D = true ->
  fileExists (st_fs st) (path.Join [rootDir env; name; "_blobs"; D]) = Ok false ->
  end_10 env r name ("/blobs/" ++ D) st
  = (Returned, mkSt (st_fs st) (WriteHeader 404 (st_w st)) (st_body st) (st_ids st)).
Proof.
  intros HM HD HF. unfold end_10.
  rewrite HM, (blobs_endpoint_self D). cbn [String.eqb Ascii.eqb Bool.eqb andb when].
  change ("/blobs/" ++ D) with ("/blobs" ++ String "/" D).
  rewrite (last_part_Split "/blobs" D (digest_no_slash D HD)), HD. cbn [negb].
  unfold bind at 1, get_fs at 1. rewrite HF. reflexivity.
Qed.

(** A DELETE on [/blobs/t] is answered by end-10. *)
Lemma DELETE_blob_endpoints (env : environ) (r : Request) (name t : string)
      (st st' : state) :
  Method r = "DELETE" -> has_char "/" t = false ->
  end_10 env r name ("/blobs/" ++ t) st = (Returned, st') ->
  endpoints env r name ("/blobs/" ++ t) st = (Returned, st').
Proof.
  intros HM Ht H10. rewrite (DELETE_reaches_end_9 env r name _ _ HM).
  rewrite (bind_Next _ _ _ _ _ (end_9_not_blobs env r name t _ Ht)).
  now apply bind_Returned.
Qed.

Lemma fileExists_walk (fs : node) (F : string) (es : list string) :
  (F =? "") = false -> resolve F = es ->
  fileExists fs F = match walk es fs with
                    | Done _ => Ok true
                    | Fail e =>
                        if is_ENOENT e then Ok false
                        else Err (errors_New ("Unexpected error while checking existence of "
                                              ++ F ++ ": " ++ Error (PathError "open" F e)))
                    end.
Proof.
  intros HF Hr. unfold fileExists. rewrite (Open_walk fs F HF), Hr.
  destruct (walk es fs); reflexivity.
Qed.

End removal_facts.

(** X6: a DELETE of a stored blob is answered 202; afterwards the blob is not
    there, and every other file of the blob directory is as before. *)
Theorem deleted_blob_is_gone :
  forall (env : environ) (fs : os.node) (ids : nat) (r : Request) (name D : string),
    matches nameRegex name = true ->
    keyword_free (strings.Split name "/") ->
    matches digestRegex D = true ->
    Method r = "DELETE" ->
    RequestURI r = "/v2/" ++ name ++ "/blobs/" ++ D ->
    fileExists fs (path.Join [rootDir env; name; "_blobs"; D]) = Ok true ->
    exists fs' : os.node,
      serve env fs ids r = (Response 202 [] "", fs', ids)
      /\ fileExists fs' (path.Join [rootDir env; name; "_blobs"; D]) = Ok false
      /\ forall x : string,
           file_name x -> x <> D ->
           os.Open fs' (path.Join [rootDir env; name; "_blobs"; x])
           = os.Open fs (path.Join [rootDir env; name; "_blobs"; x]).
Proof.
  intros env fs ids r name D Hname Hkw HD HM HU HF.
  pose proof (route_facts.digest_file_name D HD) as HfD.
  pose proof (route_facts.digest_no_slash D HD) as HsD.
  destruct (storage_facts.resolve_in_directory env name "_blobs" D
              storage_facts.file_name_blobs HfD) as [Hr Hne].
  set (P := os.resolve (path.Join [rootDir env; name])) in *.
  assert (Hw : exists c, os.walk (P ++ ["_blobs"; D]) fs = os.Done c).
  { rewrite (removal_facts.fileExists_walk fs _ _ Hne Hr) in HF.
    destruct (os.walk (P ++ ["_blobs"; D]) fs) as [c|e]; [now exists c|].
    destruct (os.is_ENOENT e); discriminate. }
  destruct Hw as [c Hw].
  destruct (removal_facts.RemoveAll_present fs _ P ["_blobs"; D] c Hne Hr ltac:(discriminate) Hw)
    as (fs' & HR & Hgone & Hframe).
  exists fs'. split; [|split].
  - pose proof (removal_facts.end_10_found env r name D
                  (mkSt fs (new_ResponseWriter r) (Body r) ids) fs' HM HD HF HR) as H10.
    apply (removal_facts.DELETE_blob_endpoints env r name D _ _ HM HsD) in H10.
    rewrite (reply_facts.serve_endpoint env fs ids r name "blobs" D _ _ Hname Hkw eq_refl HU
               H10) by discriminate.
    reflexivity.
  - rewrite (removal_facts.fileExists_walk fs' _ _ Hne Hr), Hgone. reflexivity.
  - intros x Hx Hn.
    destruct (storage_facts.resolve_in_directory env name "_blobs" x
                storage_facts.file_name_blobs Hx) as [Hrx Hnex].
    rewrite !(storage_facts.Open_walk _ _ Hnex), Hrx. fold P.
    f_equal. exact (Hframe ["_blobs"] D x [] [] eq_refl Hn).
Qed.

Lemma deleted_blob_is_gone_witness :
  exists fs' : os.node,
    serve sample_env (repository [blobs [(digest_hello, "hello"); (digest_braces, "{}")]]) 0
          (request "DELETE" ("/v2/lib/app/blobs/" ++ digest_hello) [] [])
    = (Response 202 [] "", fs', 0)
    /\ fileExists fs' (path.Join [rootDir sample_env; "lib/app"; "_blobs"; digest_hello])
       = Ok false
    /\ forall x : string,
         file_name x -> x <> digest_hello ->
         os.Open fs' (path.Join [rootDir sample_env; "lib/app"; "_blobs"; x])
         = os.Open (repository [blobs [(digest_hello, "hello"); (digest_braces, "{}")]])
                   (path.Join [rootDir sample_env; "lib/app"; "_blobs"; x]).
Proof.
  apply (deleted_blob_is_gone sample_env
           (repository [blobs [(digest_hello, "hello"); (digest_braces, "{}")]]) 0
           (request "DELETE" ("/v2/lib/app/blobs/" ++ digest_hello) [] [])
           "lib/app" digest_hello);
    try (vm_compute; reflexivity).
  repeat constructor.
Defined.

(** X7: a GET, HEAD or DELETE of a well-formed digest that is not stored is
    answered 404 without a body, and the storage stays as it is. *)
Theorem missing_blob_is_404 :
  forall (env : environ) (fs : os.node) (ids : nat) (r : Request) (name D : string),
    matches nameRegex name = true ->
    keyword_free (strings.Split name "/") ->
    matches digestRegex D = true ->
    Method r = "GET" \/ Method r = "HEAD" \/ Method r = "DELETE" ->
    RequestURI r = "/v2/" ++ name ++ "/blobs/" ++ D ->
    fileExists fs (path.Join [rootDir env; name; "_blobs"; D]) = Ok false ->
    serve env fs ids r = (Response 404 [] "", fs, ids).
Proof.
  intros env fs ids r name D Hname Hkw HD HM HU HF.
  pose proof (route_facts.digest_no_slash D HD) as HsD.
  assert (HGH : Method r = "GET" \/ Method r = "HEAD" ->
                serve env fs ids r = (Response 404 [] "", fs, ids)).
  { intros HM'.
    pose proof (blob_facts.end_2_missing env r name D
                  (mkSt fs (new_ResponseWriter r) (Body r) ids) HM' HD HF) as H2.
    apply (blob_facts.GET_blob_endpoints env r name D _ _ HM' HsD) in H2.
    now rewrite (reply_facts.serve_endpoint env fs ids r name "blobs" D _ _ Hname Hkw eq_refl
                   HU H2) by discriminate. }
  destruct HM as [HM|[HM|HM]]; [apply HGH; now left | apply HGH; now right |].
  pose proof (removal_facts.end_10_missing env r name D
                (mkSt fs (new_ResponseWriter r) (Body r) ids) HM HD HF) as H10.
  apply (removal_facts.DELETE_blob_endpoints env r name D _ _ HM HsD) in H10.
  now rewrite (reply_facts.serve_endpoint env fs ids r name "blobs" D _ _ Hname Hkw eq_refl
                 HU H10) by discriminate.
Qed.

Lemma missing_blob_is_404_witness :
  serve sample_env (repository [blobs [(digest_hello, "hello")]]) 0
        (request "HEAD" ("/v2/lib/app/blobs/" ++ digest_braces) [] [])
  = (Response 404 [] "", repository [blobs [(digest_hello, "hello")]], 0).
Proof.
  apply (missing_blob_is_404 sample_env (repository [blobs [(digest_hello, "hello")]]) 0
           (request "HEAD" ("/v2/lib/app/blobs/" ++ digest_braces) [] [])
           "lib/app" digest_braces);
    try (vm_compute; reflexivity).
  - repeat constructor.
  - right. now left.
Defined.

(* ================================================================= *)
(** ** DELETE of a tag, referrers, and the state of an upload *)

Module tag_facts.
Import strings strings_facts os os_facts digest_facts endpoint_facts path_facts.
Import route_facts storage_facts reply_facts refusal_facts keyword_facts removal_facts.

(** end-9 on a reference. *)
Lemma end_9_reference (env : environ) (r : Request) (name ref : string) (st : state)
      (fs' : node) :
  Method r = "DELETE" ->
  matches refRegex ref = true ->
  RemoveAll (st_fs st) (path.Join [rootDir env; name; ref]) = Ok fs' ->
  end_9 env r name ("/manifests/" ++ ref) st
  = (Returned, mkSt fs' (WriteHeader 202 (st_w st)) (st_body st) (st_ids st)).
Proof.
  intros HM Hr HR. unfold end_9.
  destruct (reference_is_file_name ref Hr) as (_ & _ & _ & Hs).
  rewrite HM, manifests_endpoint_self, (manifests_endpoint_last ref Hs), Hr.
  cbn [String.eqb Ascii.eqb Bool.eqb andb orb negb when].
  unfold bind at 1, get_fs at 1. rewrite HR. reflexivity.
Qed.

(** A GET on [/referrers/t] passes the matchers before end-12a. *)
Lemma GET_referrers_endpoints (env : environ) (r : Request) (name t : string) (st : state) :
  Method r = "GET" -> has_char "/" t = false ->
  endpoints env r name ("/referrers/" ++ t) st
  = (if FormValue r "artifactType" =? ""
     then (Returned, mkSt (st_fs st) (WriteHeader 404 (st_w st)) (st_body st) (st_ids st))
     else (Next tt, st)).
Proof.
  intros HM Ht.
  pose proof (keyword_endpoint_Contains "referrers" t "blobs/sha256:" eq_refl Ht eq_refl
                eq_refl) as H1.
  pose proof (keyword_endpoint_Contains "referrers" t "manifests/" eq_refl Ht eq_refl
                eq_refl) as H2.
  pose proof (keyword_endpoint_Contains "referrers" t "blobs/uploads/" eq_refl Ht eq_refl
                eq_refl) as H3.
  pose proof (keyword_endpoint_tags "referrers" t eq_refl Ht ltac:(discriminate)) as H4.
  assert (H5 : Contains ("/referrers/" ++ t) "/referrers/" = true)
    by (apply HasPrefix_Contains, HasPrefix_app).
  change (String "/" ("referrers" ++ String "/" t)) with ("/referrers/" ++ t) in H1, H2, H3, H4.
  unfold endpoints, end_2, end_3, end_4a, end_4b, end_5, end_6, end_7, end_8a, end_8b, end_9,
    end_10, end_11, end_12a, end_12b, end_13, is_GET_or_HEAD.
  rewrite !HM, H1, H2, H3, H4, H5.
  cbn [String.eqb Ascii.eqb Bool.eqb andb orb when].
  repeat (rewrite bind_ret; cbv beta).
  destruct (FormValue r "artifactType" =? ""); reflexivity.
Qed.

(** A GET on [/blobs/uploads/t] is answered by end-13. *)
Lemma GET_upload_endpoints (env : environ) (r : Request) (name t : string) (st : state) :
  Method r = "GET" -> has_char "/" t = false ->
  endpoints env r name ("/blobs/uploads/" ++ t) st
  = end_13 env r name ("/blobs/uploads/" ++ t) st.
Proof.
  intros HM Ht.
  pose proof (uploads_endpoint_Contains t "blobs/sha256:" Ht eq_refl eq_refl eq_refl) as H1.
  pose proof (uploads_endpoint_Contains t "manifests/" Ht eq_refl eq_refl eq_refl) as H2.
  pose proof (uploads_endpoint_Contains t "referrers/" Ht eq_refl eq_refl eq_refl) as H3.
  pose proof (uploads_endpoint_tags t Ht) as H4.
  unfold endpoints, end_2, end_3, end_4a, end_4b, end_5, end_6, end_7, end_8a, end_8b, end_9,
    end_10, end_11, end_12a, end_12b, is_GET_or_HEAD.
  rewrite !HM, H1, H2, H3, H4.
  cbn [String.eqb Ascii.eqb Bool.eqb andb orb when].
  repeat (rewrite bind_ret; cbv beta). reflexivity.
Qed.

End tag_facts.

(** X8: a DELETE of a manifest by a reference whose tag directory exists is
    answered 202; afterwards the tag directory is not there, and the files
    of every other tag are as before. *)
Theorem deleted_tag_is_gone :
  forall (env : environ) (fs : os.node) (ids : nat) (r : Request) (name ref : string),
    matches nameRegex name = true ->
    keyword_free (strings.Split name "/") ->
    matches refRegex ref = true ->
    Method r = "DELETE" ->
    RequestURI r = "/v2/" ++ name ++ "/manifests/" ++ ref ->
    fileExists fs (path.Join [rootDir env; name; ref]) = Ok true ->
    exists fs' : os.node,
      serve env fs ids r = (Response 202 [] "", fs', ids)
      /\ fileExists fs' (path.Join [rootDir env; name; ref]) = Ok false
      /\ forall t m : string,
           file_name t -> t <> ref -> file_name m ->
           os.Open fs' (path.Join [rootDir env; name; t; m])
           = os.Open fs (path.Join [rootDir env; name; t; m]).
Proof.
  intros env fs ids r name ref Hname Hkw Href HM HU HF.
  pose proof (digest_facts.reference_is_file_name ref Href) as Hfr.
  destruct (storage_facts.resolve_directory env name ref Hfr) as [Hr Hne].
  set (P := os.resolve (path.Join [rootDir env; name])) in *.
  assert (Hw : exists c, os.walk (P ++ [ref]) fs = os.Done c).
  { rewrite (removal_facts.fileExists_walk fs _ _ Hne Hr) in HF.
    destruct (os.walk (P ++ [ref]) fs) as [c|e]; [now exists c|].
    destruct (os.is_ENOENT e); discriminate. }
  destruct Hw as [c Hw].
  destruct (removal_facts.RemoveAll_present fs _ P [ref] c Hne Hr ltac:(discriminate) Hw)
    as (fs' & HR & Hgone & Hframe).
  exists fs'. split; [|split].
  - pose proof (tag_facts.end_9_reference env r name ref
                  (mkSt fs (new_ResponseWriter r) (Body r) ids) fs' HM Href HR) as H9.
    assert (He : endpoints env r name ("/manifests/" ++ ref)
                           (mkSt fs (new_ResponseWriter r) (Body r) ids)
                 = (Returned, mkSt fs' (WriteHeader 202 (new_ResponseWriter r)) (Body r) ids)).
    { rewrite (keyword_facts.DELETE_reaches_end_9 env r name _ _ HM).
      now apply bind_Returned. }
    rewrite (reply_facts.serve_endpoint env fs ids r name "manifests" ref _ _ Hname Hkw
               eq_refl HU He) by discriminate.
    reflexivity.
  - rewrite (removal_facts.fileExists_walk fs' _ _ Hne Hr), Hgone. reflexivity.
  - intros t m Ht Hn Hm.
    destruct (storage_facts.resolve_in_directory env name t m Ht Hm) as [Hrx Hnex].
    rewrite !(storage_facts.Open_walk _ _ Hnex), Hrx. fold P.
    f_equal. exact (Hframe [] ref t [] [m] eq_refl Hn).
Qed.

Lemma deleted_tag_is_gone_witness :
  exists fs' : os.node,
    serve sample_env (repository [tag "v1" "{}"; tag "v2" "[]"]) 0
          (request "DELETE" "/v2/lib/app/manifests/v1" [] [])
    = (Response 202 [] "", fs', 0)
    /\ fileExists fs' (path.Join [rootDir sample_env; "lib/app"; "v1"]) = Ok false
    /\ forall t m : string,
         file_name t -> t <> "v1" -> file_name m ->
         os.Open fs' (path.Join [rootDir sample_env; "lib/app"; t; m])
         = os.Open (repository [tag "v1" "{}"; tag "v2" "[]"])
                   (path.Join [rootDir sample_env; "lib/app"; t; m]).
Proof.
  apply (deleted_tag_is_gone sample_env (repository [tag "v1" "{}"; tag "v2" "[]"]) 0
           (request "DELETE" "/v2/lib/app/manifests/v1" [] []) "lib/app" "v1");
    try (vm_compute; reflexivity).
  repeat constructor.
Defined.

(** X9: a GET of the referrers of a digest is answered 404 when the request
    has no [artifactType], and 200 with an empty body when it has one; the
    storage stays as it is. *)
Theorem referrers_are_not_served :
  forall (env : environ) (fs : os.node) (ids : nat) (r : Request) (name x : string),
    matches nameRegex name = true ->
    keyword_free (strings.Split name "/") ->
    has_char "/" x = false ->
    Method r = "GET" ->
    RequestURI r = "/v2/" ++ name ++ "/referrers/" ++ x ->
    serve env fs ids r
    = (Response (if FormValue r "artifactType" =? "" then 404 else 200) [] "", fs, ids).
Proof.
  intros env fs ids r name x Hname Hkw Hx HM HU.
  pose proof (tag_facts.GET_referrers_endpoints env r name x
                (mkSt fs (new_ResponseWriter r) (Body r) ids) HM Hx) as He.
  destruct (FormValue r "artifactType" =? "");
    rewrite (reply_facts.serve_endpoint env fs ids r name "referrers" x _ _ Hname Hkw
               eq_refl HU He) by discriminate;
    reflexivity.
Qed.

Lemma referrers_are_not_served_witness :
  serve sample_env empty_storage 0
        (request "GET" ("/v2/lib/app/referrers/" ++ digest_hello) [] [])
  = (Response 404 [] "", empty_storage, 0).
Proof.
  apply (referrers_are_not_served sample_env empty_storage 0
           (request "GET" ("/v2/lib/app/referrers/" ++ digest_hello) [] [])
           "lib/app" digest_hello);
    try (vm_compute; reflexivity).
  repeat constructor.
Defined.

(** X10: a GET of an upload session whose file holds [c] bytes is answered 204
    with the URI in [Location] and [0-(c-1)] in [Range]; when the file
    cannot be examined the answer is 500; the storage stays as it is. *)
Theorem upload_status_reports_size :
  forall (env : environ) (fs : os.node) (ids : nat) (r : Request) (name loc : string),
    matches nameRegex name = true ->
    keyword_free (strings.Split name "/") ->
    has_char "/" loc = false ->
    Method r = "GET" ->
    RequestURI r = "/v2/" ++ name ++ "/blobs/uploads/" ++ loc ->
    serve env fs ids r
    = (match os.Stat fs (path.Join [rootDir env; name; "_blobs"; loc]) with
       | Ok (os.File data) =>
           Response 204 [("Location", RequestURI r);
                         ("Range", "0-" ++ fmt_d (Z.of_nat (String.length data) - 1))] ""
       | Ok (os.Dir _) =>
           Response 204 [("Location", RequestURI r);
                         ("Range", "0-" ++ fmt_d (dir_size env - 1))] ""
       | Err e =>
           Response 500 error_headers ("Unexpected error encountered: " ++ Error e ++ nl)
       end,
       fs, ids).
Proof.
  intros env fs ids r name loc Hname Hkw Hl HM HU.
  assert (He : endpoints env r name (String "/" ("blobs" ++ String "/" ("uploads/" ++ loc)))
                         (mkSt fs (new_ResponseWriter r) (Body r) ids)
               = end_13 env r name ("/blobs/uploads/" ++ loc)
                        (mkSt fs (new_ResponseWriter r) (Body r) ids))
    by exact (tag_facts.GET_upload_endpoints env r name loc _ HM Hl).
  unfold end_13 in He.
  rewrite HM, (keyword_facts.uploads_endpoint_self loc) in He.
  cbn [String.eqb Ascii.eqb Bool.eqb andb when] in He.
  assert (HL : last_part (strings.Split ("/blobs/uploads/" ++ loc) "/") = loc)
    by exact (route_facts.last_part_Split "/blobs/uploads" loc Hl).
  rewrite HL in He.
  unfold bind at 1, get_fs at 1 in He. cbn [st_fs] in He.
  destruct (os.Stat fs (path.Join [rootDir env; name; "_blobs"; loc])) as [[data|ents]|e].
  - rewrite (reply_facts.serve_endpoint env fs ids r name "blobs" ("uploads/" ++ loc) _ _
               Hname Hkw eq_refl HU He) by discriminate.
    unfold new_ResponseWriter. rewrite HM. reflexivity.
  - rewrite (reply_facts.serve_endpoint env fs ids r name "blobs" ("uploads/" ++ loc) _ _
               Hname Hkw eq_refl HU He) by discriminate.
    unfold new_ResponseWriter. rewrite HM. reflexivity.
  - unfold writeServerError, bind in He. rewrite reply_facts.http_Error_run in He.
    unfold return_ in He.
    rewrite (reply_facts.serve_endpoint env fs ids r name "blobs" ("uploads/" ++ loc) _ _
               Hname Hkw eq_refl HU He) by discriminate.
    cbn [st_fs st_w st_body st_ids].
    destruct (reply_facts.http_Error_reply r ("Unexpected error encountered: " ++ Error e)
                500 eq_refl) as (E1 & E2 & E3).
    cbv zeta in E1, E2, E3. rewrite E1, E2, E3, HM.
    cbn [String.eqb Ascii.eqb Bool.eqb]. now rewrite strings_facts.append_assoc.
Qed.

Lemma upload_status_reports_size_witness :
  serve sample_env (repository [blobs [("session-0", "abc")]]) 1
        (request "GET" "/v2/lib/app/blobs/uploads/session-0" [] [])
  = (Response 204 [("Location", "/v2/lib/app/blobs/uploads/session-0"); ("Range", "0-2")] "",
     repository [blobs [("session-0", "abc")]], 1).
Proof.
  apply (upload_status_reports_size sample_env (repository [blobs [("session-0", "abc")]]) 1
           (request "GET" "/v2/lib/app/blobs/uploads/session-0" [] []) "lib/app" "session-0");
    try (vm_compute; reflexivity).
  repeat constructor.
Defined.

(* ================================================================= *)
(** ** Uploads in one request *)

Module upload_facts.
Import strings strings_facts os os_facts digest_facts endpoint_facts path_facts body_facts.
Import route_facts storage_facts reply_facts refusal_facts keyword_facts removal_facts.

(** The directory [a] of a repository after [MkdirAll]. *)
Lemma MkdirAll_directory (env : environ) (name a b : string) (fs fs1 : node) :
  file_name a -> file_name b ->
  os.MkdirAll fs (path.Join [rootDir env; name; a]) = Ok fs1 ->
  (forall e, os.Open fs (path.Join [rootDir env; name; a; b]) <> Ok (Dir e)) ->
  exists er,
    walk (resolve (path.Join [rootDir env; name])) fs1
    = Done (Dir (set_entry a (Dir er)
                           (dir_entries (resolve (path.Join [rootDir env; name])) fs)))
    /\ (forall e, find_entry b er <> Some (Dir e)).
Proof.
  intros Ha Hb Hmk Hnd. destruct (resolve_directory env name a Ha) as [Hr Hne].
  set (P := resolve (path.Join [rootDir env; name])) in *.
  unfold os.MkdirAll, lift, at_path in Hmk. rewrite Hne, Hr in Hmk.
  destruct (mkdir_all (P ++ [a]) fs) as [n'|] eqn:Hm; [|discriminate].
  injection Hmk as ->. apply mkdir_all_parent in Hm as (er & Hw & Hf).
  exists er. split; [exact Hw|]. intros e He.
  destruct (find_entry a (dir_entries P fs)) as [c|] eqn:Hc.
  - subst c. apply (Hnd e). destruct (resolve_in_directory env name a b Ha Hb) as [Hr' Hne'].
    rewrite (Open_walk _ _ Hne'), Hr'. fold P. rewrite walk_app.
    unfold dir_entries in Hc. destruct (walk P fs) as [[d|ents0]|]; try discriminate.
    cbn [walk lift]. now rewrite Hc, He.
  - subst er. discriminate.
Qed.

Lemma Open_in_directory (env : environ) (name a b : string) (fs : node)
      (ents : list (string * node)) (d : string) :
  file_name a -> file_name b ->
  holds_file (resolve (path.Join [rootDir env; name])) a b fs ents d ->
  os.Open fs (path.Join [rootDir env; name; a; b]) = Ok (File d).
Proof.
  intros Ha Hb (Hw & er & Hf & Hm). destruct (resolve_in_directory env name a b Ha Hb) as [Hr Hne].
  rewrite (Open_walk _ _ Hne), Hr, walk_app, Hw. cbn [walk]. now rewrite Hf, Hm.
Qed.

(** The first piece of a text cut at [c]. *)
Lemma Split_char_head (c : ascii) (a b : string) :
  has_char c a = false ->
  Split (a ++ String c b) (String c "") = a :: Split b (String c "").
Proof.
  unfold Split. induction a as [|x a IH]; intros H.
  - cbn [String.append split_from HasPrefix]. rewrite Ascii.eqb_refl. reflexivity.
  - simpl in H. apply orb_false_iff in H as [Hx Ha].
    change (String x a ++ String c b) with (String x (a ++ String c b)).
    cbn [split_from HasPrefix]. rewrite Hx. cbn [andb]. now rewrite (IH Ha).
Qed.

(** [writeBodyToFileWithLocation] on a file of an existing directory of
    the repository, with the digest of the body. *)
Lemma writeBodyToFileWithLocation_run (env : environ) (r : Request) (name D : string)
      (st : state) (ents er : list (string * node)) :
  matches digestRegex D = true ->
  getDigest (body_bytes (st_body st)) = D ->
  walk (resolve (path.Join [rootDir env; name])) (st_fs st) = Done (Dir ents) ->
  find_entry "_blobs" ents = Some (Dir er) ->
  (forall e, find_entry D er <> Some (Dir e)) ->
  exists fs2,
    writeBodyToFileWithLocation r (path.Join [rootDir env; name; "_blobs"; D]) name D st
    = (Next tt,
       mkSt fs2
            (WriteHeader 201 (Header_Set "Location" ("/v2/" ++ name ++ "/blobs/" ++ D) (st_w st)))
            [] (st_ids st))
    /\ readFile fs2 (path.Join [rootDir env; name; "_blobs"; D])
       = Ok (body_bytes (st_body st)).
Proof.
  intros HD HM Hw Hf Hnd.
  pose proof (digest_file_name D HD) as HfD.
  destruct (resolve_in_directory env name "_blobs" D file_name_blobs HfD) as [Hr Hne].
  destruct (writeBodyToFile_run _ _ "_blobs" D st ents er Hne Hr Hw Hf Hnd)
    as (fs2 & ents2 & Hrun & Hh & _).
  pose proof (Open_in_directory env name "_blobs" D fs2 ents2 _ file_name_blobs HfD Hh) as HO.
  assert (HR : readFile fs2 (path.Join [rootDir env; name; "_blobs"; D])
               = Ok (body_bytes (st_body st))).
  { unfold readFile. now rewrite HO. }
  exists fs2. split; [|exact HR].
  unfold writeBodyToFileWithLocation. unfold bind at 1. rewrite Hrun.
  unfold bind at 1, get_fs at 1. cbn [st_fs].
  unfold validateBlob. rewrite HR, HM, String.eqb_refl. reflexivity.
Qed.

(** end-6 when there is no session file. *)
Lemma end_6_fresh (env : environ) (r : Request) (name loc query D : string) (st : state)
      (fs1 : node) (e : error) :
  Method r = "PUT" ->
  has_char "/" loc = false -> has_char "?" loc = false -> has_char "/" query = false ->
  FormValue r "digest" = D ->
  matches digestRegex D = true ->
  getDigest (body_bytes (st_body st)) = D ->
  os.Open (st_fs st) (path.Join [rootDir env; name; "_blobs"; loc]) = Err e ->
  os.MkdirAll (st_fs st) (path.Join [rootDir env; name; "_blobs"]) = Ok fs1 ->
  (forall x, os.Open (st_fs st) (path.Join [rootDir env; name; "_blobs"; D]) <> Ok (Dir x)) ->
  exists fs2,
    end_6 env r name ("/blobs/uploads/" ++ loc ++ String "?" query) st
    = (Next tt,
       mkSt fs2
            (WriteHeader 201 (Header_Set "Location" ("/v2/" ++ name ++ "/blobs/" ++ D) (st_w st)))
            [] (st_ids st))
    /\ readFile fs2 (path.Join [rootDir env; name; "_blobs"; D])
       = Ok (body_bytes (st_body st)).
Proof.
  intros HM Hl Hq Hqs HF HD HB HO Hmk Hnd.
  pose proof (digest_file_name D HD) as HfD.
  destruct (MkdirAll_directory env name "_blobs" D _ _ file_name_blobs HfD Hmk Hnd)
    as (er & Hw1 & Hnd1).
  destruct (writeBodyToFileWithLocation_run env r name D
              (mkSt fs1 (st_w st) (st_body st) (st_ids st)) _ er HD HB Hw1
              (find_entry_set_entry_same _ _ _) Hnd1) as (fs2 & Hrun & HR).
  cbn [st_fs st_w st_body st_ids] in Hrun, HR.
  exists fs2. split; [|exact HR].
  assert (Ht : has_char "/" (loc ++ String "?" query) = false).
  { rewrite has_char_app, Hl. simpl. exact Hqs. }
  assert (HL : last_part (Split ("/blobs/uploads/" ++ loc ++ String "?" query) "/")
               = loc ++ String "?" query)
    by exact (last_part_Split "/blobs/uploads" _ Ht).
  unfold end_6. rewrite HM, uploads_endpoint_self, HL, (Split_char_head "?" loc query Hq), HF.
  cbn [String.eqb Ascii.eqb Bool.eqb andb when nth].
  unfold bind at 1, get_fs at 1. unfold fileExists. rewrite HO.
  assert (Hb : match (if is_not_exist e then Ok false
                      else Err (errors_New ("Unexpected error while checking existence of "
                                            ++ path.Join [rootDir env; name; "_blobs"; loc]
                                            ++ ": " ++ Error e))) with
               | Ok b => b
               | Err _ => false
               end = false) by (now destruct (is_not_exist e)).
  rewrite Hb, Hmk. unfold bind at 1, put_fs at 1. cbn [st_fs st_w st_body st_ids].
  exact Hrun.
Qed.

(** A PUT on [/blobs/uploads/t] is answered by end-6 alone when end-6
    passes control on. *)
Lemma PUT_upload_endpoints (env : environ) (r : Request) (name t : string) (st st' : state) :
  Method r = "PUT" -> has_char "/" t = false ->
  end_6 env r name ("/blobs/uploads/" ++ t) st = (Next tt, st') ->
  endpoints env r name ("/blobs/uploads/" ++ t) st = (Next tt, st').
Proof.
  intros HM Ht H6.
  unfold endpoints, end_2, end_3, end_4a, end_4b, end_5, is_GET_or_HEAD.
  rewrite !HM. cbn [String.eqb Ascii.eqb Bool.eqb andb orb when].
  repeat (rewrite bind_ret; cbv beta).
  rewrite (bind_Next _ _ _ _ _ H6).
  unfold end_7, end_8a, end_8b, end_9, end_10, end_11, end_12a, end_12b, end_13.
  rewrite !HM, (uploads_endpoint_Contains t "manifests/" Ht eq_refl eq_refl eq_refl).
  reflexivity.
Qed.

End upload_facts.


(** X11: a PUT on an upload location without session file, with the digest of
    its body in [digest], is answered 201 with the location of the blob;
    the bytes are then stored under the digest, and the GET of the blob
    returns them. *)
Theorem blob_put_then_get :
  forall (env : environ) (fs fs1 : os.node) (ids ids' : nat) (put get : Request)
         (name loc M : string) (e : error),
    matches nameRegex name = true ->
    keyword_free (strings.Split name "/") ->
    has_char "/" loc = false -> has_char "?" loc = false ->
    Method put = "PUT" ->
    RequestURI put = "/v2/" ++ name ++ "/blobs/uploads/" ++ loc ++ "?digest=" ++ getDigest M ->
    FormValue put "digest" = getDigest M ->
    body_bytes (Body put) = M ->
    Method get = "GET" ->
    RequestURI get = "/v2/" ++ name ++ "/blobs/" ++ getDigest M ->
    os.Open fs (path.Join [rootDir env; name; "_blobs"; loc]) = Err e ->
    os.MkdirAll fs (path.Join [rootDir env; name; "_blobs"]) = Ok fs1 ->
    (forall x, os.Open fs (path.Join [rootDir env; name; "_blobs"; getDigest M])
               <> Ok (os.Dir x)) ->
    exists fs2 : os.node,
      serve env fs ids put
      = (Response 201 [("Location", "/v2/" ++ name ++ "/blobs/" ++ getDigest M)] "", fs2, ids)
      /\ readFile fs2 (path.Join [rootDir env; name; "_blobs"; getDigest M]) = Ok M
      /\ serve env fs2 ids' get
         = (Response 200 [("Docker-Content-Digest", getDigest M)] M, fs2, ids').
Proof.
  intros env fs fs1 ids ids' put get name loc M e Hname Hkw Hl Hq HMp HUp HF HB HMg HUg
         HO Hmk Hnd.
  pose proof (digest_facts.getDigest_matches_digestRegex M) as HD.
  pose proof (digest_facts.getDigest_no_slash M) as HsD.
  remember (getDigest M) as D eqn:ED.
  assert (HBD : getDigest (body_bytes (Body put)) = D) by (rewrite HB; exact (eq_sym ED)).
  assert (Hqs : has_char "/" ("digest=" ++ D) = false).
  { rewrite digest_facts.has_char_app, HsD. reflexivity. }
  destruct (upload_facts.end_6_fresh env put name loc ("digest=" ++ D) D
              (mkSt fs (new_ResponseWriter put) (Body put) ids) fs1 e
              HMp Hl Hq Hqs HF HD HBD HO Hmk Hnd) as (fs2 & H6 & HR).
  cbn [st_fs st_w st_body st_ids] in H6, HR. rewrite HB in HR.
  exists fs2. split; [|split; [exact HR|]].
  - assert (Ht : has_char "/" (loc ++ String "?" ("digest=" ++ D)) = false).
    { rewrite digest_facts.has_char_app, Hl. exact Hqs. }
    apply (upload_facts.PUT_upload_endpoints env put name _ _ _ HMp Ht) in H6.
    rewrite (reply_facts.serve_endpoint env fs ids put name "blobs"
               ("uploads/" ++ loc ++ String "?" ("digest=" ++ D)) _ _
               Hname Hkw eq_refl HUp H6) by discriminate.
    unfold new_ResponseWriter. rewrite HMp. reflexivity.
  - pose proof (blob_facts.end_2_found env get name D M
                  (mkSt fs2 (new_ResponseWriter get) (Body get) ids')
                  (or_introl HMg) HD eq_refl HR) as H2.
    apply (blob_facts.GET_blob_endpoints env get name _ _ _ (or_introl HMg) HsD) in H2.
    rewrite (reply_facts.serve_endpoint env fs2 ids' get name "blobs" D _ _
               Hname Hkw eq_refl HUg H2) by discriminate.
    cbn [st_fs st_w st_body st_ids]. unfold new_ResponseWriter.
    rewrite HMg; cbn [String.eqb Ascii.eqb Bool.eqb andb].
    destruct (M =? "") eqn:Ed.
    + apply String.eqb_eq in Ed. rewrite Ed. reflexivity.
    + unfold Write, WriteHeader, finish. cbn. rewrite Ed. reflexivity.
Qed.

Lemma blob_put_then_get_witness :
  exists fs2 : os.node,
    serve sample_env empty_storage 0
          (request "PUT" ("/v2/lib/app/blobs/uploads/session-0?digest=" ++ getDigest "hello")
                   [("digest", getDigest "hello")] ["hel"; "lo"])
    = (Response 201 [("Location", "/v2/lib/app/blobs/" ++ getDigest "hello")] "", fs2, 0)
    /\ readFile fs2 (path.Join [rootDir sample_env; "lib/app"; "_blobs"; getDigest "hello"])
       = Ok "hello"
    /\ serve sample_env fs2 0 (request "GET" ("/v2/lib/app/blobs/" ++ getDigest "hello") [] [])
       = (Response 200 [("Docker-Content-Digest", getDigest "hello")] "hello", fs2, 0).
Proof.
  apply (blob_put_then_get sample_env empty_storage (repository [blobs []]) 0 0
           (request "PUT" ("/v2/lib/app/blobs/uploads/session-0?digest=" ++ getDigest "hello")
                    [("digest", getDigest "hello")] ["hel"; "lo"])
           (request "GET" ("/v2/lib/app/blobs/" ++ getDigest "hello") [] [])
           "lib/app" "session-0" "hello"
           (os.PathError "open" "/data/lib/app/_blobs/session-0" os.ENOENT)).
  - vm_compute. reflexivity.
  - repeat constructor.
  - vm_compute. reflexivity.
  - vm_compute. reflexivity.
  - vm_compute. reflexivity.
  - vm_compute. reflexivity.
  - vm_compute. reflexivity.
  - vm_compute. reflexivity.
  - vm_compute. reflexivity.
  - vm_compute. reflexivity.
  - vm_compute. reflexivity.
  - vm_compute. reflexivity.
  - intros x. vm_compute. discriminate.
Defined.

(* ================================================================= *)
(** ** The tags of a repository *)

Module tags_facts.
Import strings strings_facts os os_facts digest_facts endpoint_facts path_facts.
Import route_facts storage_facts reply_facts refusal_facts keyword_facts.






End tags_facts.





(** X14: [getDigest] returns, for every input, [sha256:] followed by 64
    lower-case hexadecimal digits: a text of 71 bytes that matches the
    digest grammar, does not match the reference grammar, and can name a
    file. *)
Theorem getDigest_is_a_digest :
  forall b : string,
    (exists h, getDigest b = "sha256:" ++ h /\ String.length h = 64
               /\ all_chars lower_hex h = true)
    /\ String.length (getDigest b) = 71
    /\ matches digestRegex (getDigest b) = true
    /\ matches refRegex (getDigest b) = false
    /\ file_name (getDigest b).
Proof.
  intros b. destruct (digest_facts.getDigest_shape b) as (E & Hl & Hc).
  split; [exists (digest_hex b); now repeat split|].
  split; [apply digest_facts.getDigest_length|].
  split; [apply digest_facts.getDigest_matches_digestRegex|].
  split; [apply digest_facts.getDigest_not_refRegex|].
  apply route_facts.digest_file_name, digest_facts.getDigest_matches_digestRegex.
Qed.

(* ================================================================= *)
(** ** A chunk after the first, and a mount that cannot be made *)

Module chunk_facts.
Import strings strings_facts os os_facts digest_facts endpoint_facts path_facts body_facts.
Import route_facts storage_facts reply_facts refusal_facts keyword_facts.






(** end-11 when the blob cannot be mounted. *)
Lemma end_11_fallback (env : environ) (r : Request) (name endpoint : string) (st : state)
      (b : bool) :
  Method r = "POST" ->
  Contains endpoint "/blobs/uploads/" = true ->
  fileExists (st_fs st)
             (path.Join [rootDir env; FormValue r "from"; "_blobs"; FormValue r "mount"])
  = Ok b ->
  b = false \/ FormValue r "from" = "" ->
  end_11 env r name endpoint st
  = (Returned,
     mkSt (st_fs st)
          (WriteHeader 202
             (Header_Set "Location"
                         ("/v2/" ++ name ++ "/blobs/uploads/" ++ uuid_Generate env (st_ids st))
                         (st_w st)))
          (st_body st) (S (st_ids st))).
Proof.
  intros HM HC HF Hcase. unfold end_11. rewrite HM, HC.
  cbn [String.eqb Ascii.eqb Bool.eqb andb when].
  unfold bind at 1, get_fs at 1. rewrite HF.
  assert (Hc : negb b || (FormValue r "from" =? "") = true).
  { destruct Hcase as [-> | ->]; [reflexivity | apply orb_true_r]. }
  rewrite Hc. reflexivity.
Qed.

End chunk_facts.



(** X16: a POST on an upload endpoint with a [mount] that cannot be made,
    because the blob is not in the repository [from] or [from] is empty,
    is answered 202 with the location of a new upload session; the storage
    stays as it is. *)
Theorem mount_falls_back_to_upload :
  forall (env : environ) (fs : os.node) (ids : nat) (r : Request) (name : string) (b : bool),
    Method r = "POST" ->
    parseName (RequestURI r) = Ok name ->
    matches nameRegex name = true ->
    strings.Contains (strings.TrimPrefix (RequestURI r) ("/v2/" ++ name))
                     "/blobs/uploads/" = true ->
    strings.HasSuffix (strings.TrimPrefix (RequestURI r) ("/v2/" ++ name))
                      "/blobs/uploads/" = false ->
    FormValue r "mount" <> "" ->
    fileExists fs (path.Join [rootDir env; FormValue r "from"; "_blobs"; FormValue r "mount"])
    = Ok b ->
    b = false \/ FormValue r "from" = "" ->
    serve env fs ids r
    = (Response 202
                [("Location", "/v2/" ++ name ++ "/blobs/uploads/" ++ uuid_Generate env ids)] "",
       fs, S ids).
Proof.
  intros env fs ids r name b HM Hname Hgram HC HS Hmount HF Hcase.
  pose proof (chunk_facts.end_11_fallback env r name _
                (mkSt fs (new_ResponseWriter r) (Body r) ids) b HM HC HF Hcase) as H11.
  unfold serve. rewrite (route_facts.handler_named env r name _ Hname Hgram).
  apply String.eqb_neq in Hmount.
  unfold endpoints, end_2, end_3, end_4a, end_4b, end_5, end_6, end_7, end_8a, end_8b,
    end_9, end_10, is_GET_or_HEAD.
  rewrite !HM, HC, HS, Hmount. cbn [String.eqb Ascii.eqb Bool.eqb andb orb when].
  repeat (rewrite bind_ret; cbv beta).
  rewrite (bind_Returned _ _ _ _ H11).
  cbn [st_fs st_w st_body st_ids]. unfold new_ResponseWriter. rewrite HM.
  reflexivity.
Qed.

Lemma mount_falls_back_to_upload_witness :
  serve sample_env empty_storage 0
        (request "POST" ("/v2/lib/app/blobs/uploads/?mount=" ++ digest_hello ++ "&from=lib-b")
                 [("mount", digest_hello); ("from", "lib-b")] [])
  = (Response 202 [("Location", "/v2/lib/app/blobs/uploads/session-0")] "",
     empty_storage, 1).
Proof.
  apply (mount_falls_back_to_upload sample_env empty_storage 0
           (request "POST"
                    ("/v2/lib/app/blobs/uploads/?mount=" ++ digest_hello ++ "&from=lib-b")
                    [("mount", digest_hello); ("from", "lib-b")] [])
           "lib/app" false);
    try (vm_compute; reflexivity).
  - vm_compute. discriminate.
  - now left.
Defined.

(* ================================================================= *)
(** ** [path.Clean] on a clean path *)

Module clean_facts.
Import strings strings_facts os os_facts digest_facts endpoint_facts path_facts.

Lemma step_shape (rooted : bool) (kept : list string) (c : string) :
  has_char "/" c = false -> kept_shape rooted kept -> kept_shape rooted (path.step rooted kept c).
Proof.
  intros Hc (names & k & -> & Hn & Hk). unfold path.step.
  destruct (String.eqb_spec c "") as [->|N1]; [now exists names, k|].
  destruct (String.eqb_spec c ".") as [->|N2]; [now exists names, k|].
  cbn [orb].
  destruct (String.eqb_spec c "..") as [->|N3].
  - destruct names as [|n ns].
    + cbn [app]. destruct k as [|k]; cbn [repeat].
      * destruct rooted; [now exists [], 0 | exists [], 1; repeat split; auto; discriminate].
      * exists [], (S (S k)). repeat split; auto.
        intros Hr. specialize (Hk Hr). discriminate.
    + cbn [app]. inversion Hn as [|? ? Hfn Hns]; subst.
      destruct Hfn as (_ & _ & Hdd & _). apply String.eqb_neq in Hdd. rewrite Hdd.
      now exists ns, k.
  - exists (c :: names), k. repeat split; auto. constructor; [|exact Hn]. now repeat split.
Qed.

Lemma fold_shape (rooted : bool) :
  forall (cs kept : list string),
    Forall (fun c => has_char "/" c = false) cs -> kept_shape rooted kept ->
    kept_shape rooted (fold_left (path.step rooted) cs kept).
Proof.
  induction cs as [|c cs IH]; intros kept Hcs Hk; [exact Hk|].
  inversion Hcs; subst. cbn [fold_left]. apply IH; [assumption|]. now apply step_shape.
Qed.

Lemma Split_pieces_no_slash (s : string) :
  Forall (fun c => has_char "/" c = false) (Split s "/").
Proof.
  induction s as [|x s IH]; [repeat constructor|].
  destruct (Ascii.eqb x "/") eqn:E.
  - apply Ascii.eqb_eq in E. subst x. rewrite Split_slash. constructor; [reflexivity | exact IH].
  - rewrite (Split_other _ _ E). pose proof (Split_not_nil s) as Hn.
    destruct (Split s "/") as [|p ps]; [congruence|].
    inversion IH; subst. constructor; [|assumption]. simpl. now rewrite E.
Qed.

Lemma fold_dots (k : nat) :
  forall j, fold_left (path.step false) (repeat ".." k) (repeat ".." j) = repeat ".." (k + j).
Proof.
  induction k as [|k IH]; intros j; [reflexivity|].
  cbn [repeat fold_left].
  replace (path.step false (repeat ".." j) "..") with (repeat ".." (S j))
    by (destruct j; reflexivity).
  rewrite IH. f_equal. lia.
Qed.

Lemma fold_names (rooted : bool) :
  forall (l kept : list string),
    Forall file_name l ->
    fold_left (path.step rooted) l kept = (rev l ++ kept)%list.
Proof.
  induction l as [|x l IH]; intros kept Hl; [reflexivity|].
  inversion Hl; subst. cbn [fold_left rev].
  rewrite (step_file_name rooted kept x) by assumption.
  rewrite IH by assumption. now rewrite <- app_assoc.
Qed.

Lemma rev_dots (k : nat) : rev (repeat ".." k) = repeat ".." k.
Proof.
  induction k as [|k IH]; [reflexivity|]. cbn [repeat rev]. rewrite IH.
  clear IH. induction k as [|k IH]; [reflexivity|]. cbn [repeat app]. now rewrite IH.
Qed.

(** Cleaning the elements of a cleaned path gives them back. *)
Lemma refold (rooted : bool) (kept : list string) :
  kept_shape rooted kept -> fold_left (path.step rooted) (rev kept) [] = kept.
Proof.
  intros (names & k & -> & Hn & Hk).
  rewrite rev_app_distr, rev_dots, fold_left_app.
  assert (Hd : fold_left (path.step rooted) (repeat ".." k) [] = repeat ".." k).
  { destruct rooted.
    - rewrite (Hk eq_refl). reflexivity.
    - change (@nil string) with (repeat ".." 0) at 1. rewrite fold_dots. f_equal. lia. }
  rewrite Hd, fold_names by (apply Forall_rev; exact Hn).
  now rewrite rev_involutive.
Qed.

Lemma Split_Join (l : list string) :
  Forall (fun c => has_char "/" c = false) l -> l <> [] -> Split (Join l "/") "/" = l.
Proof.
  induction l as [|a l IH]; intros Hl Hne; [congruence|].
  inversion Hl as [|? ? Ha Hl']; subst.
  destruct l as [|b l]; [exact (Split_no_slash a Ha)|].
  change (Join (a :: b :: l) "/") with (a ++ String "/" (Join (b :: l) "/")).
  rewrite Split_app, (Split_no_slash a Ha), IH by (assumption || discriminate).
  reflexivity.
Qed.

Lemma shape_no_slash (rooted : bool) (kept : list string) :
  kept_shape rooted kept -> Forall (fun c => has_char "/" c = false) kept.
Proof.
  intros (names & k & -> & Hn & _). apply Forall_app. split.
  - eapply Forall_impl; [|exact Hn]. now intros a (_ & _ & _ & H).
  - clear. induction k; constructor; auto.
Qed.

(** [path.Clean] gives back a path it has cleaned. *)
Lemma Clean_idempotent (p : string) : path.Clean (path.Clean p) = path.Clean p.
Proof.
  destruct (String.eqb_spec p "") as [->|Hp]; [reflexivity|].
  set (rooted := HasPrefix p "/").
  set (kept := fold_left (path.step rooted) (Split p "/") []).
  assert (Hshape : kept_shape rooted kept).
  { apply fold_shape; [apply Split_pieces_no_slash|].
    exists [], 0. repeat split; auto. }
  assert (Hns : Forall (fun c => has_char "/" c = false) (rev kept))
    by (apply Forall_rev, (shape_no_slash rooted), Hshape).
  assert (Hne : forall x, In x (rev kept) -> x <> "").
  { intros x Hx. apply in_rev in Hx. destruct Hshape as (names & k & E & Hn & _).
    rewrite E in Hx. apply in_app_or in Hx as [Hx|Hx].
    - rewrite Forall_forall in Hn. now destruct (Hn x Hx).
    - apply repeat_spec in Hx. subst. discriminate. }
  assert (Hcp : path.Clean p
                = if (if rooted then "/" else "") ++ Join (rev kept) "/" =? "" then "."
                  else (if rooted then "/" else "") ++ Join (rev kept) "/").
  { unfold path.Clean. apply String.eqb_neq in Hp. now rewrite Hp. }
  rewrite Hcp. clear Hcp.
  destruct (String.eqb_spec ((if rooted then "/" else "") ++ Join (rev kept) "/") "")
    as [E|NE]; [reflexivity|].
  unfold path.Clean.
  destruct (String.eqb_spec ((if rooted then "/" else "") ++ Join (rev kept) "/") "")
    as [E|_]; [congruence|].
  assert (Hr : HasPrefix ((if rooted then "/" else "") ++ Join (rev kept) "/") "/" = rooted).
  { destruct rooted; [reflexivity|]. cbn [String.append].
    destruct (rev kept) as [|x l] eqn:Ek; [reflexivity|].
    assert (Hx : x <> "") by (apply Hne; now left).
    inversion Hns as [|? ? Hxs _]; subst.
    destruct x as [|c x]; [congruence|]. simpl in Hxs.
    apply orb_false_iff in Hxs as [Hc _].
    destruct l; cbn [Join String.append HasPrefix]; now rewrite Hc. }
  rewrite Hr.
  assert (Hce : path.clean_elems rooted
                  (Split ((if rooted then "/" else "") ++ Join (rev kept) "/") "/")
                = rev kept).
  { unfold path.clean_elems.
    destruct (rev kept) as [|x l] eqn:Ek.
    - destruct rooted; [reflexivity|]. cbn [Join String.append] in NE. congruence.
    - assert (Hs : Split (Join (x :: l) "/") "/" = x :: l)
        by (apply Split_Join; [exact Hns | discriminate]).
      assert (Hf : fold_left (path.step rooted) (x :: l) [] = kept).
      { rewrite <- Ek. now apply refold. }
      destruct rooted.
      + cbn [String.append]. rewrite Split_slash, Hs.
        change (fold_left (path.step true) ("" :: x :: l) [])
          with (fold_left (path.step true) (x :: l) []).
        now rewrite Hf.
      + cbn [String.append]. now rewrite Hs, Hf. }
  rewrite Hce.
  destruct (String.eqb_spec ((if rooted then "/" else "") ++ Join (rev kept) "/") "")
    as [E|_]; [congruence | reflexivity].
Qed.

(** The walk to a file named through the joined path of its repository. *)
Lemma resolve_nested (env : environ) (name a b : string) :
  name <> "" -> file_name a -> file_name b ->
  resolve (path.Join [path.Join [rootDir env; name]; a; b])
  = (resolve (path.Join [rootDir env; name]) ++ [a; b])%list
  /\ (path.Join [path.Join [rootDir env; name]; a; b] =? "") = false.
Proof.
  intros Hn Ha Hb.
  set (X := path.Join [rootDir env; name]).
  assert (HX : X <> "") by (apply Join_not_empty, Hn).
  assert (HJ : path.Join [X] = X).
  { unfold path.Join at 1. cbn [filter]. apply String.eqb_neq in HX. rewrite HX.
    cbn [negb Join]. unfold X, path.Join. cbn [filter].
    apply String.eqb_neq in Hn. rewrite Hn. cbn [negb].
    destruct (rootDir env =? ""); cbn [negb]; apply Clean_idempotent. }
  destruct (resolve_Join_snoc [X; a] b Hb) as [H1 H2].
  destruct (resolve_Join_snoc [X] a Ha) as [H3 _].
  split; [|now apply String.eqb_neq].
  change [X; a; b] with ([X; a] ++ [b])%list. rewrite H1.
  change [X; a] with ([X] ++ [a])%list. rewrite H3, HJ, <- app_assoc. reflexivity.
Qed.

End clean_facts.

(* ================================================================= *)
(** ** A manifest by its tag *)

Module manifest_facts.
Import strings strings_facts os os_facts digest_facts endpoint_facts path_facts.
Import route_facts storage_facts reply_facts refusal_facts keyword_facts removal_facts.
Import clean_facts.

(** After end-3, no other matcher answers a GET or a HEAD on
    [/manifests/t]. *)
Lemma GET_manifests_endpoints (env : environ) (r : Request) (name t : string)
      (st st' : state) :
  Method r = "GET" \/ Method r = "HEAD" ->
  has_char "/" t = false ->
  end_3 env r name ("/manifests/" ++ t) st = (Next tt, st') ->
  endpoints env r name ("/manifests/" ++ t) st = (Next tt, st').
Proof.
  intros HM Ht H3. unfold endpoints.
  rewrite (bind_Next _ _ _ _ _ (end_2_not_manifests env r name t st Ht)).
  rewrite (bind_Next _ _ _ _ _ H3).
  pose proof (keyword_endpoint_tags "manifests" t eq_refl Ht ltac:(discriminate)) as H4.
  change (String "/" ("manifests" ++ String "/" t)) with ("/manifests/" ++ t) in H4.
  unfold end_4a, end_4b, end_5, end_6, end_7, end_8a, end_8b, end_9, end_10, end_11,
    end_12a, end_12b, end_13.
  rewrite (manifests_endpoint_Contains t "b" "lobs/uploads/" Ht eq_refl eq_refl).
  rewrite (manifests_endpoint_Contains t "r" "eferrers/" Ht eq_refl eq_refl), H4.
  rewrite !andb_false_r.
  destruct HM as [HM|HM]; rewrite !HM; reflexivity.
Qed.

(** The file that end-3 opens for a reference is the manifest of the tag. *)
Lemma Open_nested (env : environ) (name ref : string) (fs : node) :
  name <> "" -> file_name ref ->
  walk (resolve (path.Join [path.Join [rootDir env; name]; ref; "manifest.json"])) fs
  = walk (resolve (path.Join [rootDir env; name; ref; "manifest.json"])) fs
  /\ (path.Join [path.Join [rootDir env; name]; ref; "manifest.json"] =? "") = false
  /\ (path.Join [rootDir env; name; ref; "manifest.json"] =? "") = false.
Proof.
  intros Hn Hr.
  destruct (resolve_nested env name ref "manifest.json" Hn Hr file_name_manifest_json)
    as [H1 H2].
  destruct (resolve_in_directory env name ref "manifest.json" Hr file_name_manifest_json)
    as [H3 H4].
  now rewrite H1, H3.
Qed.

(** end-3 on the reference of a manifest that can be read. *)
Lemma end_3_reference_found (env : environ) (r : Request) (name ref d : string) (st : state) :
  Method r = "GET" \/ Method r = "HEAD" ->
  name <> "" ->
  matches refRegex ref = true ->
  wroteHeader (st_w st) = false ->
  readFile (st_fs st) (path.Join [rootDir env; name; ref; "manifest.json"]) = Ok d ->
  end_3 env r name ("/manifests/" ++ ref) st
  = (Next tt,
     mkSt (st_fs st)
          (WriteHeader 200
             (if (Method r =? "GET") && negb (d =? "") then fst (Write d (st_w st))
              else st_w st))
          (st_body st) (st_ids st)).
Proof.
  intros HM Hn Href Hfresh HR.
  pose proof (reference_is_file_name ref Href) as Hfr.
  destruct Hfr as (F1 & F2 & F3 & Hs).
  destruct (Open_nested env name ref (st_fs st) Hn (conj F1 (conj F2 (conj F3 Hs))))
    as (Hw & Hne1 & Hne2).
  apply readFile_Open in HR. rewrite (Open_walk _ _ Hne2) in HR.
  assert (HO : os.Open (st_fs st)
                       (path.Join [path.Join [rootDir env; name]; ref; "manifest.json"])
               = Ok (File d)).
  { rewrite (Open_walk _ _ Hne1), Hw.
    destruct (walk _ (st_fs st)) as [x|]; [|discriminate]. now injection HR as ->. }
  unfold end_3.
  assert (Hg : is_GET_or_HEAD r = true).
  { unfold is_GET_or_HEAD. destruct HM as [-> | ->]; reflexivity. }
  rewrite Hg, manifests_endpoint_self, (manifests_endpoint_last ref Hs), Href.
  cbn [andb orb negb when].
  unfold bind at 1, get_fs at 1. unfold bind at 1, ret at 1.
  unfold fileExists, readFile. rewrite HO. cbn [read_node].
  destruct (Method r =? "GET") eqn:EG; cbn [when andb].
  - unfold Buffer_WriteTo. destruct (d =? "") eqn:Ed; cbn [negb].
    + reflexivity.
    + unfold bind, w_Write, w_WriteHeader, on_w, ret. cbn [st_fs st_w st_body st_ids].
      pose proof (Write_no_error d (st_w st) Hfresh) as HW.
      destruct (Write d (st_w st)) as [w' e]. cbn [snd] in HW. subst e. reflexivity.
  - reflexivity.
Qed.

(** end-3 on the reference of a tag without manifest. *)
Lemma end_3_reference_missing (env : environ) (r : Request) (name ref : string) (st : state) :
  Method r = "GET" \/ Method r = "HEAD" ->
  name <> "" ->
  matches refRegex ref = true ->
  fileExists (st_fs st) (path.Join [rootDir env; name; ref; "manifest.json"]) = Ok false ->
  end_3 env r name ("/manifests/" ++ ref) st
  = (Next tt, mkSt (st_fs st) (WriteHeader 404 (st_w st)) (st_body st) (st_ids st)).
Proof.
  intros HM Hn Href HF.
  pose proof (reference_is_file_name ref Href) as Hfr.
  destruct Hfr as (F1 & F2 & F3 & Hs).
  destruct (Open_nested env name ref (st_fs st) Hn (conj F1 (conj F2 (conj F3 Hs))))
    as (Hw & Hne1 & Hne2).
  rewrite (fileExists_walk _ _ _ Hne2 eq_refl) in HF.
  assert (HF' : fileExists (st_fs st)
                  (path.Join [path.Join [rootDir env; name]; ref; "manifest.json"])
                = Ok false).
  { rewrite (fileExists_walk _ _ _ Hne1 eq_refl), Hw.
    destruct (walk _ (st_fs st)) as [x|e]; [discriminate|].
    destruct (is_ENOENT e); [reflexivity | discriminate]. }
  unfold end_3.
  assert (Hg : is_GET_or_HEAD r = true).
  { unfold is_GET_or_HEAD. destruct HM as [-> | ->]; reflexivity. }
  rewrite Hg, manifests_endpoint_self, (manifests_endpoint_last ref Hs), Href.
  cbn [andb orb negb when].
  unfold bind at 1, get_fs at 1. unfold bind at 1, ret at 1. rewrite HF'. reflexivity.
Qed.

End manifest_facts.

(** X17: a GET of a manifest by a reference whose tag holds a readable
    [manifest.json] returns its bytes with status 200, a HEAD the same
    without the bytes; when the tag holds no such file the answer is 404
    without a body; the storage stays as it is. *)
Theorem manifest_by_tag_is_served :
  forall (env : environ) (fs : os.node) (ids : nat) (r : Request) (name ref : string),
    matches nameRegex name = true ->
    keyword_free (strings.Split name "/") ->
    matches refRegex ref = true ->
    Method r = "GET" \/ Method r = "HEAD" ->
    RequestURI r = "/v2/" ++ name ++ "/manifests/" ++ ref ->
    (forall d : string,
        readFile fs (path.Join [rootDir env; name; ref; "manifest.json"]) = Ok d ->
        serve env fs ids r
        = (Response 200 [] (if Method r =? "HEAD" then "" else d), fs, ids))
    /\ (fileExists fs (path.Join [rootDir env; name; ref; "manifest.json"]) = Ok false ->
        serve env fs ids r = (Response 404 [] "", fs, ids)).
Proof.
  intros env fs ids r name ref Hname Hkw Href HM HU.
  pose proof (name_not_empty name Hname) as Hn.
  destruct (digest_facts.reference_is_file_name ref Href) as (_ & _ & _ & Hs).
  split.
  - intros d HR.
    pose proof (manifest_facts.end_3_reference_found env r name ref d
                  (mkSt fs (new_ResponseWriter r) (Body r) ids) HM Hn Href eq_refl HR) as H3.
    apply (manifest_facts.GET_manifests_endpoints env r name ref _ _ HM Hs) in H3.
    rewrite (reply_facts.serve_endpoint env fs ids r name "manifests" ref _ _ Hname Hkw
               eq_refl HU H3) by discriminate.
    cbn [st_fs st_w st_body st_ids]. unfold new_ResponseWriter.
    destruct HM as [HM|HM]; rewrite HM; cbn [String.eqb Ascii.eqb Bool.eqb andb].
    + destruct (d =? "") eqn:Ed.
      * apply String.eqb_eq in Ed. subst d. reflexivity.
      * unfold Write, WriteHeader, finish. cbn. rewrite Ed. reflexivity.
    + reflexivity.
  - intros HF.
    pose proof (manifest_facts.end_3_reference_missing env r name ref
                  (mkSt fs (new_ResponseWriter r) (Body r) ids) HM Hn Href HF) as H3.
    apply (manifest_facts.GET_manifests_endpoints env r name ref _ _ HM Hs) in H3.
    now rewrite (reply_facts.serve_endpoint env fs ids r name "manifests" ref _ _ Hname Hkw
                   eq_refl HU H3) by discriminate.
Qed.

Lemma manifest_by_tag_is_served_witness :
  serve sample_env (repository [tag "v1" "{}"]) 0
        (request "GET" "/v2/lib/app/manifests/v1" [] [])
  = (Response 200 [] "{}", repository [tag "v1" "{}"], 0)
  /\ serve sample_env (repository [tag "v1" "{}"]) 0
           (request "HEAD" "/v2/lib/app/manifests/v2" [] [])
     = (Response 404 [] "", repository [tag "v1" "{}"], 0).
Proof.
  split.
  - apply (proj1 (manifest_by_tag_is_served sample_env (repository [tag "v1" "{}"]) 0
                    (request "GET" "/v2/lib/app/manifests/v1" [] []) "lib/app" "v1"
                    eq_refl ltac:(repeat constructor) eq_refl (or_introl eq_refl) eq_refl)
                 "{}").
    vm_compute. reflexivity.
  - apply (proj2 (manifest_by_tag_is_served sample_env (repository [tag "v1" "{}"]) 0
                    (request "HEAD" "/v2/lib/app/manifests/v2" [] []) "lib/app" "v2"
                    eq_refl ltac:(repeat constructor) eq_refl (or_intror eq_refl) eq_refl)).
    vm_compute. reflexivity.
Defined.

(** X18: a PUT of the manifest [M] under a reference, when the tag
    directory can be made and holds no directory [manifest.json], is
    answered 201 with the location of the digest of [M], and the GET of the
    same reference then returns the bytes of [M]. *)
Theorem manifest_put_then_get_by_tag :
  forall (env : environ) (fs fs1 : os.node) (ids ids' : nat) (put get : Request)
         (name ref M : string),
    matches nameRegex name = true ->
    keyword_free (strings.Split name "/") ->
    matches refRegex ref = true ->
    Method put = "PUT" ->
    RequestURI put = "/v2/" ++ name ++ "/manifests/" ++ ref ->
    body_bytes (Body put) = M ->
    Method get = "GET" ->
    RequestURI get = "/v2/" ++ name ++ "/manifests/" ++ ref ->
    os.MkdirAll fs (path.Join [rootDir env; name; ref]) = Ok fs1 ->
    (forall e, os.Open fs (path.Join [rootDir env; name; ref; "manifest.json"])
               <> Ok (os.Dir e)) ->
    exists fs2 : os.node,
      serve env fs ids put
      = (Response 201 [("Location", "/v2/" ++ name ++ "/manifests/" ++ getDigest M)] "",
         fs2, ids)
      /\ serve env fs2 ids' get = (Response 200 [] M, fs2, ids').
Proof.
  intros env fs fs1 ids ids' put get name ref M Hname Hkw Href HMp HUp HB HMg HUg Hmk Hnd.
  pose proof (name_not_empty name Hname) as Hn.
  pose proof (digest_facts.reference_is_file_name ref Href) as Hfr.
  pose proof Hfr as (_ & _ & _ & Hs).
  destruct (end_7_run env name ref Href put
                      (mkSt fs (new_ResponseWriter put) (Body put) ids) fs1 HMp Hmk Hnd)
    as (fs2 & ents2 & er & H7 & Hh & _).
  cbn [st_fs st_w st_body st_ids] in H7, Hh. rewrite HB in H7, Hh.
  exists fs2. split.
  - apply (PUT_manifest_endpoints env put name ref _ _ HMp Hs) in H7.
    rewrite (reply_facts.serve_endpoint env fs ids put name "manifests" ref _ _ Hname Hkw
               eq_refl HUp H7) by discriminate.
    unfold new_ResponseWriter. rewrite HMp. generalize (getDigest M). reflexivity.
  - assert (HR : readFile fs2 (path.Join [rootDir env; name; ref; "manifest.json"]) = Ok M).
    { unfold readFile.
      now rewrite (upload_facts.Open_in_directory env name ref "manifest.json" fs2 ents2 M
                     Hfr path_facts.file_name_manifest_json Hh). }
    pose proof (manifest_facts.end_3_reference_found env get name ref M
                  (mkSt fs2 (new_ResponseWriter get) (Body get) ids')
                  (or_introl HMg) Hn Href eq_refl HR) as H3.
    apply (manifest_facts.GET_manifests_endpoints env get name ref _ _ (or_introl HMg) Hs)
      in H3.
    rewrite (reply_facts.serve_endpoint env fs2 ids' get name "manifests" ref _ _ Hname Hkw
               eq_refl HUg H3) by discriminate.
    cbn [st_fs st_w st_body st_ids]. unfold new_ResponseWriter.
    rewrite HMg; cbn [String.eqb Ascii.eqb Bool.eqb andb].
    destruct (M =? "") eqn:Ed.
    + apply String.eqb_eq in Ed. rewrite Ed. reflexivity.
    + unfold Write, WriteHeader, finish. cbn. rewrite Ed. reflexivity.
Qed.

Lemma manifest_put_then_get_by_tag_witness :
  exists fs2 : os.node,
    serve sample_env empty_storage 0 (request "PUT" "/v2/lib/app/manifests/v1" [] ["{}"])
    = (Response 201 [("Location", "/v2/lib/app/manifests/" ++ getDigest "{}")] "", fs2, 0)
    /\ serve sample_env fs2 0 (request "GET" "/v2/lib/app/manifests/v1" [] [])
       = (Response 200 [] "{}", fs2, 0).
Proof.
  apply (manifest_put_then_get_by_tag sample_env empty_storage
           (repository [("v1", os.Dir [])]) 0 0
           (request "PUT" "/v2/lib/app/manifests/v1" [] ["{}"])
           (request "GET" "/v2/lib/app/manifests/v1" [] [])
           "lib/app" "v1" "{}");
    try (vm_compute; reflexivity).
  - repeat constructor.
  - intros e. vm_compute. discriminate.
Defined.
